(** * AI-Resume-Analyzer: extraction and scoring engine

    A shallow embedding of [nlp_processor.py] (class [AdvancedResumeAnalyzer])
    and [ml_model.py] (class [AdvancedScoringModel]), and the properties of
    the specification checked against it.

    Conventions of the embedding.
    - A Python [str] is a [string] of 8-bit characters: the model covers
      ASCII text (the symbols that open some fixed messages of the source
      are kept as their UTF-8 bytes).  The two non-ASCII characters of the source's character
      classes (the en dash U+2013 of the dash class and the bullet U+2022 of the
      bullet class) are outside
      that range, so on modelled text those classes reduce to their ASCII
      members.
    - Python [int] is [Z]; Python [float] is the exact rational [Q]
      ([round(x, 2)] rounds the rational half-to-even).
    - Dictionaries with a fixed key set are records; dictionaries that are
      iterated are association lists in insertion order.
    - A Python [set] of strings is the list of its insertions; its length
      counts distinct elements and its iteration order is supplied by the
      runtime ([PyRuntime]), which only promises a permutation of the
      distinct elements.
    - [re] patterns are syntax trees run by a backtracking matcher with the
      priorities of Python's [re] module (leftmost match, greedy and lazy
      repetition, ordered alternation). *)

From Stdlib Require Import String Ascii List Bool Arith ZArith QArith Lia Lqa Permutation.
From Stdlib Require Import Sorted.
Import ListNotations.

Local Close Scope Q_scope.
Local Open Scope string_scope.
Local Open Scope nat_scope.

(** ** Python strings *)

Module PyStr.

Definition code (c : ascii) : nat := nat_of_ascii c.

Definition is_digit (c : ascii) : bool := (48 <=? code c) && (code c <=? 57).
Definition is_upper (c : ascii) : bool := (65 <=? code c) && (code c <=? 90).
Definition is_lower (c : ascii) : bool := (97 <=? code c) && (code c <=? 122).
Definition is_alpha (c : ascii) : bool := is_upper c || is_lower c.

(** [\w] on ASCII text: letters, digits and the underscore. *)
Definition is_word (c : ascii) : bool := is_alpha c || is_digit c || (code c =? 95).

(** [str.isspace] / [\s] on ASCII text: TAB..CR, FS..US and the blank. *)
Definition is_space (c : ascii) : bool :=
  ((9 <=? code c) && (code c <=? 13)) || ((28 <=? code c) && (code c <=? 32)).

Definition newline : ascii := ascii_of_nat 10.

Definition lower_char (c : ascii) : ascii :=
  if is_upper c then ascii_of_nat (code c + 32) else c.
Definition upper_char (c : ascii) : ascii :=
  if is_lower c then ascii_of_nat (code c - 32) else c.

Fixpoint map_chars (f : ascii -> ascii) (s : string) : string :=
  match s with
  | EmptyString => EmptyString
  | String c t => String (f c) (map_chars f t)
  end.

(** [s.lower()] and [s.upper()] *)
Definition lower : string -> string := map_chars lower_char.
Definition upper : string -> string := map_chars upper_char.

(** [len(s)] *)
Definition len (s : string) : nat := String.length s.

(** [s[:n]] *)
Fixpoint take (n : nat) (s : string) : string :=
  match n, s with
  | S k, String c t => String c (take k t)
  | _, _ => EmptyString
  end.

(** [s[n:]] *)
Fixpoint drop (n : nat) (s : string) : string :=
  match n, s with
  | S k, String _ t => drop k t
  | _, _ => s
  end.

(** [s[i:j]] *)
Definition slice (i j : nat) (s : string) : string := take (j - i) (drop i s).

Fixpoint starts_with (p s : string) : bool :=
  match p, s with
  | EmptyString, _ => true
  | String a p', String b s' => Ascii.eqb a b && starts_with p' s'
  | String _ _, EmptyString => false
  end.

(** [sub in s] *)
Fixpoint contains (sub s : string) : bool :=
  starts_with sub s ||
  match s with
  | EmptyString => false
  | String _ t => contains sub t
  end.

(** [any(k in s for k in keys)] *)
Definition any_in (keys : list string) (s : string) : bool :=
  existsb (fun k => contains k s) keys.

Fixpoint lstrip (s : string) : string :=
  match s with
  | String c t => if is_space c then lstrip t else s
  | EmptyString => EmptyString
  end.

Fixpoint rstrip (s : string) : string :=
  match s with
  | EmptyString => EmptyString
  | String c t =>
      match rstrip t with
      | EmptyString => if is_space c then EmptyString else String c EmptyString
      | t' => String c t'
      end
  end.

(** [s.strip()] *)
Definition strip (s : string) : string := rstrip (lstrip s).

(** [s.split('\n')]: the accumulator [cur] holds the line being read. *)
Fixpoint split_lines_acc (cur : string) (s : string) : list string :=
  match s with
  | EmptyString => [cur]
  | String c t =>
      if Ascii.eqb c newline then cur :: split_lines_acc EmptyString t
      else split_lines_acc (cur ++ String c EmptyString) t
  end.
Definition split_lines (s : string) : list string := split_lines_acc EmptyString s.

(** [sep.join(parts)] *)
Fixpoint join (sep : string) (parts : list string) : string :=
  match parts with
  | [] => EmptyString
  | [p] => p
  | p :: rest => p ++ sep ++ join sep rest
  end.

(** [s.isdigit()] on ASCII text: non-empty and all decimal digits. *)
Fixpoint all_digits (s : string) : bool :=
  match s with
  | EmptyString => true
  | String c t => is_digit c && all_digits t
  end.
Definition isdigit (s : string) : bool :=
  match s with EmptyString => false | _ => all_digits s end.

(** [int(s)] for a string of decimal digits. *)
Fixpoint int_acc (acc : Z) (s : string) : Z :=
  match s with
  | EmptyString => acc
  | String c t => int_acc (10 * acc + Z.of_nat (code c - 48)) t
  end.
Definition int (s : string) : Z := int_acc 0 s.

(** [s.title()]: a letter is upper-cased after a non-letter and lower-cased
    after a letter. *)
Fixpoint title_from (after_letter : bool) (s : string) : string :=
  match s with
  | EmptyString => EmptyString
  | String c t =>
      String (if is_alpha c then (if after_letter then lower_char c else upper_char c) else c)
             (title_from (is_alpha c) t)
  end.
Definition title : string -> string := title_from false.

(** [s.replace(a, b)] for a one-character [a] *)
Definition replace_char (a b : ascii) : string -> string :=
  map_chars (fun c => if Ascii.eqb c a then b else c).

(** Decimal rendering: [pad k n] is [n] on [k] zero-padded digits,
    [str_nat] is [str(n)], [str_int] is [str(z)]. *)
Definition digit_char (n : nat) : ascii := ascii_of_nat (48 + n mod 10).
Fixpoint pad (k n : nat) : string :=
  match k with
  | O => EmptyString
  | S k' => pad k' (n / 10) ++ String (digit_char n) EmptyString
  end.
Fixpoint str_nat_fuel (fuel n : nat) : string :=
  match fuel with
  | O => EmptyString
  | S fuel' =>
      if n <? 10 then String (digit_char n) EmptyString
      else str_nat_fuel fuel' (n / 10) ++ String (digit_char n) EmptyString
  end.
Definition str_nat (n : nat) : string := str_nat_fuel (S n) n.
Definition str_int (z : Z) : string :=
  if (z <? 0)%Z then "-" ++ str_nat (Z.to_nat (- z)) else str_nat (Z.to_nat z).

(** [x in xs] for a list of strings *)
Definition mem (x : string) (xs : list string) : bool :=
  existsb (String.eqb x) xs.

End PyStr.

(** ** Python's [re] module *)

Module Re.
Import PyStr.

(** Pattern syntax.  [Chr] is a literal character, [Cls] a character class
    ([[...]], [\d], [\s], [\w]), [Dot] the dot, [Many true r] is [r*],
    [Many false r] is [r*?], [Cap n r] the capturing group number [n],
    [Ahead r] is [(?=r)], [WordB] is [\b], [Bos] is [^], [Eos] is [$]. *)
Inductive re : Type :=
| Chr (c : ascii)
| Cls (p : ascii -> bool)
| Dot
| Emp
| Cat (a b : re)
| Or (a b : re)
| Many (greedy : bool) (a : re)
| Cap (n : nat) (a : re)
| Ahead (a : re)
| WordB
| Bos
| Eos.

Record flags : Type := { IGNORECASE : bool; DOTALL : bool }.
Definition no_flags : flags := {| IGNORECASE := false; DOTALL := false |}.
Definition ignorecase : flags := {| IGNORECASE := true; DOTALL := false |}.
Definition ignorecase_dotall : flags := {| IGNORECASE := true; DOTALL := true |}.

(** The matcher's position: the character before it, the text after it,
    its offset, and the spans of the groups closed so far. *)
Record mstate : Type :=
  { m_prev : option ascii;
    m_rest : string;
    m_pos : nat;
    m_caps : list (nat * (nat * nat)) }.

Definition advance (st : mstate) (c : ascii) (t : string) : mstate :=
  {| m_prev := Some c; m_rest := t; m_pos := S (m_pos st); m_caps := m_caps st |}.

Definition word_opt (o : option ascii) : bool :=
  match o with Some c => is_word c | None => false end.

Definition next_char (s : string) : option ascii :=
  match s with String c _ => Some c | EmptyString => None end.

Definition chr_ok (fl : flags) (c x : ascii) : bool :=
  if IGNORECASE fl then Ascii.eqb (lower_char c) (lower_char x) else Ascii.eqb c x.

Definition cls_ok (fl : flags) (p : ascii -> bool) (x : ascii) : bool :=
  if IGNORECASE fl then p x || p (lower_char x) || p (upper_char x) else p x.

Definition dot_ok (fl : flags) (x : ascii) : bool :=
  DOTALL fl || negb (Ascii.eqb x newline).

Definition step_char (ok : ascii -> bool) (st : mstate)
    (k : mstate -> option mstate) : option mstate :=
  match m_rest st with
  | String x t => if ok x then k (advance st x t) else None
  | EmptyString => None
  end.

Definition or_else (a : option mstate) (b : unit -> option mstate) : option mstate :=
  match a with Some r => Some r | None => b tt end.

(** Backtracking match of [r] at [st], continuing with [k]; the first
    success in priority order is returned. *)
Fixpoint run (fl : flags) (r : re) (st : mstate)
    (k : mstate -> option mstate) {struct r} : option mstate :=
  match r with
  | Chr c => step_char (chr_ok fl c) st k
  | Cls p => step_char (cls_ok fl p) st k
  | Dot => step_char (dot_ok fl) st k
  | Emp => k st
  | Cat a b => run fl a st (fun st' => run fl b st' k)
  | Or a b => or_else (run fl a st k) (fun _ => run fl b st k)
  | Many greedy a =>
      (fix loop (fuel : nat) (st0 : mstate) {struct fuel} : option mstate :=
         match fuel with
         | O => k st0
         | S fuel' =>
             let again (_ : unit) :=
               run fl a st0 (fun st' =>
                 if m_pos st' =? m_pos st0 then None else loop fuel' st') in
             if greedy then or_else (again tt) (fun _ => k st0)
             else or_else (k st0) again
         end) (S (len (m_rest st))) st
  | Cap n a =>
      run fl a st (fun st' =>
        k {| m_prev := m_prev st'; m_rest := m_rest st'; m_pos := m_pos st';
             m_caps := (n, (m_pos st, m_pos st')) :: m_caps st' |})
  | Ahead a =>
      match run fl a st Some with
      | Some _ => k st
      | None => None
      end
  | WordB =>
      if xorb (word_opt (m_prev st)) (word_opt (next_char (m_rest st)))
      then k st else None
  | Bos => if m_pos st =? 0 then k st else None
  | Eos =>
      match m_rest st with
      | EmptyString => k st
      | String c EmptyString => if Ascii.eqb c newline then k st else None
      | _ => None
      end
  end.

(** A match object: the span of the whole match, the group spans, and the
    position just after the match (to resume a scan). *)
Record match_obj : Type :=
  { mo_text : string;
    mo_start : nat;
    mo_end : mstate }.

Fixpoint search_at (fl : flags) (r : re) (text : string)
    (prev : option ascii) (rest : string) (pos : nat) : option match_obj :=
  match run fl r {| m_prev := prev; m_rest := rest; m_pos := pos; m_caps := [] |} Some with
  | Some st' => Some {| mo_text := text; mo_start := pos; mo_end := st' |}
  | None =>
      match rest with
      | EmptyString => None
      | String c t => search_at fl r text (Some c) t (S pos)
      end
  end.

(** [re.search(r, text, flags)] *)
Definition search (fl : flags) (r : re) (text : string) : option match_obj :=
  search_at fl r text None text 0.

(** [m.group()] *)
Definition group0 (m : match_obj) : string :=
  slice (mo_start m) (m_pos (mo_end m)) (mo_text m).

Fixpoint find_cap (n : nat) (caps : list (nat * (nat * nat))) : option (nat * nat) :=
  match caps with
  | [] => None
  | (i, span) :: rest => if i =? n then Some span else find_cap n rest
  end.

(** [m.group(n)]; [None] when the group took no part in the match. *)
Definition group (n : nat) (m : match_obj) : option string :=
  match find_cap n (m_caps (mo_end m)) with
  | Some (i, j) => Some (slice i j (mo_text m))
  | None => None
  end.

(** The successive non-overlapping matches of [r], left to right. *)
Fixpoint matches_from (fuel : nat) (fl : flags) (r : re) (text : string)
    (prev : option ascii) (rest : string) (pos : nat) : list match_obj :=
  match fuel with
  | O => []
  | S fuel' =>
      match search_at fl r text prev rest pos with
      | None => []
      | Some m =>
          let e := mo_end m in
          if m_pos e =? mo_start m then
            match m_rest e with
            | EmptyString => [m]
            | String c t => m :: matches_from fuel' fl r text (Some c) t (S (m_pos e))
            end
          else m :: matches_from fuel' fl r text (m_prev e) (m_rest e) (m_pos e)
      end
  end.

Definition finditer (fl : flags) (r : re) (text : string) : list match_obj :=
  matches_from (S (len text)) fl r text None text 0.

(** [re.findall(r, text)] for a pattern without groups: the matched texts. *)
Definition findall (fl : flags) (r : re) (text : string) : list string :=
  map group0 (finditer fl r text).

(** [re.findall(r, text)] for a pattern with exactly one group: the texts
    of group 1, empty where the group took no part. *)
Definition findall_group1 (fl : flags) (r : re) (text : string) : list string :=
  map (fun m => match group 1 m with Some g => g | None => EmptyString end)
      (finditer fl r text).

(** [re.sub(r, repl, text)]: every match replaced by [repl]. *)
Fixpoint sub_from (ms : list match_obj) (repl text : string) (pos : nat) : string :=
  match ms with
  | [] => drop pos text
  | m :: rest =>
      slice pos (mo_start m) text ++ repl ++ sub_from rest repl text (m_pos (mo_end m))
  end.
Definition sub (fl : flags) (r : re) (repl text : string) : string :=
  sub_from (finditer fl r text) repl text 0.

(** *** Pattern notation *)

Fixpoint lit (s : string) : re :=
  match s with
  | EmptyString => Emp
  | String c EmptyString => Chr c
  | String c t => Cat (Chr c) (lit t)
  end.

Fixpoint seq (rs : list re) : re :=
  match rs with
  | [] => Emp
  | [r] => r
  | r :: rest => Cat r (seq rest)
  end.

Fixpoint alt (rs : list re) : re :=
  match rs with
  | [] => Emp
  | [r] => r
  | r :: rest => Or r (alt rest)
  end.

Definition star (r : re) : re := Many true r.          (* r*  *)
Definition lazy_star (r : re) : re := Many false r.    (* r*? *)
Definition plus (r : re) : re := Cat r (Many true r).  (* r+  *)
Definition lazy_plus (r : re) : re := Cat r (Many false r). (* r+? *)
Definition opt (r : re) : re := Or r Emp.              (* r?  *)

Fixpoint times (n : nat) (r : re) : re :=               (* r{n} *)
  match n with
  | O => Emp
  | S O => r
  | S k => Cat r (times k r)
  end.

Fixpoint upto (n : nat) (r : re) : re :=                (* r{0,n} *)
  match n with
  | O => Emp
  | S k => Or (Cat r (upto k r)) Emp
  end.

Definition rep (m n : nat) (r : re) : re :=             (* r{m,n} *)
  match m with
  | O => upto n r
  | _ => Cat (times m r) (upto (n - m) r)
  end.

Definition d : re := Cls is_digit.                      (* \d *)
Definition s : re := Cls is_space.                      (* \s *)
Definition w : re := Cls is_word.                       (* \w *)
Definition one_of (cs : string) : re :=                 (* [cs] *)
  Cls (fun x => contains (String x EmptyString) cs).
Definition none_of (cs : string) : re :=                (* [^cs] *)
  Cls (fun x => negb (contains (String x EmptyString) cs)).
Definition range (a b : ascii) : re :=                  (* [a-b] *)
  Cls (fun x => (code a <=? code x) && (code x <=? code b)).

(** [r'\b' + re.escape(word) + r'\b'] *)
Definition whole_word (word : string) : re := seq [WordB; lit word; WordB].

End Re.

(** ** The Python runtime *)

(** Iteration order of a [set] of strings.  CPython derives it from the
    string hashes, which are seeded once per process: within a process it
    is a function of the insertions, and it lists every distinct element
    exactly once. *)
Record PyRuntime : Type :=
  { set_iter : list string -> list string;
    set_iter_perm : forall l, Permutation (set_iter l) (nodup string_dec l) }.

(** [l.append(x)] *)
Definition append {A : Type} (l : list A) (x : A) : list A := (l ++ [x])%list.

(** [len(set(l))] *)
Definition set_len (l : list string) : nat := length (nodup string_dec l).

(** A reading of [datetime.now()]. *)
Record datetime : Type :=
  { year : nat; month : nat; day : nat;
    hour : nat; minute : nat; second : nat; microsecond : nat }.

(** [now.strftime("%m%d")] *)
Definition strftime_md (now : datetime) : string :=
  PyStr.pad 2 (month now) ++ PyStr.pad 2 (day now).

(** [now.isoformat()] *)
Definition isoformat (now : datetime) : string :=
  PyStr.pad 4 (year now) ++ "-" ++ PyStr.pad 2 (month now) ++ "-" ++ PyStr.pad 2 (day now)
  ++ "T" ++ PyStr.pad 2 (hour now) ++ ":" ++ PyStr.pad 2 (minute now) ++ ":"
  ++ PyStr.pad 2 (second now)
  ++ (if microsecond now =? 0 then "" else "." ++ PyStr.pad 6 (microsecond now)).

(** Rational arithmetic for Python floats. *)
Module PyNum.
Local Open Scope Q_scope.

Definition Qlt_bool (a b : Q) : bool := negb (Qle_bool b a).
Definition Qmin (a b : Q) : Q := if Qle_bool a b then a else b.
Definition Qmax (a b : Q) : Q := if Qle_bool a b then b else a.
Definition of_nat (n : nat) : Q := inject_Z (Z.of_nat n).

(** Nearest integer, ties to even. *)
Definition round_half_even (x : Q) : Z :=
  let n := Qnum x in
  let dn := Zpos (Qden x) in
  let q := (n / dn)%Z in
  let r := (n mod dn)%Z in
  if (2 * r <? dn)%Z then q
  else if (dn <? 2 * r)%Z then (q + 1)%Z
  else if Z.even q then q else (q + 1)%Z.

(** [round(x, 2)] *)
Definition round2 (x : Q) : Q := Qmake (round_half_even (x * 100)) 100.

End PyNum.

(** ** [nlp_processor.py]: class [AdvancedResumeAnalyzer] *)

Module Nlp.
Import PyStr Re.

(** *** Positions and dates *)

(** The ASCII member of the dash class (hyphen or en dash U+2013). *)
Definition dash : re := one_of "-".

Definition year20 : re := seq [lit "20"; times 2 d].
Definition present : list re := [lit "Present"; lit "Current"; lit "Now"].
Definition month_name : re :=
  alt (map lit ["Jan"; "Feb"; "Mar"; "Apr"; "May"; "Jun";
                "Jul"; "Aug"; "Sep"; "Oct"; "Nov"; "Dec"]).

(** [date_patterns] of [_extract_dates] *)
Definition date_patterns : list re :=
  [ (* "(20\d{2}[-\u2013]\s*(?:20\d{2}|Present|Current|Now))" *)
    Cap 1 (seq [year20; dash; star s; alt (year20 :: present)]);
    (* "(20\d{2})\s*[-\u2013]\s*(20\d{2}|Present|Current|Now)" *)
    seq [Cap 1 year20; star s; dash; star s; Cap 2 (alt (year20 :: present))];
    (* "(Jan|...|Dec)[a-z]*\s*\d{4}[-\u2013]\s*(?:Jan|...|Dec)[a-z]*\s*\d{4}|Present|Current|Now" *)
    alt (seq [Cap 1 month_name; star (range "a" "z"); star s; times 4 d; dash; star s;
              month_name; star (range "a" "z"); star s; times 4 d] :: present);
    (* "\b(?:19|20)\d{2}\b" *)
    seq [WordB; alt [lit "19"; lit "20"]; times 2 d; WordB] ].

(** First pattern of [pats], in order, found in [text]: the match. *)
Fixpoint first_search (fl : flags) (pats : list re) (text : string) : option match_obj :=
  match pats with
  | [] => None
  | p :: rest =>
      match search fl p text with
      | Some m => Some m
      | None => first_search fl rest text
      end
  end.

Definition _extract_dates (text : string) : string :=
  match first_search ignorecase date_patterns text with
  | Some m => group0 m
  | None => ""
  end.

(** [r'20\d{2}|19\d{2}'] *)
Definition year_token : re := alt [seq [lit "20"; times 2 d]; seq [lit "19"; times 2 d]].

Definition _calculate_position_duration (now : datetime) (dates : string) : Z :=
  match findall no_flags year_token dates with
  | y0 :: y1 :: _ =>
      let start_year := int y0 in
      let end_year := if isdigit y1 then int y1 else Z.of_nat (year now) in
      (end_year - start_year)%Z
  | _ => 0%Z
  end.

(** A title or company candidate is kept when its length lies strictly
    between [lo] and [hi]; otherwise the next pattern is tried. *)
Fixpoint first_group1 (pats : list re) (lo hi : nat) (text : string) : string :=
  match pats with
  | [] => ""
  | p :: rest =>
      match search ignorecase p text with
      | Some m =>
          let g := strip (match group 1 m with Some g => g | None => "" end) in
          if (lo <? len g) && (len g <? hi) then g else first_group1 rest lo hi text
      | None => first_group1 rest lo hi text
      end
  end.

Definition position_patterns : list re :=
  [ (* "^(.*?)(?=\s*(?:at|,|\d))" *)
    seq [Bos; Cap 1 (lazy_star Dot); Ahead (seq [star s; alt [lit "at"; lit ","; d]])];
    (* "(?:position|role|title)[:\s]+(.*?)(?=\s|$)" *)
    seq [alt [lit "position"; lit "role"; lit "title"];
         plus (Cls (fun x => Ascii.eqb x ":" || is_space x));
         Cap 1 (lazy_star Dot); Ahead (alt [s; Eos])];
    (* "^(.*?)" followed by the lookahead "(?=\s*-\s*" ")" *)
    seq [Bos; Cap 1 (lazy_star Dot); Ahead (seq [star s; lit "-"; star s])] ].

Definition _extract_position_title (text : string) : string :=
  first_group1 position_patterns 3 100 text.

Definition company_patterns : list re :=
  [ (* "at\s+([^,]+?)(?=\s|$)" *)
    seq [lit "at"; plus s; Cap 1 (lazy_plus (none_of ",")); Ahead (alt [s; Eos])];
    (* ",\s+([^,]+?)(?=\s|$)" *)
    seq [lit ","; plus s; Cap 1 (lazy_plus (none_of ",")); Ahead (alt [s; Eos])];
    (* "-\s+([^,]+?)(?=\s|$)" *)
    seq [lit "-"; plus s; Cap 1 (lazy_plus (none_of ",")); Ahead (alt [s; Eos])];
    (* "company[:\s]+(.*?)(?=\s|$)" *)
    seq [lit "company"; plus (Cls (fun x => Ascii.eqb x ":" || is_space x));
         Cap 1 (lazy_star Dot); Ahead (alt [s; Eos])] ].

Definition _extract_company_name (text : string) : string :=
  first_group1 company_patterns 2 100 text.

(** An entry of [career_progression]. *)
Record Position : Type :=
  { p_position : string;
    p_company : string;
    p_dates : string;
    p_duration_years : Z;
    p_description : string }.

Definition _extract_position_info (now : datetime) (text : string) : option Position :=
  let dates := _extract_dates text in
  if String.eqb dates "" then None
  else Some {| p_position := _extract_position_title text;
               p_company := _extract_company_name text;
               p_dates := dates;
               p_duration_years := _calculate_position_duration now dates;
               p_description := text |}.

(** *** Experience *)

(** [achievement_indicators] of [_is_achievement_advanced] *)
Definition achievement_indicators : list string :=
  ["achieved"; "increased"; "reduced"; "improved"; "led"; "managed"; "developed"; "implemented";
   "saved"; "won"; "awarded"; "recognized"; "spearheaded"; "created"; "built"; "launched";
   "optimized"; "streamlined"; "enhanced"; "delivered"; "exceeded"; "accomplished"; "completed";
   "successfully"].

Definition _is_achievement_advanced (text : string) : bool :=
  let text_lower := lower text in
  existsb (fun indicator =>
             match search no_flags (lit indicator) text_lower with
             | Some _ => true
             | None => false
             end) achievement_indicators.

(** [re.sub(r'^[bullet\-*\s]+', '', text.strip())], kept when longer than 10. *)
Definition _clean_achievement (text : string) : string :=
  let cleaned :=
    sub no_flags (seq [Bos; plus (Cls (fun x => contains (String x "") "-*" || is_space x))])
        "" (strip text) in
  if 10 <? len cleaned then cleaned else "".

(** [self.industry_sectors] *)
Definition industry_sectors_table : list (string * list string) :=
  [
   ("technology",
     ["software"; "it"; "technology"; "computer"; "programming"; "developer"; "engineer";
      "tech"]);
   ("finance",
     ["banking"; "finance"; "investment"; "accounting"; "audit"; "financial"; "bank";
      "investment"]);
   ("healthcare",
     ["medical"; "healthcare"; "hospital"; "pharmaceutical"; "nursing"; "doctor"; "health";
      "clinic"]);
   ("education",
     ["education"; "teaching"; "academic"; "university"; "school"; "lecturer"; "college";
      "institution"]);
   ("manufacturing",
     ["manufacturing"; "production"; "factory"; "industrial"; "engineering"; "plant";
      "assembly"]);
   ("retail",
     ["retail"; "sales"; "customer service"; "merchandising"; "store"; "shop"; "outlet"]);
   ("marketing",
     ["marketing"; "advertising"; "brand"; "digital marketing"; "social media"; "promotion"]);
   ("government",
     ["government"; "public sector"; "municipal"; "civil service"; "public service"]);
   ("consulting",
     ["consulting"; "consultant"; "advisory"; "strategy consulting"]);
   ("nonprofit",
     ["nonprofit"; "ngo"; "non-governmental"; "charity"; "non profit"])
  ].

Fixpoint first_key_in (table : list (string * list string)) (text_lower : string) : string :=
  match table with
  | [] => ""
  | (key, keywords) :: rest =>
      if any_in keywords text_lower then key else first_key_in rest text_lower
  end.

Definition _detect_industry_sector_advanced (text : string) : string :=
  first_key_in industry_sectors_table (lower text).

Definition _calculate_total_experience_advanced (career_progression : list Position) : Z :=
  match career_progression with
  | [] => 0%Z
  | _ =>
      let total_years :=
        fold_left (fun total position =>
                     let duration := p_duration_years position in
                     if (0 <? duration)%Z then (total + duration)%Z else total)
                  career_progression 0%Z in
      Z.min total_years 50
  end.

Definition _determine_experience_level_advanced (years : Z) : string :=
  if (years <? 1)%Z then "Entry Level (0-1 years)"
  else if (years <? 3)%Z then "Junior Level (1-3 years)"
  else if (years <? 7)%Z then "Mid Level (3-7 years)"
  else if (years <? 15)%Z then "Senior Level (7-15 years)"
  else "Executive Level (15+ years)".

Definition sum_durations (positions : list Position) : Z :=
  fold_left (fun acc pos => (acc + p_duration_years pos)%Z) positions 0%Z.

Definition _detect_career_gaps (positions : list Position) : nat :=
  if length positions <? 2 then 0
  else length (filter (fun pos => PyNum.Qlt_bool (inject_Z (p_duration_years pos)) (1 # 2))
                      positions).

Definition _analyze_career_trajectory (positions : list Position) : string :=
  if length positions <? 2 then "Early Career"
  else
    let position_count := length positions in
    let avg_duration := (inject_Z (sum_durations positions) / PyNum.of_nat position_count)%Q in
    if Qle_bool 3 avg_duration then "Stable Progression"
    else if Qle_bool (3 # 2) avg_duration then "Steady Growth"
    else "Rapid Movement".

(** The [experience] dictionary. *)
Record Experience : Type :=
  { total_experience_years : Z;
    experience_level : string;
    industry_sectors : list string;
    key_achievements : list string;
    career_progression : list Position;
    companies_worked : list string;
    positions_held : list string;
    career_gaps : nat;
    promotion_trajectory : string }.

(** The loop variables of [extract_experience_advanced]. *)
Record ExpScan : Type :=
  { es_section : bool;
    es_current : option Position;
    es_positions : list Position;
    es_achievements : list string;
    es_sectors : list string }.

Definition exp_scan_init : ExpScan :=
  {| es_section := false; es_current := None; es_positions := [];
     es_achievements := []; es_sectors := [] |}.

Definition experience_start_keywords : list string :=
  ["experience"; "work experience"; "employment"; "career";
   "professional experience"; "work history"].
Definition experience_end_keywords : list string :=
  ["education"; "skills"; "projects"; "certifications"; "awards"; "references"; "personal"].

(** The body of the loop for a line inside the experience section. *)
Definition exp_scan_line (now : datetime) (line_clean : string) (st : ExpScan) : ExpScan :=
  let '(current, positions) :=
    match _extract_position_info now line_clean with
    | Some position_info =>
        (Some position_info,
         match es_current st with
         | Some cur => append (es_positions st) cur
         | None => es_positions st
         end)
    | None => (es_current st, es_positions st)
    end in
  let achievements :=
    if _is_achievement_advanced line_clean then
      let achievement := _clean_achievement line_clean in
      if String.eqb achievement "" then es_achievements st
      else append (es_achievements st) achievement
    else es_achievements st in
  let sector := _detect_industry_sector_advanced line_clean in
  let sectors :=
    if negb (String.eqb sector "") && negb (mem sector (es_sectors st))
    then append (es_sectors st) sector else es_sectors st in
  {| es_section := es_section st; es_current := current; es_positions := positions;
     es_achievements := achievements; es_sectors := sectors |}.

(** The [for line in lines] loop; the [break] ends the scan. *)
Fixpoint exp_scan (now : datetime) (lines : list string) (st : ExpScan) : ExpScan :=
  match lines with
  | [] => st
  | line :: rest =>
      let line_clean := strip line in
      let line_lower := lower line_clean in
      if any_in experience_start_keywords line_lower then
        exp_scan now rest
          {| es_section := true; es_current := es_current st;
             es_positions := es_positions st; es_achievements := es_achievements st;
             es_sectors := es_sectors st |}
      else if es_section st then
        if any_in experience_end_keywords line_lower && (len line_clean <? 50) then st
        else exp_scan now rest (exp_scan_line now line_clean st)
      else exp_scan now rest st
  end.

Definition nonempty (xs : list string) : list string :=
  filter (fun x => negb (String.eqb x "")) xs.

Definition extract_experience_advanced (rt : PyRuntime) (now : datetime)
    (text : string) : Experience :=
  let st := exp_scan now (split_lines text) exp_scan_init in
  let positions :=
    match es_current st with
    | Some cur => append (es_positions st) cur
    | None => es_positions st
    end in
  let total := _calculate_total_experience_advanced positions in
  {| total_experience_years := total;
     experience_level := _determine_experience_level_advanced total;
     industry_sectors := es_sectors st;
     key_achievements := es_achievements st;
     career_progression := positions;
     companies_worked := set_iter rt (nonempty (map p_company positions));
     positions_held := set_iter rt (nonempty (map p_position positions));
     career_gaps := _detect_career_gaps positions;
     promotion_trajectory := _analyze_career_trajectory positions |}.

(** *** Qualifications *)

(** [self.qualification_levels], in the dictionary's order. *)
Definition qualification_levels : list (string * list re) :=
  [ ("phd",
     [ (* "\bph\.?d\.?\b" *)
       seq [WordB; lit "ph"; opt (Chr "."); lit "d"; opt (Chr "."); WordB];
       whole_word "doctorate"; whole_word "doctor of philosophy"; whole_word "dphil";
       whole_word "doctoral"; whole_word "phd candidate" ]);
    ("masters",
     [ whole_word "master";
       (* "\bmsc?\b" *)
       seq [WordB; lit "ms"; opt (Chr "c"); WordB];
       whole_word "ma"; whole_word "mba"; whole_word "mpa"; whole_word "llm";
       whole_word "med"; whole_word "postgraduate"; whole_word "graduate degree";
       whole_word "msc"; whole_word "masters"; whole_word "master's" ]);
    ("bachelors",
     [ whole_word "bachelor";
       (* "\bbsc?\b" *)
       seq [WordB; lit "bs"; opt (Chr "c"); WordB];
       whole_word "ba"; whole_word "bcom"; whole_word "beng"; whole_word "undergraduate";
       whole_word "degree"; whole_word "bachelor's"; whole_word "btech";
       whole_word "bachelor of" ]);
    ("diploma",
     [ whole_word "diploma"; whole_word "advanced diploma"; whole_word "higher diploma";
       whole_word "national diploma"; whole_word "postgraduate diploma" ]);
    ("certificate",
     [ whole_word "certificate"; whole_word "professional certificate";
       whole_word "vocational certificate"; whole_word "certification";
       whole_word "certified" ]);
    ("high_school",
     [ whole_word "a level"; whole_word "o level"; whole_word "high school";
       whole_word "secondary education"; whole_word "advanced level";
       whole_word "ordinary level"; whole_word "secondary school" ]) ].

Definition found (fl : flags) (text : string) (pattern : re) : bool :=
  match search fl pattern text with Some _ => true | None => false end.

Fixpoint first_level (levels : list (string * list re)) (text_lower : string) : string :=
  match levels with
  | [] => ""
  | (level, patterns) :: rest =>
      if existsb (found no_flags text_lower) patterns then level
      else first_level rest text_lower
  end.

Definition _detect_qualification_level_advanced (text : string) : string :=
  first_level qualification_levels (lower text).

(** "(\w+\s?){1,3}" *)
Definition words_1_3 : re := rep 1 3 (Cap 1 (seq [plus w; opt s])).

(** [university_patterns] of [_extract_institution_advanced] *)
Definition university_patterns : list re :=
  [ seq [lit "University of "; words_1_3];
    seq [words_1_3; lit "University"];
    seq [words_1_3; lit "College"];
    seq [words_1_3; lit "Institute"];
    seq [words_1_3; lit "School"];
    seq [words_1_3; lit "Polytechnic"];
    lit "Harare Institute of Technology";
    lit "University of Zimbabwe";
    lit "National University of Science and Technology";
    lit "Africa University";
    lit "Midlands State University";
    lit "Great Zimbabwe University";
    lit "Chinhoyi University of Technology";
    lit "Bindura University";
    lit "Lupane State University";
    lit "Zimbabwe Open University" ].

Definition _extract_institution_advanced (text : string) : string :=
  match first_search ignorecase university_patterns text with
  | Some m => strip (group0 m)
  | None => ""
  end.

(** [fields] of [_extract_field_of_study_advanced] *)
Definition fields : list string :=
  ["computer science"; "information systems"; "business administration"; "engineering";
   "medicine"; "law"; "accounting"; "finance"; "marketing"; "economics"; "mathematics";
   "physics"; "chemistry"; "biology"; "psychology"; "sociology"; "political science";
   "information technology"; "software engineering"; "data science"; "artificial intelligence";
   "mechanical engineering"; "electrical engineering"; "civil engineering";
   "chemical engineering"; "public health"; "nursing"; "pharmacy"; "dentistry"; "education";
   "teaching"; "human resources"; "management"; "entrepreneurship"; "international business";
   "journalism"; "communications"; "public relations"; "graphic design"; "architecture"].

Fixpoint first_field (fs : list string) (text_lower : string) : string :=
  match fs with
  | [] => ""
  | field :: rest =>
      if contains field text_lower then title field else first_field rest text_lower
  end.

Definition _extract_field_of_study_advanced (text : string) : string :=
  first_field fields (lower text).

Definition truthy (x : string) : bool := negb (String.eqb x "").

Definition _calculate_qualification_confidence (text level : string) : Q :=
  let confidence := (6 # 10)%Q in
  let confidence :=
    if truthy (_extract_institution_advanced text) then (confidence + (2 # 10))%Q
    else confidence in
  let confidence :=
    if truthy (_extract_field_of_study_advanced text) then (confidence + (1 # 10))%Q
    else confidence in
  let confidence :=
    if truthy (_extract_dates text) then (confidence + (1 # 10))%Q else confidence in
  PyNum.Qmin confidence 1.

(** An entry of [all_qualifications]. *)
Record QualInfo : Type :=
  { q_text : string;
    q_level : string;
    q_institution : string;
    q_field : string;
    q_dates : string;
    q_confidence : Q }.

Definition _extract_qualification_details (text : string) : option QualInfo :=
  let qual_level := _detect_qualification_level_advanced text in
  if String.eqb qual_level "" then None
  else Some {| q_text := text;
               q_level := qual_level;
               q_institution := _extract_institution_advanced text;
               q_field := _extract_field_of_study_advanced text;
               q_dates := _extract_dates text;
               q_confidence := _calculate_qualification_confidence text qual_level |}.

(** The [qualifications] dictionary. *)
Record Qualifications : Type :=
  { highest_qualification : string;
    qualification_level : string;
    all_qualifications : list QualInfo;
    institutions : list string;
    fields_of_study : list string;
    qualification_details : list QualInfo }.

Definition education_start_keywords : list string :=
  ["education"; "qualifications"; "academic"; "degrees";
   "educational background"; "academic qualifications"].
Definition education_end_keywords : list string :=
  ["experience"; "work experience"; "employment"; "skills"; "projects";
   "certifications"; "professional"].

(** The [for i, line in enumerate(lines)] loop of
    [extract_qualifications_advanced]: [education_section] is the section
    flag, [quals] the entries appended so far; the [break] ends the scan. *)
Fixpoint qual_scan (lines : list string) (education_section : bool)
    (quals : list QualInfo) : list QualInfo :=
  match lines with
  | [] => quals
  | line :: rest =>
      let line_clean := strip line in
      let line_lower := lower line_clean in
      if any_in education_start_keywords line_lower then qual_scan rest true quals
      else if education_section then
        if any_in education_end_keywords line_lower && (len line_clean <? 50) then quals
        else
          match _extract_qualification_details line_clean with
          | Some qual_info => qual_scan rest true (append quals qual_info)
          | None => qual_scan rest true quals
          end
      else qual_scan rest false quals
  end.

Definition level_priority (level : string) : nat :=
  if String.eqb level "phd" then 6
  else if String.eqb level "masters" then 5
  else if String.eqb level "bachelors" then 4
  else if String.eqb level "diploma" then 3
  else if String.eqb level "certificate" then 2
  else if String.eqb level "high_school" then 1
  else 0.

(** [max(quals, key=...)]: the first entry of greatest priority. *)
Fixpoint max_by_priority (best : QualInfo) (quals : list QualInfo) : QualInfo :=
  match quals with
  | [] => best
  | q :: rest =>
      if level_priority (q_level best) <? level_priority (q_level q)
      then max_by_priority q rest else max_by_priority best rest
  end.

Definition extract_qualifications_advanced (text : string) : Qualifications :=
  let quals := qual_scan (split_lines text) false [] in
  match quals with
  | [] =>
      {| highest_qualification := ""; qualification_level := "";
         all_qualifications := []; institutions := []; fields_of_study := [];
         qualification_details := [] |}
  | q :: rest =>
      let highest_qual := max_by_priority q rest in
      {| highest_qualification := q_text highest_qual;
         qualification_level := q_level highest_qual;
         all_qualifications := quals;
         institutions := nonempty (map q_institution quals);
         fields_of_study := nonempty (map q_field quals);
         qualification_details := quals |}
  end.

(** *** Skills *)

(** [self.skill_keywords], in the dictionary's order. *)
Definition skill_keywords : list (string * list string) :=
  [
   ("programming_languages",
     ["python"; "java"; "javascript"; "typescript"; "c++"; "c#"; "go"; "rust"; "swift";
      "kotlin"; "php"; "ruby"; "scala"; "r"; "matlab"; "perl"; "html"; "css"; "sass"; "less";
      "sql"; "pl/sql"; "bash"; "shell"; "powershell"; "dart"; "assembly"; "fortran"; "cobol";
      "visual basic"; "vba"]);
   ("web_development",
     ["django"; "flask"; "fastapi"; "spring"; "express"; "react"; "angular"; "vue"; "svelte";
      "laravel"; "ruby on rails"; "asp.net"; "node.js"; "next.js"; "nuxt.js"; "jquery";
      "bootstrap"; "tailwind"; "webpack"; "babel"; "npm"; "yarn"; "graphql"; "rest api"; "soap";
      "json"; "xml"; "ajax"; "web services"; "microservices"; "api development"]);
   ("mobile_development",
     ["android"; "ios"; "react native"; "flutter"; "xamarin"; "ionic"; "swiftui";
      "kotlin multiplatform"; "mobile app development"; "cross-platform development";
      "android studio"; "xcode"]);
   ("databases",
     ["mysql"; "postgresql"; "mongodb"; "redis"; "sqlite"; "oracle"; "sql server"; "cassandra";
      "dynamodb"; "elasticsearch"; "firebase"; "cosmosdb"; "mariadb"; "db2"; "sqlite"; "hbase";
      "neo4j"; "arangodb"; "couchbase"; "rethinkdb"; "database design"; "database management"]);
   ("cloud_platforms",
     ["aws"; "azure"; "google cloud"; "gcp"; "docker"; "kubernetes"; "terraform"; "ansible";
      "jenkins"; "gitlab"; "github actions"; "heroku"; "digital ocean"; "linode"; "vultr";
      "ibm cloud"; "oracle cloud"; "alibaba cloud"; "openshift"; "cloudformation";
      "cloud computing"]);
   ("data_science_ai",
     ["machine learning"; "deep learning"; "tensorflow"; "pytorch"; "keras"; "scikit-learn";
      "pandas"; "numpy"; "matplotlib"; "seaborn"; "plotly"; "tableau"; "power bi"; "qlik";
      "data analysis"; "data visualization"; "statistical analysis";
      "natural language processing"; "computer vision"; "neural networks";
      "reinforcement learning"; "big data"; "hadoop"; "spark"; "data mining";
      "predictive modeling"; "artificial intelligence"; "nlp"; "computer vision";
      "data engineering"; "etl"; "data warehousing"; "business intelligence"]);
   ("cybersecurity",
     ["network security"; "information security"; "cyber security"; "penetration testing";
      "ethical hacking"; "vulnerability assessment"; "siem"; "soc"; "firewall"; "vpn";
      "encryption"; "cryptography"; "incident response"; "threat intelligence";
      "risk assessment"; "compliance"; "gdpr"; "hipaa"; "pci dss"; "iso 27001"; "nist"; "owasp";
      "security audit"; "digital forensics"]);
   ("devops",
     ["ci/cd"; "continuous integration"; "continuous deployment"; "jenkins"; "gitlab ci";
      "github actions"; "ansible"; "puppet"; "chef"; "docker"; "kubernetes"; "helm";
      "terraform"; "infrastructure as code"; "monitoring"; "logging"; "prometheus"; "grafana";
      "elk stack"; "splunk"]);
   ("project_management",
     ["project management"; "agile"; "scrum"; "kanban"; "waterfall"; "prince2"; "pmp"; "pmbok";
      "jira"; "trello"; "asana"; "basecamp"; "risk management"; "stakeholder management";
      "budget management"; "resource allocation"; "project planning"; "gantt chart";
      "critical path"; "ms project"; "smartsheet"]);
   ("business_analysis",
     ["business analysis"; "requirements gathering"; "user stories"; "use cases";
      "process modeling"; "bpmn"; "uml"; "swot analysis"; "gap analysis";
      "cost-benefit analysis"; "roi analysis"; "kpi tracking"; "metrics"; "dashboard creation";
      "business intelligence"; "process improvement"]);
   ("finance_accounting",
     ["financial analysis"; "accounting"; "bookkeeping"; "financial modeling"; "budgeting";
      "forecasting"; "quickbooks"; "xero"; "sage"; "ifrs"; "gaap"; "tax preparation"; "audit";
      "internal controls"; "financial reporting"; "cash flow management"; "investment analysis";
      "risk management"; "sap fico"; "oracle financials"; "financial planning"]);
   ("marketing_sales",
     ["digital marketing"; "social media marketing"; "seo"; "sem"; "google analytics";
      "google ads"; "facebook ads"; "content marketing"; "email marketing";
      "marketing automation"; "hubspot"; "market research"; "brand management"; "sales";
      "business development"; "lead generation"; "customer relationship management"; "crm";
      "salesforce"; "negotiation"; "presentation skills"; "copywriting"; "brand strategy";
      "market analysis"]);
   ("human_resources",
     ["recruitment"; "talent acquisition"; "onboarding"; "training and development";
      "performance management"; "compensation and benefits"; "employee relations";
      "hr policies"; "labor law"; "succession planning"; "organizational development";
      "change management"; "diversity and inclusion"; "hr analytics"; "payroll management";
      "hris"; "workday"; "successfactors"]);
   ("supply_chain",
     ["supply chain management"; "logistics"; "inventory management"; "procurement";
      "purchasing"; "warehouse management"; "demand planning"; "supplier management"; "sap mm";
      "oracle scm"]);
   ("graphic_design",
     ["adobe photoshop"; "adobe illustrator"; "adobe indesign"; "adobe xd"; "figma"; "sketch";
      "coreldraw"; "canva"; "ui design"; "ux design"; "user experience"; "user interface";
      "wireframing"; "prototyping"; "visual design"; "brand identity"; "logo design";
      "typography"; "color theory"; "print design"; "digital design"; "adobe creative suite"]);
   ("video_audio",
     ["video editing"; "adobe premiere pro"; "final cut pro"; "after effects";
      "davinci resolve"; "motion graphics"; "animation"; "3d modeling"; "blender"; "maya";
      "cinema 4d"; "audio editing"; "ableton live"; "logic pro"; "pro tools"; "sound design";
      "podcast production"]);
   ("soft_skills",
     ["communication"; "leadership"; "teamwork"; "problem solving"; "critical thinking";
      "adaptability"; "time management"; "creativity"; "collaboration"; "analytical skills";
      "strategic planning"; "negotiation"; "presentation"; "conflict resolution";
      "decision making"; "emotional intelligence"; "public speaking"; "writing"; "research";
      "attention to detail"; "interpersonal skills"; "customer service"; "mentoring";
      "coaching"]);
   ("languages",
     ["english"; "french"; "spanish"; "german"; "chinese"; "japanese"; "arabic"; "portuguese";
      "russian"; "hindi"; "shona"; "ndebele"; "swahili"; "zulu"; "afrikaans"]);
   ("healthcare",
     ["patient care"; "medical terminology"; "healthcare management"; "clinical research";
      "pharmaceutical"; "nursing"; "medical coding"; "hipaa compliance";
      "electronic health records"; "medical devices"; "healthcare analytics"]);
   ("education",
     ["teaching"; "curriculum development"; "lesson planning"; "classroom management";
      "educational technology"; "student assessment"; "academic advising";
      "research methodology"]);
   ("legal",
     ["legal research"; "contract law"; "corporate law"; "litigation"; "legal writing";
      "compliance"; "intellectual property"; "legal documentation"; "case management"]);
   ("engineering",
     ["mechanical engineering"; "electrical engineering"; "civil engineering";
      "chemical engineering"; "cad"; "autocad"; "solidworks"; "matlab"; "simulation";
      "project engineering"; "quality control"]);
   ("manufacturing",
     ["lean manufacturing"; "six sigma"; "quality assurance"; "production planning";
      "supply chain"; "process improvement"; "manufacturing operations"; "health and safety";
      "iso 9001"]);
   ("retail",
     ["retail management"; "merchandising"; "inventory control"; "customer service";
      "sales floor"; "visual merchandising"; "store operations"; "point of sale";
      "retail analytics"]);
   ("zimbabwe_skills",
     ["zimswitch"; "ecocash"; "onedollar"; "rtgs"; "forex"; "zimra"; "rbz"; "zimbabwean market";
      "local regulations"; "zimbabwe business environment"; "local banking"; "zse";
      "zimbabwe stock exchange"])
  ].

Definition _calculate_skill_confidence_advanced (skill text : string) (frequency : nat) : Q :=
  let confidence := (5 # 10)%Q in
  (* "(skills|technical skills|competencies).*?" + re.escape(skill) *)
  let confidence :=
    if found ignorecase_dotall text
         (seq [Cap 1 (alt [lit "skills"; lit "technical skills"; lit "competencies"]);
               lazy_star Dot; lit skill])
    then (confidence + (3 # 10))%Q else confidence in
  (* "[bullet\-*]\s*.*" + re.escape(skill) *)
  let confidence :=
    if found no_flags text (seq [one_of "-*"; star s; star Dot; lit skill])
    then (confidence + (1 # 10))%Q else confidence in
  let confidence :=
    if 1 <? frequency
    then (confidence + PyNum.Qmin (1 # 10) (PyNum.of_nat frequency * (5 # 100)))%Q
    else confidence in
  PyNum.Qmin confidence 1.

(** An entry of a category of [skills_by_category]. *)
Record SkillInfo : Type :=
  { s_skill : string;
    s_confidence : Q;
    s_frequency : nat;
    s_category : string }.

(** An entry of [top_skills]. *)
Record TopSkill : Type :=
  { t_skill : string;
    t_category : string;
    t_score : Q;
    t_frequency : nat;
    t_confidence : Q }.

(** The [skills] dictionary. *)
Record Skills : Type :=
  { skills_by_category : list (string * list SkillInfo);
    total_skills : nat;
    skill_diversity : nat;
    total_skill_occurrences : nat;
    top_skills : list TopSkill;
    skill_categories_present : list string }.

(** The inner loop of [extract_skills_comprehensive]: the entries of one
    category, one per keyword that occurs as a whole word. *)
Fixpoint category_entries (category : string) (skills : list string)
    (text_lower : string) : list SkillInfo :=
  match skills with
  | [] => []
  | skill :: rest =>
      let matches := findall no_flags (whole_word skill) text_lower in
      match matches with
      | [] => category_entries category rest text_lower
      | _ =>
          {| s_skill := skill;
             s_confidence :=
               _calculate_skill_confidence_advanced skill text_lower (length matches);
             s_frequency := length matches;
             s_category := category |}
          :: category_entries category rest text_lower
      end
  end.

(** The outer loop: [found_skills], the non-empty categories in order. *)
Fixpoint found_skills (table : list (string * list string)) (text_lower : string)
    : list (string * list SkillInfo) :=
  match table with
  | [] => []
  | (category, skills) :: rest =>
      match category_entries category skills text_lower with
      | [] => found_skills rest text_lower
      | category_skills => (category, category_skills) :: found_skills rest text_lower
      end
  end.

(** Stable insertion into a list sorted by decreasing score. *)
Fixpoint insert_by_score (x : TopSkill) (sorted : list TopSkill) : list TopSkill :=
  match sorted with
  | [] => [x]
  | y :: rest =>
      if PyNum.Qlt_bool (t_score x) (t_score y) then y :: insert_by_score x rest
      else x :: sorted
  end.

(** [all_skills.sort(key=score, reverse=True)] *)
Definition sort_by_score (xs : list TopSkill) : list TopSkill :=
  fold_right insert_by_score [] xs.

Definition _get_top_skills_advanced (by_category : list (string * list SkillInfo))
    : list TopSkill :=
  let all_skills :=
    flat_map (fun entry =>
                map (fun skill_data =>
                       {| t_skill := s_skill skill_data;
                          t_category := s_category skill_data;
                          t_score := (s_confidence skill_data
                                      * PyNum.of_nat (s_frequency skill_data))%Q;
                          t_frequency := s_frequency skill_data;
                          t_confidence := s_confidence skill_data |})
                    (snd entry)) by_category in
  firstn 15 (sort_by_score all_skills).

Definition extract_skills_comprehensive (text : string) : Skills :=
  let text_lower := lower text in
  let found_skills := found_skills skill_keywords text_lower in
  {| skills_by_category := found_skills;
     total_skills := list_sum (map (fun entry => length (snd entry)) found_skills);
     skill_diversity := length found_skills;
     total_skill_occurrences :=
       list_sum (map (fun entry => list_sum (map s_frequency (snd entry))) found_skills);
     top_skills := _get_top_skills_advanced found_skills;
     skill_categories_present := map fst found_skills |}.

(** *** Awards and certifications *)

(** An entry of a category of [awards_certifications]. *)
Record AwardEntry : Type :=
  { a_text : string;
    a_confidence : Q;
    a_type : string }.

(** The [awards_certifications] dictionary. *)
Record Awards : Type :=
  { awards : list AwardEntry;
    certifications : list AwardEntry;
    honors : list AwardEntry;
    publications : list AwardEntry;
    patents : list AwardEntry }.

(** The entries a category collects over the lines, in line order. *)
Definition award_lines (category : string) (indicators : list string)
    (lines : list string) : list AwardEntry :=
  flat_map (fun line =>
              let line_clean := strip line in
              let line_lower := lower line_clean in
              if any_in indicators line_lower
              then [{| a_text := line_clean; a_confidence := (8 # 10)%Q; a_type := category |}]
              else []) lines.

Definition extract_awards_certifications_advanced (text : string) : Awards :=
  let lines := split_lines text in
  {| awards := award_lines "awards"
                 ["award"; "prize"; "recognition"; "achievement award"] lines;
     certifications := award_lines "certifications"
                 ["certification"; "certified"; "license"; "accreditation"] lines;
     honors := award_lines "honors"
                 ["honor"; "scholarship"; "fellowship"; "dean's list"] lines;
     publications := award_lines "publications"
                 ["publication"; "paper"; "journal"; "conference"] lines;
     patents := award_lines "patents"
                 ["patent"; "invention"; "intellectual property"] lines |}.

(** *** Contact code *)

(** [hashlib]: the hexadecimal digests of the UTF-8 encoding of a text
    (the encoding of an ASCII text is the text itself). *)
Record Hashlib : Type :=
  { sha256_hexdigest : string -> string;
    md5_hexdigest : string -> string }.

Definition generate_confidential_code (h : Hashlib) (now : datetime)
    (phone_number text : string) : string :=
  if truthy phone_number then
    let phone_hash := upper (take 8 (sha256_hexdigest h phone_number)) in
    let timestamp := strftime_md now in
    "CV-" ++ phone_hash ++ "-" ++ timestamp
  else
    let text_hash := upper (take 8 (md5_hexdigest h (take 500 text))) in
    "CV-" ++ text_hash.

(** "[-.\s]" *)
Definition phone_sep : re := Cls (fun x => contains (String x "") "-." || is_space x).

(** [phone_patterns] of [extract_phone_number]; [true] marks a pattern with
    one group, for which [re.findall] lists the texts of the group. *)
Definition phone_patterns : list (bool * re) :=
  [ (* "(\+263\s?\d{2}\s?\d{3}\s?\d{3,4})" *)
    (true, Cap 1 (seq [lit "+263"; opt s; times 2 d; opt s; times 3 d; opt s; rep 3 4 d]));
    (* "(07[1-8]\s?\d{3}\s?\d{3,4})" *)
    (true, Cap 1 (seq [lit "07"; range "1" "8"; opt s; times 3 d; opt s; rep 3 4 d]));
    (* "(\+?\d{1,3}[-.\s]?)?\(?\d{1,4}\)?[-.\s]?\d{1,4}[-.\s]?\d{1,9}" *)
    (true, seq [opt (Cap 1 (seq [opt (Chr "+"); rep 1 3 d; opt phone_sep]));
                opt (Chr "("); rep 1 4 d; opt (Chr ")"); opt phone_sep;
                rep 1 4 d; opt phone_sep; rep 1 9 d]);
    (* "\b\d{3}[-.\s]?\d{3}[-.\s]?\d{4}\b" *)
    (false, seq [WordB; times 3 d; opt phone_sep; times 3 d; opt phone_sep; times 4 d; WordB]);
    (* "\b\d{4}[-.\s]?\d{3}[-.\s]?\d{3}\b" *)
    (false, seq [WordB; times 4 d; opt phone_sep; times 3 d; opt phone_sep; times 3 d; WordB]) ].

(** The inner loop over the matches of one pattern. *)
Fixpoint first_phone (matches : list string) : option string :=
  match matches with
  | [] => None
  | m :: rest =>
      (* re.sub("[^\d+]", "", match) *)
      let clean_phone :=
        sub no_flags (Cls (fun x => negb (is_digit x || Ascii.eqb x "+"))) "" m in
      if (7 <=? len clean_phone) && (len clean_phone <=? 15) then Some clean_phone
      else first_phone rest
  end.

Fixpoint scan_phone_patterns (patterns : list (bool * re)) (text : string) : string :=
  match patterns with
  | [] => ""
  | (grouped, pattern) :: rest =>
      let matches :=
        if grouped then findall_group1 no_flags pattern text
        else findall no_flags pattern text in
      match first_phone matches with
      | Some phone => phone
      | None => scan_phone_patterns rest text
      end
  end.

Definition extract_phone_number (text : string) : string :=
  scan_phone_patterns phone_patterns text.

(** *** Reading the document *)

(** The result of a call that may raise: a value or an exception (an
    instance of [Exception], carried as its message). *)
Inductive outcome (A : Type) : Type :=
| Return (a : A)
| Raise (e : string).
Arguments Return {A} a.
Arguments Raise {A} e.

Definition bind {A B : Type} (c : outcome A) (f : A -> outcome B) : outcome B :=
  match c with
  | Return a => f a
  | Raise e => Raise e
  end.

(** [try: c  except Exception as e: handler(e)] *)
Definition try_except {A : Type} (c : outcome A) (handler : string -> outcome A) : outcome A :=
  match c with
  | Return a => Return a
  | Raise e => handler e
  end.

(** A [docx] document once opened: the paragraph texts, and the cell texts
    of the rows of the tables. *)
Record DocxDocument : Type :=
  { paragraphs : list string;
    tables : list (list (list string)) }.

(** The document libraries ([PyPDF2], [python-docx]) on a file path:
    opening may raise; a PDF yields its pages, whose [extract_text()] may
    raise in turn. *)
Record DocLib : Type :=
  { PdfReader : string -> outcome (list (outcome string));
    Document : string -> outcome DocxDocument }.

(** [for page in reader.pages: text += page.extract_text() + newline];
    the pages read before an exception stay in [text]. *)
Fixpoint read_pages (pages : list (outcome string)) (text : string) : string :=
  match pages with
  | [] => text
  | Return page_text :: rest => read_pages rest (text ++ page_text ++ String newline "")
  | Raise _ :: _ => text
  end.

Definition read_docx (doc : DocxDocument) (text : string) : string :=
  let text :=
    fold_left (fun text para => text ++ para ++ String newline "") (paragraphs doc) text in
  fold_left (fun text table =>
    fold_left (fun text row =>
      fold_left (fun text cell => text ++ cell ++ " ") row text ++ String newline "")
      table text) (tables doc) text.

(** The [try] block catches every exception and the text read so far is
    returned. *)
Definition extract_text_from_file (lib : DocLib) (file_path file_type : string) : string :=
  let text := "" in
  if String.eqb (lower file_type) "pdf" then
    match PdfReader lib file_path with
    | Return pages => read_pages pages text
    | Raise _ => text
    end
  else if String.eqb (lower file_type) "docx" then
    match Document lib file_path with
    | Return doc => read_docx doc text
    | Raise _ => text
    end
  else text.

(** *** The parsed resume *)

Definition generate_comprehensive_summary (qualifications : Qualifications)
    (skills : Skills) (experience : Experience) (awards_data : Awards) : string :=
  let summary_parts := [] in
  let summary_parts :=
    if truthy (qualification_level qualifications) then
      let level_display := title (replace_char "_" " " (qualification_level qualifications)) in
      append summary_parts (level_display ++ " qualified professional")
    else summary_parts in
  let summary_parts :=
    if (0 <? total_experience_years experience)%Z then
      append summary_parts ("with " ++ str_int (total_experience_years experience)
                         ++ " years of " ++ lower (experience_level experience)
                         ++ " experience")
    else summary_parts in
  let top := firstn 5 (top_skills skills) in
  let summary_parts :=
    match top with
    | [] => summary_parts
    | _ => append summary_parts ("specializing in " ++ join ", " (map t_skill top))
    end in
  let summary_parts :=
    match industry_sectors experience with
    | [] => summary_parts
    | sectors =>
        append summary_parts ("across " ++ join ", " (firstn 3 sectors) ++ " sectors")
    end in
  let summary_parts :=
    match awards awards_data, certifications awards_data with
    | [], [] => summary_parts
    | _, _ => append summary_parts "with notable achievements and certifications"
    end in
  join " " summary_parts ++ ".".

(** The [analysis_metadata] dictionary. *)
Record Metadata : Type :=
  { skill_categories_found : nat;
    total_skills_identified : nat;
    experience_years : Z;
    metadata_qualification_level : string;
    industries_identified : list string }.

(** The dictionary of a parsed resume.  [skill_analysis] stands for an
    entry ['skill_analysis'] and holds its ['critical_skill_gaps'] list:
    the scoring engine looks it up, and [parse_resume] builds a dictionary
    without it. *)
Record ResumeData : Type :=
  { resume_code : string;
    phone_number : string;
    qualifications : Qualifications;
    skills : Skills;
    experience : Experience;
    awards_certifications : Awards;
    skills_list : list (string * string * Q);
    summary : string;
    processed_text : string;
    extraction_timestamp : string;
    analysis_metadata : Metadata;
    skill_analysis : option (list string) }.

(** What [parse_resume] returns: the dictionary with the single key
    ["error"], or the parsed resume. *)
Inductive ParseResult : Type :=
| ParseError (error : string)
| Parsed (resume_data : ResumeData).

(** The readings of [datetime.now()] during one parse. *)
Record Clock : Type :=
  { at_code : datetime;
    at_scan : datetime;
    at_stamp : datetime }.

Definition parse_resume (lib : DocLib) (h : Hashlib) (rt : PyRuntime) (clock : Clock)
    (file_path file_type : string) : outcome ParseResult :=
  try_except
    (let raw_text := extract_text_from_file lib file_path file_type in
     if negb (truthy raw_text) then
       Return (ParseError "Could not extract text from file")
     else
       let phone := extract_phone_number raw_text in
       let code := generate_confidential_code h (at_code clock) phone raw_text in
       let quals := extract_qualifications_advanced raw_text in
       let skills_data := extract_skills_comprehensive raw_text in
       let exp := extract_experience_advanced rt (at_scan clock) raw_text in
       let awards_data := extract_awards_certifications_advanced raw_text in
       let skills_list :=
         flat_map (fun entry =>
                     map (fun skill_info =>
                            (s_skill skill_info, s_category skill_info,
                             s_confidence skill_info)) (snd entry))
                  (skills_by_category skills_data) in
       Return (Parsed
         {| resume_code := code;
            phone_number := phone;
            qualifications := quals;
            skills := skills_data;
            experience := exp;
            awards_certifications := awards_data;
            skills_list := skills_list;
            summary := generate_comprehensive_summary quals skills_data exp awards_data;
            processed_text := take 1500 raw_text;
            extraction_timestamp := isoformat (at_stamp clock);
            analysis_metadata :=
              {| skill_categories_found := length (skills_by_category skills_data);
                 total_skills_identified := total_skills skills_data;
                 experience_years := total_experience_years exp;
                 metadata_qualification_level := qualification_level quals;
                 industries_identified := industry_sectors exp |};
            skill_analysis := None |}))
    (fun e => Return (ParseError ("Error parsing resume: " ++ e))).

(** *** [parse_resume] over the outcomes of its calls *)

(** The calls that [parse_resume] makes on [self].  In Python any call
    returns its value or raises an exception (a fault of a library, a
    [MemoryError], a [RecursionError], an overriding method that fails):
    [parse_resume] is first given over arbitrary outcomes of its calls, and
    [methods_of] below is the instance in which every call returns the value
    of the function of this module. *)
Record Methods : Type :=
  { call_extract_text_from_file : string -> string -> outcome string;
    call_extract_phone_number : string -> outcome string;
    call_generate_confidential_code : string -> string -> outcome string;
    call_extract_qualifications_advanced : string -> outcome Qualifications;
    call_extract_skills_comprehensive : string -> outcome Skills;
    call_extract_experience_advanced : string -> outcome Experience;
    call_extract_awards_certifications_advanced : string -> outcome Awards;
    call_generate_comprehensive_summary :
      Qualifications -> Skills -> Experience -> Awards -> outcome string }.

(** The [try] block of [parse_resume]: the calls in the order of the source,
    the first exception ending the block. *)
Definition parse_resume_try (m : Methods) (stamp : datetime)
    (file_path file_type : string) : outcome ParseResult :=
  bind (call_extract_text_from_file m file_path file_type) (fun raw_text =>
  if negb (truthy raw_text) then
    Return (ParseError "Could not extract text from file")
  else
    bind (call_extract_phone_number m raw_text) (fun phone =>
    bind (call_generate_confidential_code m phone raw_text) (fun code =>
    bind (call_extract_qualifications_advanced m raw_text) (fun quals =>
    bind (call_extract_skills_comprehensive m raw_text) (fun skills_data =>
    bind (call_extract_experience_advanced m raw_text) (fun exp =>
    bind (call_extract_awards_certifications_advanced m raw_text) (fun awards_data =>
    let skills_list :=
      flat_map (fun entry =>
                  map (fun skill_info =>
                         (s_skill skill_info, s_category skill_info,
                          s_confidence skill_info)) (snd entry))
               (skills_by_category skills_data) in
    bind (call_generate_comprehensive_summary m quals skills_data exp awards_data)
      (fun summary_text =>
    Return (Parsed
      {| resume_code := code;
         phone_number := phone;
         qualifications := quals;
         skills := skills_data;
         experience := exp;
         awards_certifications := awards_data;
         skills_list := skills_list;
         summary := summary_text;
         processed_text := take 1500 raw_text;
         extraction_timestamp := isoformat stamp;
         analysis_metadata :=
           {| skill_categories_found := length (skills_by_category skills_data);
              total_skills_identified := total_skills skills_data;
              experience_years := total_experience_years exp;
              metadata_qualification_level := qualification_level quals;
              industries_identified := industry_sectors exp |};
         skill_analysis := None |}))))))))).

(** [parse_resume] over the calls [m]: the [try] block and its handler. *)
Definition parse_resume_calls (m : Methods) (stamp : datetime)
    (file_path file_type : string) : outcome ParseResult :=
  try_except (parse_resume_try m stamp file_path file_type)
    (fun e => Return (ParseError ("Error parsing resume: " ++ e))).

(** The calls when none raises: each returns the value of its function. *)
Definition methods_of (lib : DocLib) (h : Hashlib) (rt : PyRuntime) (clock : Clock)
    : Methods :=
  {| call_extract_text_from_file := fun file_path file_type =>
       Return (extract_text_from_file lib file_path file_type);
     call_extract_phone_number := fun text => Return (extract_phone_number text);
     call_generate_confidential_code := fun phone text =>
       Return (generate_confidential_code h (at_code clock) phone text);
     call_extract_qualifications_advanced := fun text =>
       Return (extract_qualifications_advanced text);
     call_extract_skills_comprehensive := fun text =>
       Return (extract_skills_comprehensive text);
     call_extract_experience_advanced := fun text =>
       Return (extract_experience_advanced rt (at_scan clock) text);
     call_extract_awards_certifications_advanced := fun text =>
       Return (extract_awards_certifications_advanced text);
     call_generate_comprehensive_summary := fun quals skills_data exp awards_data =>
       Return (generate_comprehensive_summary quals skills_data exp awards_data) |}.

End Nlp.

(** ** [ml_model.py]: class [AdvancedScoringModel] *)

Module Ml.
Import PyStr Re Nlp.

(** The attributes of the scoring model: the two [sklearn] objects, each
    standing as a description of its state, and the [is_trained] flag. *)
Record AdvancedScoringModel : Type :=
  { skill_vectorizer : string;
    experience_model : string;
    is_trained : bool }.

(** [load_model] with [found] telling whether the file exists and holds a
    readable model, and [data] the two objects stored in it. *)
Definition load_model (self : AdvancedScoringModel) (found : bool)
    (data : option string * option string) : AdvancedScoringModel * bool :=
  if found then
    ({| skill_vectorizer :=
          match fst data with Some v => v | None => skill_vectorizer self end;
        experience_model :=
          match snd data with Some m => m | None => experience_model self end;
        is_trained := true |}, true)
  else (self, false).

(** *** Skill fit *)

(** [skill_categories] of [_extract_skills_with_context_advanced] *)
Definition skill_categories : list (string * list string) :=
  [
   ("programming_languages",
     ["python"; "java"; "javascript"; "typescript"; "c++"; "c#"; "go"; "rust"; "swift";
      "kotlin"; "php"; "ruby"; "scala"; "r"; "matlab"; "perl"; "html"; "css"; "sass"; "less";
      "sql"]);
   ("web_development",
     ["django"; "flask"; "fastapi"; "spring"; "express"; "react"; "angular"; "vue"; "svelte";
      "laravel"; "ruby on rails"; "asp.net"; "node.js"; "next.js"; "nuxt.js"]);
   ("databases",
     ["mysql"; "postgresql"; "mongodb"; "redis"; "sqlite"; "oracle"; "sql server"; "cassandra";
      "dynamodb"; "elasticsearch"]);
   ("cloud_platforms",
     ["aws"; "azure"; "google cloud"; "gcp"; "docker"; "kubernetes"; "terraform"; "ansible";
      "jenkins"]);
   ("data_science_ai",
     ["machine learning"; "deep learning"; "tensorflow"; "pytorch"; "keras"; "scikit-learn";
      "pandas"; "numpy"; "matplotlib"; "seaborn"; "plotly"; "tableau"; "power bi"]);
   ("project_management",
     ["project management"; "agile"; "scrum"; "kanban"; "waterfall"; "prince2"; "pmp"; "jira";
      "trello"; "asana"]);
   ("business_analysis",
     ["business analysis"; "requirements gathering"; "user stories"; "use cases";
      "process modeling"; "bpmn"; "uml"]);
   ("finance_accounting",
     ["financial analysis"; "accounting"; "bookkeeping"; "financial modeling"; "budgeting";
      "forecasting"; "quickbooks"; "xero"]);
   ("marketing_sales",
     ["digital marketing"; "social media marketing"; "seo"; "sem"; "google analytics";
      "google ads"; "facebook ads"; "content marketing"]);
   ("soft_skills",
     ["communication"; "leadership"; "teamwork"; "problem solving"; "critical thinking";
      "adaptability"; "time management"]);
   ("healthcare",
     ["patient care"; "medical terminology"; "healthcare management"; "clinical research"]);
   ("engineering",
     ["mechanical engineering"; "electrical engineering"; "civil engineering";
      "chemical engineering"]);
   ("manufacturing",
     ["lean manufacturing"; "six sigma"; "quality assurance"; "production planning"])
  ].

Definition _extract_skills_with_context_advanced (self : AdvancedScoringModel)
    (rt : PyRuntime) (text : string) : list string :=
  let text_lower := lower text in
  let skills :=
    flat_map (fun entry => filter (fun skill => contains skill text_lower) (snd entry))
             skill_categories in
  set_iter rt skills.

Definition _flatten_skills_advanced (self : AdvancedScoringModel)
    (skills_data : Skills) : list string :=
  flat_map (fun entry =>
              flat_map (fun skill_info =>
                          if PyNum.Qlt_bool (3 # 10) (s_confidence skill_info)
                          then [s_skill skill_info] else [])
                       (snd entry))
           (skills_by_category skills_data).

(** [skill_relationships] of [_find_related_skills_advanced] *)
Definition skill_relationships : list (string * list string) :=
  [
   ("python",
     ["django"; "flask"; "pandas"; "numpy"; "scikit-learn"; "tensorflow"; "keras"]);
   ("java",
     ["spring"; "hibernate"; "j2ee"; "android"; "microservices"]);
   ("javascript",
     ["react"; "angular"; "vue"; "node.js"; "typescript"; "express"]);
   ("sql",
     ["mysql"; "postgresql"; "oracle"; "sql server"; "database design"]);
   ("aws",
     ["azure"; "google cloud"; "docker"; "kubernetes"; "terraform"; "devops"]);
   ("machine learning",
     ["deep learning"; "tensorflow"; "pytorch"; "neural networks"; "data science"]);
   ("react",
     ["react native"; "redux"; "next.js"; "frontend development"]);
   ("docker",
     ["kubernetes"; "containerization"; "microservices"; "devops"]);
   ("project management",
     ["agile"; "scrum"; "kanban"; "jira"; "stakeholder management"]);
   ("financial analysis",
     ["accounting"; "forecasting"; "budgeting"; "financial modeling"])
  ].

Fixpoint lookup {A : Type} (key : string) (table : list (string * A)) : option A :=
  match table with
  | [] => None
  | (k, v) :: rest => if String.eqb k key then Some v else lookup key rest
  end.

(** The elements added to the set [related], in order. *)
Definition _find_related_skills_advanced (self : AdvancedScoringModel)
    (candidate_skills job_skills : list string) : list string :=
  flat_map (fun job_skill =>
              match lookup job_skill skill_relationships with
              | Some related_skills =>
                  filter (fun related_skill => mem related_skill candidate_skills)
                         related_skills
              | None => []
              end) job_skills.

(** [set(a) & set(b)] and [set(a) - set(b)] *)
Definition set_inter (a b : list string) : list string := filter (fun x => mem x b) a.
Definition set_diff (a b : list string) : list string := filter (fun x => negb (mem x b)) a.

(** An entry of [category_breakdown]. *)
Record CategoryMatch : Type :=
  { match_count : nat;
    cm_total_skills : nat;
    cm_match_percentage : Q;
    matched_skills : list string }.

Definition percent_of (count total : nat) : Q :=
  (PyNum.of_nat count / PyNum.of_nat total * 100)%Q.

Definition _analyze_skill_categories (self : AdvancedScoringModel) (rt : PyRuntime)
    (skills_data : Skills) (job_skills : list string) : list (string * CategoryMatch) :=
  map (fun entry =>
         let category_skills := map s_skill (snd entry) in
         let matches := set_inter category_skills job_skills in
         (fst entry,
          {| match_count := set_len matches;
             cm_total_skills := length category_skills;
             cm_match_percentage :=
               match job_skills with
               | [] => 0%Q
               | _ => percent_of (set_len matches) (length job_skills)
               end;
             matched_skills := set_iter rt matches |}))
      (skills_by_category skills_data).

Definition _calculate_skill_strength_index (self : AdvancedScoringModel)
    (skills_data : Skills) : Q :=
  let all := flat_map snd (skills_by_category skills_data) in
  let total_score :=
    fold_left (fun acc skill =>
                 (acc + s_confidence skill * PyNum.of_nat (s_frequency skill))%Q) all 0%Q in
  let total_skills := length all in
  if 0 <? total_skills
  then PyNum.round2 (total_score / PyNum.of_nat (Nat.max total_skills 1) * 100)%Q
  else 0%Q.

(** The dictionary returned by [_analyze_skill_fit_advanced]. *)
Record SkillFit : Type :=
  { match_percentage : Q;
    comprehensive_match_percentage : Q;
    exact_matches : list string;
    related_skills : list string;
    critical_skill_gaps : list string;
    skill_diversity_score : nat;
    total_skills_count : nat;
    category_breakdown : list (string * CategoryMatch);
    skill_strength_index : Q }.

Definition _analyze_skill_fit_advanced (self : AdvancedScoringModel) (rt : PyRuntime)
    (skills_data : Skills) (job_description : string) : SkillFit :=
  let job_skills := _extract_skills_with_context_advanced self rt job_description in
  let candidate_skills_flat := _flatten_skills_advanced self skills_data in
  let exact := set_inter candidate_skills_flat job_skills in
  let related := _find_related_skills_advanced self candidate_skills_flat job_skills in
  let skill_gaps := set_diff job_skills candidate_skills_flat in
  let match_pct :=
    match job_skills with
    | [] => 0%Q
    | _ => percent_of (set_len exact) (length job_skills)
    end in
  let comprehensive_match :=
    match job_skills with
    | [] => 0%Q
    | _ => ((PyNum.of_nat (set_len exact) + PyNum.of_nat (set_len related) * (7 # 10))
            / PyNum.of_nat (length job_skills) * 100)%Q
    end in
  {| match_percentage := PyNum.round2 match_pct;
     comprehensive_match_percentage := PyNum.round2 comprehensive_match;
     exact_matches := set_iter rt exact;
     related_skills := set_iter rt related;
     critical_skill_gaps := set_iter rt skill_gaps;
     skill_diversity_score := skill_diversity skills_data;
     total_skills_count := total_skills skills_data;
     category_breakdown := _analyze_skill_categories self rt skills_data job_skills;
     skill_strength_index := _calculate_skill_strength_index self skills_data |}.

(** *** Experience fit *)

(** The [requirements] dictionary. *)
Record Requirements : Type :=
  { min_years : Z;
    level : string;
    management_required : bool }.

(** "(\d+)\+?\s*years?\s*experience" *)
Definition min_years_pattern : re :=
  seq [Cap 1 (plus d); opt (Chr "+"); star s; lit "year"; opt (Chr "s"); star s;
       lit "experience"].
(** "(\d+)\s*-\s*(\d+)\s*years" *)
Definition max_years_pattern : re :=
  seq [Cap 1 (plus d); star s; lit "-"; star s; Cap 2 (plus d); star s; lit "years"].
(** "(senior|junior|mid-level|entry-level|executive|lead|principal)" *)
Definition level_pattern : re :=
  Cap 1 (alt (map lit ["senior"; "junior"; "mid-level"; "entry-level"; "executive";
                       "lead"; "principal"])).
(** "(management|manager|leadership|director|head of)" *)
Definition management_pattern : re :=
  Cap 1 (alt (map lit ["management"; "manager"; "leadership"; "director"; "head of"])).

Definition level_mapping : list (string * Z) :=
  [("entry-level", 0%Z); ("junior", 1%Z); ("mid-level", 3%Z); ("senior", 5%Z);
   ("lead", 7%Z); ("principal", 8%Z); ("executive", 10%Z)].

Definition group1 (m : match_obj) : string :=
  match group 1 m with Some g => g | None => "" end.

(** The loop over [patterns] unrolled in the dictionary's order; a match of
    the ['max_years'] pattern changes nothing. *)
Definition _extract_experience_requirements_advanced (self : AdvancedScoringModel)
    (job_description : string) : Requirements :=
  let text := lower job_description in
  let years :=
    match search no_flags min_years_pattern text with
    | Some m => int (group1 m)
    | None => 0%Z
    end in
  let lvl :=
    match search no_flags level_pattern text with
    | Some m => group1 m
    | None => ""
    end in
  let management := found no_flags text management_pattern in
  let years :=
    if (years =? 0)%Z then
      match lookup lvl level_mapping with Some y => y | None => 2%Z end
    else years in
  {| min_years := years; level := lvl; management_required := management |}.

Definition _calculate_experience_sufficiency_score (self : AdvancedScoringModel)
    (experience_data : Experience) (requirements : Requirements) : Q :=
  let actual_experience := total_experience_years experience_data in
  let required_experience := min_years requirements in
  if (required_experience <=? actual_experience)%Z then 100%Q
  else if (0 <? required_experience)%Z then
    PyNum.Qmin 100 (inject_Z actual_experience / inject_Z required_experience * 100)%Q
  else 50%Q.

Definition _analyze_career_trajectory_advanced (self : AdvancedScoringModel)
    (experience_data : Experience) : Q :=
  match career_progression experience_data with
  | [] => 0%Q
  | positions =>
      let position_count := PyNum.of_nat (length positions) in
      let total_experience := inject_Z (total_experience_years experience_data) in
      let avg_position_duration := (total_experience / position_count)%Q in
      let stability_score := (PyNum.Qmin 1 (avg_position_duration / (25 # 10)) * 40)%Q in
      let progression_score := (PyNum.Qmin 1 (position_count / 8) * 30)%Q in
      let leadership_score :=
        if String.eqb (promotion_trajectory experience_data) "Stable Progression"
        then 30%Q else 15%Q in
      PyNum.round2 (stability_score + progression_score + leadership_score)%Q
  end.

(** [industry_keywords] of [_extract_industries_from_job_advanced] *)
Definition industry_keywords : list (string * list string) :=
  [
   ("technology",
     ["software"; "it"; "tech"; "computer"; "developer"; "programming"; "technology"]);
   ("finance",
     ["banking"; "finance"; "investment"; "financial"; "accounting"; "bank"; "investment"]);
   ("healthcare",
     ["medical"; "health"; "hospital"; "healthcare"; "pharmaceutical"; "clinical"]);
   ("education",
     ["education"; "academic"; "university"; "school"; "teaching"; "educational"]);
   ("retail",
     ["retail"; "sales"; "customer service"; "merchandising"; "e-commerce"]);
   ("manufacturing",
     ["manufacturing"; "production"; "factory"; "industrial"; "engineering"]);
   ("consulting",
     ["consulting"; "consultant"; "advisory"; "professional services"]);
   ("government",
     ["government"; "public sector"; "municipal"; "civil service"])
  ].

(** The keys of [table], in order, one of whose keywords occurs in the text. *)
Definition keys_in (table : list (string * list string)) (text_lower : string)
    : list string :=
  map fst (filter (fun entry => any_in (snd entry) text_lower) table).

Definition _extract_industries_from_job_advanced (self : AdvancedScoringModel)
    (job_description : string) : list string :=
  keys_in industry_keywords (lower job_description).

Definition _analyze_industry_relevance_advanced (self : AdvancedScoringModel)
    (experience_data : Experience) (job_description : string) : Q :=
  let job_industries := _extract_industries_from_job_advanced self job_description in
  let candidate_industries := industry_sectors experience_data in
  match job_industries, candidate_industries with
  | [], _ | _, [] => 50%Q
  | _, _ =>
      let overlap := set_inter job_industries candidate_industries in
      let base_relevance := percent_of (set_len overlap) (length job_industries) in
      let industry_diversity_bonus :=
        PyNum.of_nat (Nat.min 20 (length candidate_industries * 5)) in
      PyNum.round2 (PyNum.Qmin (base_relevance + industry_diversity_bonus) 100)%Q
  end.

Definition leadership_keywords : list string :=
  ["lead"; "manage"; "direct"; "supervise"; "head"; "chief"; "director"; "manager";
   "supervisor"; "team lead"; "project lead"; "oversee"; "mentor"].

Definition _assess_leadership_experience (self : AdvancedScoringModel)
    (experience_data : Experience) : Q :=
  let leadership_evidence :=
    fold_left (fun evidence position =>
                 let description := lower (p_description position) in
                 let evidence :=
                   if any_in leadership_keywords description then evidence + 1
                   else evidence in
                 let position_title := lower (p_position position) in
                 if any_in ["manager"; "director"; "head"; "lead"; "chief"] position_title
                 then evidence + 2 else evidence)
              (career_progression experience_data) 0 in
  PyNum.Qmin 100 (PyNum.of_nat (leadership_evidence * 20)).

Definition _assess_career_stability (self : AdvancedScoringModel)
    (experience_data : Experience) : Q :=
  match career_progression experience_data with
  | [] => 50%Q
  | positions =>
      let total_positions := length positions in
      let short_term_positions :=
        length (filter (fun pos => PyNum.Qlt_bool (inject_Z (p_duration_years pos)) 1)
                       positions) in
      let stability_ratio :=
        ((PyNum.of_nat total_positions - PyNum.of_nat short_term_positions)
         / PyNum.of_nat total_positions)%Q in
      PyNum.round2 (stability_ratio * 100)%Q
  end.

(** The dictionary returned by [_analyze_experience_fit_advanced]. *)
Record ExperienceFit : Type :=
  { experience_sufficiency : bool;
    experience_sufficiency_score : Q;
    career_progression_score : Q;
    industry_relevance : Q;
    leadership_experience : Q;
    achievement_density : Q;
    career_stability : Q;
    required_experience : Z;
    actual_experience : Z }.

Definition _analyze_experience_fit_advanced (self : AdvancedScoringModel)
    (experience_data : Experience) (job_description : string) : ExperienceFit :=
  let exp_requirements := _extract_experience_requirements_advanced self job_description in
  let career_trajectory := _analyze_career_trajectory_advanced self experience_data in
  let relevance := _analyze_industry_relevance_advanced self experience_data job_description in
  let leadership_score := _assess_leadership_experience self experience_data in
  {| experience_sufficiency :=
       (min_years exp_requirements <=? total_experience_years experience_data)%Z;
     experience_sufficiency_score :=
       _calculate_experience_sufficiency_score self experience_data exp_requirements;
     career_progression_score := career_trajectory;
     industry_relevance := relevance;
     leadership_experience := leadership_score;
     achievement_density :=
       (PyNum.of_nat (length (key_achievements experience_data))
        / inject_Z (Z.max 1 (total_experience_years experience_data)))%Q;
     career_stability := _assess_career_stability self experience_data;
     required_experience := min_years exp_requirements;
     actual_experience := total_experience_years experience_data |}.

(** *** Qualification fit *)

Definition qualification_keywords : list (string * list string) :=
  [
   ("phd",
     ["phd"; "doctorate"; "doctoral"]);
   ("masters",
     ["master"; "masters"; "mba"; "msc"; "ma"; "postgraduate"]);
   ("bachelors",
     ["bachelor"; "degree"; "undergraduate"; "bsc"; "ba"; "bcom"]);
   ("diploma",
     ["diploma"; "certificate"; "certification"])
  ].

Definition _extract_required_qualification_level_advanced (self : AdvancedScoringModel)
    (job_description : string) : string :=
  first_key_in qualification_keywords (lower job_description).

(** [field_keywords] of [_extract_field_requirements_advanced] *)
Definition field_keywords : list (string * list string) :=
  [
   ("computer science",
     ["computer science"; "cs"; "software engineering"; "information systems"; "computing"]);
   ("business",
     ["business administration"; "mba"; "commerce"; "business"; "management"]);
   ("engineering",
     ["engineering"; "engineer"; "mechanical"; "electrical"; "civil"; "chemical"]);
   ("mathematics",
     ["mathematics"; "math"; "statistics"; "applied math"]);
   ("finance",
     ["finance"; "accounting"; "economics"; "banking"; "investment"])
  ].

Definition _extract_field_requirements_advanced (self : AdvancedScoringModel)
    (job_description : string) : list string :=
  keys_in field_keywords (lower job_description).

Definition _analyze_field_relevance_advanced (self : AdvancedScoringModel)
    (quals : Qualifications) (job_description : string) : Q :=
  let job_fields := _extract_field_requirements_advanced self job_description in
  let candidate_fields := fields_of_study quals in
  match job_fields, candidate_fields with
  | [], _ | _, [] => 50%Q
  | _, _ =>
      let overlap := set_inter job_fields candidate_fields in
      let relevance := percent_of (set_len overlap) (length job_fields) in
      let relevance :=
        if 1 <? length candidate_fields
        then (relevance
              + PyNum.of_nat (Nat.min 20 ((length candidate_fields - 1) * 5)))%Q
        else relevance in
      PyNum.round2 (PyNum.Qmin relevance 100)
  end.

Definition level_scores : list (string * Z) :=
  [("phd", 100%Z); ("masters", 85%Z); ("bachelors", 70%Z); ("diploma", 60%Z);
   ("certificate", 50%Z); ("", 30%Z)].

(** The dictionary returned by [_analyze_qualification_fit_advanced]. *)
Record QualificationFit : Type :=
  { qualification_sufficiency : bool;
    qualification_gap : Z;
    qualification_score : Z;
    required_level_score : Z;
    field_relevance : Q;
    candidate_level : string;
    required_level : string }.

Definition _analyze_qualification_fit_advanced (self : AdvancedScoringModel)
    (quals : Qualifications) (job_description : string) : QualificationFit :=
  let required := _extract_required_qualification_level_advanced self job_description in
  let candidate := qualification_level quals in
  let candidate_score :=
    match lookup candidate level_scores with Some v => v | None => 30%Z end in
  let required_score :=
    match lookup required level_scores with Some v => v | None => 50%Z end in
  {| qualification_sufficiency := (required_score <=? candidate_score)%Z;
     qualification_gap := Z.max 0 (required_score - candidate_score);
     qualification_score := candidate_score;
     required_level_score := required_score;
     field_relevance := _analyze_field_relevance_advanced self quals job_description;
     candidate_level := candidate;
     required_level := required |}.

(** *** Cultural fit *)

(** [culture_keywords] of [_extract_culture_indicators_advanced] *)
Definition culture_keywords : list string :=
  ["fast-paced"; "innovative"; "collaborative"; "team-oriented"; "startup"; "dynamic";
   "creative"; "agile"; "flexible"; "remote"; "hybrid"; "growth mindset"; "customer-focused";
   "results-driven"; "entrepreneurial"].

Definition _extract_culture_indicators_advanced (self : AdvancedScoringModel)
    (job_description : string) : list string :=
  let text_lower := lower job_description in
  filter (fun keyword => contains keyword text_lower) culture_keywords.

Definition _calculate_adaptability_score_advanced (self : AdvancedScoringModel)
    (resume_data : ResumeData) : Q :=
  let score := 50%Q in
  let industry_count := length (industry_sectors (experience resume_data)) in
  let score := (score + PyNum.of_nat (Nat.min 20 (industry_count * 5)))%Q in
  let diversity := skill_diversity (skills resume_data) in
  let score := (score + PyNum.of_nat (Nat.min 20 (diversity * 2)))%Q in
  let score :=
    match career_progression (experience resume_data) with
    | [] => score
    | _ => (score + 10)%Q
    end in
  let companies_count := length (companies_worked (experience resume_data)) in
  let score := (score + PyNum.of_nat (Nat.min 10 (companies_count * 2)))%Q in
  PyNum.Qmin score 100.

Definition _assess_longevity_potential_advanced (self : AdvancedScoringModel)
    (resume_data : ResumeData) : Q :=
  let exp := experience resume_data in
  let total_experience := total_experience_years exp in
  if (total_experience <? 2)%Z then 40%Q
  else
    match career_progression exp with
    | [] => 50%Q
    | positions =>
        let avg_duration :=
          (inject_Z total_experience / PyNum.of_nat (length positions))%Q in
        if Qle_bool 3 avg_duration then 90%Q
        else if Qle_bool 2 avg_duration then 75%Q
        else if Qle_bool 1 avg_duration then 60%Q
        else 45%Q
    end.

Definition _assess_team_fit (self : AdvancedScoringModel) (rt : PyRuntime)
    (resume_data : ResumeData) (job_description : string) : Q :=
  let skill_match := _analyze_skill_fit_advanced self rt (skills resume_data) job_description in
  let experience_match :=
    _analyze_experience_fit_advanced self (experience resume_data) job_description in
  ((comprehensive_match_percentage skill_match
    + experience_sufficiency_score experience_match) / 2)%Q.

(** The dictionary returned by [_analyze_cultural_fit_advanced]. *)
Record CulturalFit : Type :=
  { culture_alignment : nat;
    adaptability_score : Q;
    potential_longevity : Q;
    team_fit : Q }.

Definition _analyze_cultural_fit_advanced (self : AdvancedScoringModel) (rt : PyRuntime)
    (resume_data : ResumeData) (job_description : string) : CulturalFit :=
  let culture_indicators := _extract_culture_indicators_advanced self job_description in
  let adaptability := _calculate_adaptability_score_advanced self resume_data in
  {| culture_alignment := length culture_indicators * 10;
     adaptability_score := adaptability;
     potential_longevity := _assess_longevity_potential_advanced self resume_data;
     team_fit := _assess_team_fit self rt resume_data job_description |}.

(** *** Achievements *)

(** The dictionary returned by [_analyze_achievements_impact]. *)
Record AchievementsImpact : Type :=
  { achievement_score : nat;
    total_achievements : nat;
    has_awards : bool;
    has_certifications : bool;
    has_publications : bool }.

Definition _analyze_achievements_impact (self : AdvancedScoringModel)
    (awards_data : Awards) : AchievementsImpact :=
  let total :=
    length (awards awards_data) + length (certifications awards_data)
    + length (honors awards_data) + length (publications awards_data)
    + length (patents awards_data) in
  {| achievement_score := Nat.min 100 (total * 15);
     total_achievements := total;
     has_awards := 0 <? length (awards awards_data);
     has_certifications := 0 <? length (certifications awards_data);
     has_publications := 0 <? length (publications awards_data) |}.

(** *** Overall score *)

Definition weight_skill_match : Q := 40 # 100.
Definition weight_experience : Q := 30 # 100.
Definition weight_qualifications : Q := 15 # 100.
Definition weight_cultural_fit : Q := 10 # 100.
Definition weight_achievements : Q := 5 # 100.

Definition _calculate_comprehensive_score (self : AdvancedScoringModel)
    (skill_fit : SkillFit) (experience_fit : ExperienceFit)
    (qualification_fit : QualificationFit) (cultural_fit : CulturalFit)
    (achievements_impact : AchievementsImpact) : Q :=
  let skill_score := comprehensive_match_percentage skill_fit in
  let experience_score := experience_sufficiency_score experience_fit in
  let qualification_score := inject_Z (qualification_score qualification_fit) in
  let cultural_score :=
    ((PyNum.of_nat (culture_alignment cultural_fit) + adaptability_score cultural_fit) / 2)%Q in
  let achievements_score := PyNum.of_nat (achievement_score achievements_impact) in
  let total_score :=
    (skill_score * weight_skill_match
     + experience_score * weight_experience
     + qualification_score * weight_qualifications
     + cultural_score * weight_cultural_fit
     + achievements_score * weight_achievements)%Q in
  PyNum.round2 total_score.

(** *** Recommendation, questions, strengths *)

(** [str(x)] for a float with at most two decimals, as [round(x, 2)] gives. *)
Definition repr_float2 (x : Q) : string :=
  let n := PyNum.round_half_even (x * 100)%Q in
  let a := Z.to_nat (Z.abs n) in
  (if (n <? 0)%Z then "-" else "")
  ++ str_nat (a / 100) ++ "."
  ++ (if a mod 10 =? 0 then String (digit_char (a / 10)) "" else pad 2 (a mod 100)).

Definition _generate_detailed_recommendation (self : AdvancedScoringModel)
    (score : Q) (skill_fit : SkillFit) (experience_fit : ExperienceFit) : string :=
  let skill_match := comprehensive_match_percentage skill_fit in
  if Qle_bool 90 score then
    "🏆 TOP CANDIDATE - Exceptional match with outstanding skills and experience. Immediate interview recommended."
  else if Qle_bool 80 score then
    "✅ STRONG RECOMMEND - Excellent skills alignment with sufficient experience. High potential candidate."
  else if Qle_bool 70 score then
    "👍 RECOMMEND - Good overall fit with solid qualifications. Worth interviewing."
  else if Qle_bool 60 score then
    if Qle_bool 70 skill_match then
      "🟡 SKILL-FOCUSED CANDIDATE - Strong skills match but limited experience. Consider for specialized roles."
    else
      "🟡 EXPERIENCED CANDIDATE - Good experience but some skill gaps. Training potential."
  else if Qle_bool 50 score then
    "🟠 BORDERLINE CANDIDATE - Moderate fit with development areas. Consider for junior positions."
  else
    "🔴 NOT RECOMMENDED - Significant mismatches with role requirements.".

(** [resume_data.get('skill_analysis', {}).get('critical_skill_gaps', [])] *)
Definition resume_skill_gaps (resume_data : ResumeData) : list string :=
  match skill_analysis resume_data with
  | Some gaps => gaps
  | None => []
  end.

Definition skill_gap_question (skill_gaps : list string) : string :=
  "How would you approach developing skills in " ++ join ", " (firstn 2 skill_gaps)
  ++ " to meet our requirements?".
Definition ramp_up_question : string :=
  "What strategies would you use to quickly ramp up in this role given your experience level?".
Definition progression_question : string :=
  "Can you walk us through your career progression and what motivated your key transitions?".
Definition achievement_question : string :=
  "Which of your professional achievements are you most proud of and how do they relate to this role?".
Definition industry_question (industry : string) : string :=
  "How has your experience in " ++ industry ++ " prepared you for this position?".
Definition behavioral_questions : list string :=
  ["Describe a challenging project you worked on and how you overcame obstacles.";
   "How do you stay current with industry trends and technologies?";
   "What attracted you to this particular role and our company?"].

Definition _generate_targeted_questions (self : AdvancedScoringModel)
    (resume_data : ResumeData) (job_description : string) : list string :=
  let questions := [] in
  let skill_gaps := resume_skill_gaps resume_data in
  let questions :=
    match skill_gaps with
    | [] => questions
    | _ => append questions (skill_gap_question skill_gaps)
    end in
  let experience_data := experience resume_data in
  let questions :=
    if (total_experience_years experience_data <? 3)%Z
    then append questions ramp_up_question else questions in
  let questions :=
    if 0 <? length (career_progression experience_data)
    then append questions progression_question else questions in
  let questions :=
    match key_achievements experience_data with
    | [] => questions
    | _ => append questions achievement_question
    end in
  let questions :=
    match industry_sectors experience_data with
    | [] => questions
    | industry :: _ => append questions (industry_question industry)
    end in
  let questions := (questions ++ behavioral_questions)%list in
  firstn 6 questions.

(** The dictionary returned by [_identify_strengths_weaknesses]. *)
Record StrengthsWeaknesses : Type :=
  { strengths : list string;
    weaknesses : list string;
    development_areas : list string }.

Definition _identify_strengths_weaknesses (self : AdvancedScoringModel) (rt : PyRuntime)
    (resume_data : ResumeData) (job_description : string) : StrengthsWeaknesses :=
  let analysis := _analyze_skill_fit_advanced self rt (skills resume_data) job_description in
  let skill_strong := Qle_bool 70 (comprehensive_match_percentage analysis) in
  let strengths0 :=
    if skill_strong then
      ["Strong skills alignment ("
       ++ repr_float2 (comprehensive_match_percentage analysis) ++ "% match)"]
    else [] in
  let weaknesses0 :=
    if skill_strong then []
    else ["Skill gaps in: " ++ join ", " (firstn 3 (critical_skill_gaps analysis))] in
  let experience_data := experience resume_data in
  let experienced := (3 <=? total_experience_years experience_data)%Z in
  let strengths1 :=
    if experienced then
      append strengths0
        ("Substantial professional experience ("
         ++ str_int (total_experience_years experience_data) ++ " years)")
    else strengths0 in
  let weaknesses1 :=
    if experienced then weaknesses0
    else append weaknesses0 "Limited professional experience" in
  let strengths2 :=
    if mem (qualification_level (qualifications resume_data)) ["masters"; "phd"]
    then append strengths1 "Advanced educational qualifications" else strengths1 in
  let strengths3 :=
    if String.eqb (promotion_trajectory experience_data) "Stable Progression"
    then append strengths2 "Stable career progression" else strengths2 in
  {| strengths := firstn 4 strengths3;
     weaknesses := firstn 3 weaknesses1;
     development_areas := firstn 3 (critical_skill_gaps analysis) |}.

(** *** Candidate fit *)

(** The dictionary returned by [analyze_candidate_fit]. *)
Record CandidateFit : Type :=
  { overall_score : Q;
    fit_skill_analysis : SkillFit;
    experience_analysis : ExperienceFit;
    qualification_analysis : QualificationFit;
    cultural_fit : CulturalFit;
    achievements_impact : AchievementsImpact;
    hiring_recommendation : string;
    interview_questions : list string;
    strengths_weaknesses : StrengthsWeaknesses }.

Definition analyze_candidate_fit (self : AdvancedScoringModel) (rt : PyRuntime)
    (resume_data : ResumeData) (job_description : string) : CandidateFit :=
  let skill_fit := _analyze_skill_fit_advanced self rt (skills resume_data) job_description in
  let experience_fit :=
    _analyze_experience_fit_advanced self (experience resume_data) job_description in
  let qualification_fit :=
    _analyze_qualification_fit_advanced self (qualifications resume_data) job_description in
  let cultural := _analyze_cultural_fit_advanced self rt resume_data job_description in
  let achievements := _analyze_achievements_impact self (awards_certifications resume_data) in
  let score :=
    _calculate_comprehensive_score self skill_fit experience_fit qualification_fit
      cultural achievements in
  {| overall_score := score;
     fit_skill_analysis := skill_fit;
     experience_analysis := experience_fit;
     qualification_analysis := qualification_fit;
     cultural_fit := cultural;
     achievements_impact := achievements;
     hiring_recommendation :=
       _generate_detailed_recommendation self score skill_fit experience_fit;
     interview_questions := _generate_targeted_questions self resume_data job_description;
     strengths_weaknesses :=
       _identify_strengths_weaknesses self rt resume_data job_description |}.

(** *** Resume quality and the report *)

Definition _identify_resume_strengths (self : AdvancedScoringModel)
    (resume_data : ResumeData) : list string :=
  let strengths := [] in
  let strengths :=
    if (3 <=? total_experience_years (experience resume_data))%Z
    then append strengths "Clear career progression and substantial experience"
    else strengths in
  let strengths :=
    if 15 <=? total_skills (skills resume_data)
    then append strengths "Diverse and comprehensive skill set" else strengths in
  let strengths :=
    if truthy (highest_qualification (qualifications resume_data))
    then append strengths "Well-documented educational background" else strengths in
  match awards (awards_certifications resume_data),
        certifications (awards_certifications resume_data) with
  | [], [] => strengths
  | _, _ => append strengths "Notable professional achievements and certifications"
  end.

Definition _identify_resume_improvements (self : AdvancedScoringModel)
    (resume_data : ResumeData) : list string :=
  let improvements := [] in
  let improvements :=
    if (total_experience_years (experience resume_data) <? 2)%Z
    then append improvements "Could benefit from more detailed project descriptions"
    else improvements in
  let improvements :=
    if total_skills (skills resume_data) <? 8
    then append improvements "Consider expanding technical and professional skills section"
    else improvements in
  if negb (truthy (highest_qualification (qualifications resume_data)))
  then append improvements "Include educational qualifications if applicable"
  else improvements.

(** The [section_scores] dictionary. *)
Record SectionScores : Type :=
  { Experience_score : Z;
    Skills_score : nat;
    Education_score : nat;
    Achievements_score : nat }.

(** The dictionary returned by [_generate_quality_analysis_advanced]. *)
Record QualityAnalysis : Type :=
  { quality_overall_score : nat;
    section_scores : SectionScores;
    quality_strengths : list string;
    improvements : list string;
    ats_compatibility : nat }.

Definition _generate_quality_analysis_advanced (self : AdvancedScoringModel)
    (resume_data : ResumeData) : QualityAnalysis :=
  let quality_score := 65 in
  let experience_years := total_experience_years (experience resume_data) in
  let quality_score :=
    if (2 <? experience_years)%Z then quality_score + 10 else quality_score in
  let quality_score :=
    if (5 <? experience_years)%Z then quality_score + 5 else quality_score in
  let skill_count := total_skills (skills resume_data) in
  let quality_score := if 10 <? skill_count then quality_score + 10 else quality_score in
  let quality_score := if 20 <? skill_count then quality_score + 5 else quality_score in
  let has_qualification := truthy (highest_qualification (qualifications resume_data)) in
  let quality_score := if has_qualification then quality_score + 10 else quality_score in
  let awards_data := awards_certifications resume_data in
  let achievement_count :=
    length (awards awards_data) + length (certifications awards_data)
    + length (honors awards_data) in
  let quality_score :=
    if 0 <? achievement_count then quality_score + Nat.min 10 (achievement_count * 2)
    else quality_score in
  let quality_score := Nat.min quality_score 100 in
  {| quality_overall_score := quality_score;
     section_scores :=
       {| Experience_score := Z.min 100 (experience_years * 8 + 40);
          Skills_score := Nat.min 100 (skill_count * 3);
          Education_score := if has_qualification then 100 else 50;
          Achievements_score := Nat.min 100 (achievement_count * 20) |};
     quality_strengths := _identify_resume_strengths self resume_data;
     improvements := _identify_resume_improvements self resume_data;
     ats_compatibility := 80 |}.

Definition _determine_interview_priority_advanced (self : AdvancedScoringModel)
    (score : Q) : string :=
  if Qle_bool 85 score then "HIGH PRIORITY - Schedule immediately"
  else if Qle_bool 70 score then "MEDIUM PRIORITY - Schedule within week"
  else if Qle_bool 55 score then "LOW PRIORITY - Consider if other candidates unavailable"
  else "NOT RECOMMENDED - Significant gaps identified".

Definition _generate_comprehensive_recommendation_advanced (self : AdvancedScoringModel)
    (job_fit : CandidateFit) (quality : QualityAnalysis) : string :=
  let score := overall_score job_fit in
  let quality_score := quality_overall_score quality in
  if Qle_bool 85 score && (80 <=? quality_score) then
    "🏆 EXCEPTIONAL CANDIDATE - Outstanding match across all criteria with high-quality resume"
  else if Qle_bool 75 score then
    "✅ STRONG CANDIDATE - Excellent job fit with well-presented qualifications"
  else if Qle_bool 60 score then
    "👍 PROMISING CANDIDATE - Good potential with some areas for development"
  else if Qle_bool 50 score then
    "🟡 DEVELOPMENT CANDIDATE - Requires training but shows potential"
  else
    "🔴 NOT SUITABLE - Significant gaps in required qualifications".

(** The ['job_fit_analysis'] entry of the report. *)
Record JobFitAnalysis : Type :=
  { compatibility_score : Q;
    skill_match : Q;
    experience_match : Q;
    education_match : Z;
    matching_skills : list string;
    missing_skills : list string;
    skill_match_breakdown : list (string * CategoryMatch);
    fit_analysis : string }.

(** The dictionary returned by [generate_comprehensive_report]. *)
Record Report : Type :=
  { job_fit_analysis : JobFitAnalysis;
    quality_analysis : QualityAnalysis;
    interview_priority : string;
    recommendation : string;
    report_interview_questions : list string;
    report_strengths_weaknesses : StrengthsWeaknesses;
    report_resume_code : string;
    confidential_lookup : string }.

Definition generate_comprehensive_report (self : AdvancedScoringModel) (rt : PyRuntime)
    (job_requirements : string) (resume_data : ResumeData) : Report :=
  let job_fit := analyze_candidate_fit self rt resume_data job_requirements in
  let quality := _generate_quality_analysis_advanced self resume_data in
  let priority := _determine_interview_priority_advanced self (overall_score job_fit) in
  let recommendation_text :=
    _generate_comprehensive_recommendation_advanced self job_fit quality in
  {| job_fit_analysis :=
       {| compatibility_score := overall_score job_fit;
          skill_match := match_percentage (fit_skill_analysis job_fit);
          experience_match := experience_sufficiency_score (experience_analysis job_fit);
          education_match := qualification_score (qualification_analysis job_fit);
          matching_skills := exact_matches (fit_skill_analysis job_fit);
          missing_skills := critical_skill_gaps (fit_skill_analysis job_fit);
          skill_match_breakdown := category_breakdown (fit_skill_analysis job_fit);
          fit_analysis := hiring_recommendation job_fit |};
     quality_analysis := quality;
     interview_priority := priority;
     recommendation := recommendation_text;
     report_interview_questions := interview_questions job_fit;
     report_strengths_weaknesses := strengths_weaknesses job_fit;
     report_resume_code := resume_code resume_data;
     confidential_lookup :=
       "Use phone number with resume code: " ++ resume_code resume_data |}.

End Ml.

(** ** Notions used in the statements *)

Module Notions.
Import PyStr Re Nlp.

(** The tests of the education scan on a line: a start keyword; a closing
    keyword on a short line. *)
Definition education_start (line : string) : bool :=
  any_in education_start_keywords (lower (strip line)).
Definition education_end (line : string) : bool :=
  any_in education_end_keywords (lower (strip line)) && (len (strip line) <? 50).

(** The tests of the experience scan on a line. *)
Definition experience_start (line : string) : bool :=
  any_in experience_start_keywords (lower (strip line)).
Definition experience_end (line : string) : bool :=
  any_in experience_end_keywords (lower (strip line)) && (len (strip line) <? 50).

(** The scan state once a start keyword is met. *)
Definition open_section (st : ExpScan) : ExpScan :=
  {| es_section := true; es_current := es_current st; es_positions := es_positions st;
     es_achievements := es_achievements st; es_sectors := es_sectors st |}.

(** The first two characters of a year token: "20" or "19". *)
Definition year_prefix (c1 c2 : ascii) : bool :=
  (Ascii.eqb "2" c1 && Ascii.eqb "0" c2) || (Ascii.eqb "1" c1 && Ascii.eqb "9" c2).

(** A match of the year pattern in [text]: four characters at its start
    offset, a year prefix and two digits, and the scan resumes after them. *)
Definition year_match (text : string) (m : match_obj) : Prop :=
  mo_text m = text
  /\ exists c1 c2 c3 c4 t,
       drop (mo_start m) text = String c1 (String c2 (String c3 (String c4 t)))
       /\ year_prefix c1 c2 = true /\ is_digit c3 = true /\ is_digit c4 = true
       /\ m_pos (mo_end m) = 4 + mo_start m
       /\ m_rest (mo_end m) = t.

(** The duration of a position is computed from its date range. *)
Definition duration_from_dates (now : datetime) (p : Position) : Prop :=
  p_duration_years p = _calculate_position_duration now (p_dates p).

(** The positions collected by the experience scan have their durations
    computed from their date ranges. *)
Definition scan_durations (now : datetime) (st : ExpScan) : Prop :=
  Forall (duration_from_dates now) (es_positions st)
  /\ (forall cur, es_current st = Some cur -> duration_from_dates now cur).

End Notions.

(** ** Invariants of the extraction loops *)

Module Invariants.
Import PyStr Re Nlp Ml Notions.

(** A position read off one of the [lines]. *)
Definition position_of_line (now : datetime) (lines : list string) (p : Position) : Prop :=
  exists line, In line lines /\ _extract_position_info now (strip line) = Some p.

(** An achievement read off one of the [lines]. *)
Definition achievement_of_line (lines : list string) (achievement : string) : Prop :=
  exists line,
    In line lines /\ _is_achievement_advanced (strip line) = true
    /\ achievement = _clean_achievement (strip line).

(** An industry sector detected on one of the [lines]. *)
Definition sector_of_line (lines : list string) (sector : string) : Prop :=
  exists line, In line lines /\ sector = _detect_industry_sector_advanced (strip line).

(** What the experience scan keeps true of its loop variables. *)
Definition scan_from_lines (now : datetime) (lines : list string) (st : ExpScan) : Prop :=
  Forall (position_of_line now lines) (es_positions st)
  /\ (forall cur, es_current st = Some cur -> position_of_line now lines cur)
  /\ Forall (fun a => achievement_of_line lines a /\ 10 < len a) (es_achievements st)
  /\ Forall (fun s => sector_of_line lines s /\ s <> "") (es_sectors st)
  /\ NoDup (es_sectors st).

(** A qualification read off one of the [lines]. *)
Definition qualification_of_line (lines : list string) (q : QualInfo) : Prop :=
  exists line, In line lines /\ _extract_qualification_details (strip line) = Some q.

(** The years a position adds to the total experience. *)
Definition counted_years (p : Position) : Z := Z.max 0 (p_duration_years p).

(** The entry of [all_skills] built from an entry of a category. *)
Definition skill_entry (skill_data : SkillInfo) : TopSkill :=
  {| t_skill := s_skill skill_data;
     t_category := s_category skill_data;
     t_score := (s_confidence skill_data * PyNum.of_nat (s_frequency skill_data))%Q;
     t_frequency := s_frequency skill_data;
     t_confidence := s_confidence skill_data |}.

(** Every character of [s] passes the test [p]. *)
Fixpoint all_chars (p : ascii -> bool) (s : string) : bool :=
  match s with
  | EmptyString => true
  | String c t => p c && all_chars p t
  end.

(** Two entries of a category breakdown that differ at most in the order of
    their matched skills. *)
Definition same_up_to_order (a b : string * CategoryMatch) : Prop :=
  fst a = fst b
  /\ match_count (snd a) = match_count (snd b)
  /\ cm_total_skills (snd a) = cm_total_skills (snd b)
  /\ cm_match_percentage (snd a) = cm_match_percentage (snd b)
  /\ Permutation (matched_skills (snd a)) (matched_skills (snd b)).

End Invariants.

(** ** Sample inputs *)

Module Samples.
Import PyStr Re Nlp Ml.

(** A runtime whose sets iterate in order of first insertion. *)
Definition insertion_order : PyRuntime :=
  {| set_iter := nodup string_dec;
     set_iter_perm := fun l => Permutation_refl (nodup string_dec l) |}.

(** Digests of the two texts hashed in the examples; any other text gets
    the digest of the empty text. *)
Definition sample_hashlib : Hashlib :=
  {| sha256_hexdigest := fun text =>
       if String.eqb text "0771234567"
       then "cd581ca11a4264ce26ed11d7c387abcf6147b61b33a76155b09cb63f56f0222a"
       else "e3b0c44298fc1c149afbf4c8996fb92427ae41e4649b934ca495991b7852b855";
     md5_hexdigest := fun text =>
       if String.eqb text "Jane Doe"
       then "1c272047233576d77a9b9a1acfdf741c"
       else "d41d8cd98f00b204e9800998ecf8427e" |}.

Definition sample_now : datetime :=
  {| year := 2026; month := 11; day := 3;
     hour := 9; minute := 30; second := 0; microsecond := 0 |}.

Definition sample_clock : Clock :=
  {| at_code := sample_now; at_scan := sample_now; at_stamp := sample_now |}.

Definition untrained : AdvancedScoringModel :=
  {| skill_vectorizer := "TfidfVectorizer(max_features=500, stop_words='english')";
     experience_model := "RandomForestClassifier(n_estimators=100, random_state=42)";
     is_trained := false |}.

Definition nl : string := String newline "".

(** A one-page PDF holding [text]. *)
Definition pdf_of (text : string) : DocLib :=
  {| PdfReader := fun _ => Return [Return text];
     Document := fun _ => Raise "not a docx file" |}.

(** The parse of a one-page PDF holding [text]. *)
Definition parse_sample (text : string) : outcome ParseResult :=
  parse_resume (pdf_of text) sample_hashlib insertion_order sample_clock "resume.pdf" "pdf".

(** A resume naming one skill, and one naming a skill and four related ones. *)
Definition cv_python : string := "Jane Doe" ++ nl ++ "Skills: python".
Definition cv_stack : string :=
  "Jane Doe" ++ nl ++ "Skills: python, django, flask, pandas, numpy".

(** A job text naming every culture keyword. *)
Definition culture_job : string :=
  "A fast-paced, innovative, collaborative, team-oriented startup: dynamic, creative, "
  ++ "agile, flexible, remote or hybrid, with a growth mindset; customer-focused, "
  ++ "results-driven and entrepreneurial.".

(** A resume with a second education heading after an experience heading. *)
Definition cv_two_education_headings : string :=
  "Education" ++ nl ++ "BSc Computer Science" ++ nl ++ "Experience" ++ nl
  ++ "Education" ++ nl ++ "MSc Physics".

(** A resume whose only position has its years in descending order. *)
Definition cv_descending_years : string :=
  "Experience" ++ nl ++ "Engineer, Acme 2020-2018".

(** A resume dictionary with every entry empty. *)
Definition blank_resume : ResumeData :=
  {| resume_code := ""; phone_number := "";
     qualifications :=
       {| highest_qualification := ""; qualification_level := ""; all_qualifications := [];
          institutions := []; fields_of_study := []; qualification_details := [] |};
     skills :=
       {| skills_by_category := []; total_skills := 0; skill_diversity := 0;
          total_skill_occurrences := 0; top_skills := []; skill_categories_present := [] |};
     experience :=
       {| total_experience_years := 0; experience_level := ""; industry_sectors := [];
          key_achievements := []; career_progression := []; companies_worked := [];
          positions_held := []; career_gaps := 0; promotion_trajectory := "" |};
     awards_certifications :=
       {| awards := []; certifications := []; honors := []; publications := [];
          patents := [] |};
     skills_list := []; summary := ""; processed_text := ""; extraction_timestamp := "";
     analysis_metadata :=
       {| skill_categories_found := 0; total_skills_identified := 0; experience_years := 0;
          metadata_qualification_level := ""; industries_identified := [] |};
     skill_analysis := None |}.

(** The resume parsed from a one-page PDF holding [text]. *)
Definition sample_resume (text : string) : ResumeData :=
  match parse_sample text with
  | Return (Parsed resume_data) => resume_data
  | _ => blank_resume
  end.

(** The list [l] from its second element on, the first one coming last. *)
Definition rotate (l : list string) : list string :=
  match l with
  | [] => []
  | x :: t => (t ++ [x])%list
  end.

(** It is a rearrangement of [l]. *)
Definition rotate_perm (l : list string) : Permutation (rotate l) l :=
  match l with
  | [] => perm_nil string
  | x :: t => Permutation_sym (Permutation_cons_append t x)
  end.

(** A runtime whose sets iterate from the second element inserted, the
    first one coming last. *)
Definition rotated_order : PyRuntime :=
  {| set_iter := fun l => rotate (nodup string_dec l);
     set_iter_perm := fun l => rotate_perm (nodup string_dec l) |}.

(** A job text naming four skills the resume [cv_python] lacks. *)
Definition job_four_skills : string := "java php html css".

(** A resume with a second experience heading after an education heading. *)
Definition cv_two_experience_headings : string :=
  "Experience" ++ nl ++ "Developer at Acme 2015 - 2019" ++ nl ++ "Education" ++ nl
  ++ "Experience" ++ nl ++ "Tester at Beta 2019 - 2021".

(** Calls of which the search for the phone number raises. *)
Definition failing_phone_methods : Methods :=
  {| call_extract_text_from_file := fun _ _ => Return "Jane Doe";
     call_extract_phone_number := fun _ => Raise "maximum recursion depth exceeded";
     call_generate_confidential_code := fun _ _ => Return "CV-00000000";
     call_extract_qualifications_advanced := fun text =>
       Return (extract_qualifications_advanced text);
     call_extract_skills_comprehensive := fun text =>
       Return (extract_skills_comprehensive text);
     call_extract_experience_advanced := fun text =>
       Return (extract_experience_advanced insertion_order sample_now text);
     call_extract_awards_certifications_advanced := fun text =>
       Return (extract_awards_certifications_advanced text);
     call_generate_comprehensive_summary := fun _ _ _ _ => Return "." |}.

End Samples.

(** ** Properties *)

Import PyStr Re Nlp Ml Notions Samples.

(** *** Lists and sets of strings *)

Lemma mem_In (x : string) (xs : list string) : mem x xs = true <-> In x xs.
Proof.
  unfold mem. rewrite existsb_exists. split.
  - intros (y & Hy & E). apply String.eqb_eq in E. subst y. exact Hy.
  - intros H. exists x. split; [exact H | apply String.eqb_refl].
Qed.

Lemma not_mem_In (x : string) (xs : list string) : mem x xs = false -> ~ In x xs.
Proof.
  intros E H. apply mem_In in H. rewrite H in E. discriminate E.
Qed.

Lemma set_iter_In (rt : PyRuntime) (x : string) (l : list string) :
  In x (set_iter rt l) <-> In x l.
Proof.
  split; intros H.
  - apply (nodup_In string_dec).
    exact (Permutation_in x (set_iter_perm rt l) H).
  - apply (Permutation_in x (Permutation_sym (set_iter_perm rt l))).
    apply (nodup_In string_dec). exact H.
Qed.

Lemma set_iter_NoDup (rt : PyRuntime) (l : list string) : NoDup (set_iter rt l).
Proof.
  apply (Permutation_NoDup (Permutation_sym (set_iter_perm rt l))).
  apply NoDup_nodup.
Qed.

(** A non-empty list that repeats one element is a singleton set. *)
Lemma nodup_constant (a : string) (l : list string) :
  l <> [] -> (forall x, In x l -> x = a) -> nodup string_dec l = [a].
Proof.
  induction l as [| b l IH]; intros Hne Hall; [contradiction |].
  assert (b = a) as -> by (apply Hall; left; reflexivity).
  cbn [nodup]. destruct (in_dec string_dec a l) as [Hin | Hnin].
  - apply IH.
    + intros ->. destruct Hin.
    + intros x Hx. apply Hall. right. exact Hx.
  - destruct l as [| c l]; [reflexivity |].
    exfalso. apply Hnin. left. apply Hall. right. left. reflexivity.
Qed.

Lemma filter_all {A : Type} (f : A -> bool) (l : list A) :
  (forall x, In x l -> f x = true) -> filter f l = l.
Proof.
  induction l as [| a l IH]; intros H; [reflexivity |].
  cbn [filter]. rewrite (H a (or_introl eq_refl)). f_equal.
  apply IH. intros x Hx. apply H. right. exact Hx.
Qed.

(** *** Contact code *)

(** C5: with a non-empty phone number the confidential code is "CV-", the
    first 8 hexadecimal characters of the SHA-256 digest of the phone number
    in upper case, "-", and the month and day of the current date (MMDD), so
    two calls with the same phone number on the same calendar day agree
    whatever the accompanying texts are; with an empty phone number the code
    is "CV-" and the first 8 characters of the MD5 digest of the first 500
    characters of the text in upper case, with no date suffix. *)
Theorem generate_confidential_code_spec (h : Hashlib) (now : datetime)
    (phone_number text : string) :
  phone_number <> "" ->
  generate_confidential_code h now phone_number text
    = "CV-" ++ upper (take 8 (sha256_hexdigest h phone_number)) ++ "-" ++ strftime_md now
  /\ (forall (now' : datetime) (text' : string),
        month now' = month now -> day now' = day now ->
        generate_confidential_code h now' phone_number text'
        = generate_confidential_code h now phone_number text)
  /\ generate_confidential_code h now "" text
     = "CV-" ++ upper (take 8 (md5_hexdigest h (take 500 text))).
Proof.
  intros Hphone. unfold generate_confidential_code, truthy.
  destruct (String.eqb_spec phone_number "") as [E | _]; [contradiction |].
  cbn [negb]. split; [reflexivity | split; [| reflexivity]].
  intros now' text' Hmonth Hday. unfold strftime_md. rewrite Hmonth, Hday. reflexivity.
Qed.

Lemma generate_confidential_code_witness :
  "0771234567" <> ""
  /\ generate_confidential_code sample_hashlib sample_now "0771234567" "Jane Doe"
     = "CV-CD581CA1-1103"
  /\ generate_confidential_code sample_hashlib sample_now "" "Jane Doe" = "CV-1C272047".
Proof.
  assert (H : "0771234567" <> "") by discriminate.
  destruct (generate_confidential_code_spec sample_hashlib sample_now
              "0771234567" "Jane Doe" H) as (H1 & _ & H3).
  split; [exact H | split].
  - rewrite H1. reflexivity.
  - rewrite H3. reflexivity.
Defined.

(** *** Position durations *)

(** C3: the date range "2019 - Present" holds one year token, so the
    duration of the position is 0 whatever the current year is. *)
Theorem position_duration_present (now : datetime) :
  _extract_position_info now "Engineer at Acme 2019 - Present"
  = Some {| p_position := "Engineer";
            p_company := "Acme";
            p_dates := "2019 - Present";
            p_duration_years := 0;
            p_description := "Engineer at Acme 2019 - Present" |}.
Proof. vm_compute. reflexivity. Qed.

(** *** Determinism of the report *)

(** Each method of the scoring model gives the same result on every model
    object: none reads an attribute of [self].  The methods are compared
    with their behaviour on the [untrained] model, callees first. *)

Lemma skill_fit_self self :
  _analyze_skill_fit_advanced self = _analyze_skill_fit_advanced untrained.
Proof. reflexivity. Qed.

Lemma experience_requirements_self self :
  _extract_experience_requirements_advanced self
  = _extract_experience_requirements_advanced untrained.
Proof. reflexivity. Qed.

Lemma experience_sufficiency_score_self self :
  _calculate_experience_sufficiency_score self
  = _calculate_experience_sufficiency_score untrained.
Proof. reflexivity. Qed.

Lemma career_trajectory_self self :
  _analyze_career_trajectory_advanced self = _analyze_career_trajectory_advanced untrained.
Proof. reflexivity. Qed.

Lemma industry_relevance_self self :
  _analyze_industry_relevance_advanced self = _analyze_industry_relevance_advanced untrained.
Proof. reflexivity. Qed.

Lemma leadership_self self :
  _assess_leadership_experience self = _assess_leadership_experience untrained.
Proof. reflexivity. Qed.

Lemma career_stability_self self :
  _assess_career_stability self = _assess_career_stability untrained.
Proof. reflexivity. Qed.

Lemma experience_fit_self self :
  _analyze_experience_fit_advanced self = _analyze_experience_fit_advanced untrained.
Proof.
  unfold _analyze_experience_fit_advanced.
  rewrite (experience_requirements_self self), (experience_sufficiency_score_self self),
    (career_trajectory_self self), (industry_relevance_self self), (leadership_self self),
    (career_stability_self self).
  reflexivity.
Qed.

Lemma field_relevance_self self :
  _analyze_field_relevance_advanced self = _analyze_field_relevance_advanced untrained.
Proof. reflexivity. Qed.

Lemma qualification_fit_self self :
  _analyze_qualification_fit_advanced self = _analyze_qualification_fit_advanced untrained.
Proof.
  unfold _analyze_qualification_fit_advanced.
  rewrite (field_relevance_self self). reflexivity.
Qed.

Lemma team_fit_self self : _assess_team_fit self = _assess_team_fit untrained.
Proof.
  unfold _assess_team_fit.
  rewrite (skill_fit_self self), (experience_fit_self self). reflexivity.
Qed.

Lemma cultural_fit_self self :
  _analyze_cultural_fit_advanced self = _analyze_cultural_fit_advanced untrained.
Proof.
  unfold _analyze_cultural_fit_advanced.
  rewrite (team_fit_self self). reflexivity.
Qed.

Lemma strengths_weaknesses_self self :
  _identify_strengths_weaknesses self = _identify_strengths_weaknesses untrained.
Proof.
  unfold _identify_strengths_weaknesses.
  rewrite (skill_fit_self self). reflexivity.
Qed.

Lemma achievements_impact_self self :
  _analyze_achievements_impact self = _analyze_achievements_impact untrained.
Proof. reflexivity. Qed.

Lemma comprehensive_score_self self :
  _calculate_comprehensive_score self = _calculate_comprehensive_score untrained.
Proof. reflexivity. Qed.

Lemma detailed_recommendation_self self :
  _generate_detailed_recommendation self = _generate_detailed_recommendation untrained.
Proof. reflexivity. Qed.

Lemma targeted_questions_self self :
  _generate_targeted_questions self = _generate_targeted_questions untrained.
Proof. reflexivity. Qed.

Lemma candidate_fit_self self :
  analyze_candidate_fit self = analyze_candidate_fit untrained.
Proof.
  unfold analyze_candidate_fit.
  rewrite (skill_fit_self self), (experience_fit_self self), (qualification_fit_self self),
    (cultural_fit_self self), (strengths_weaknesses_self self),
    (achievements_impact_self self), (comprehensive_score_self self),
    (detailed_recommendation_self self), (targeted_questions_self self).
  reflexivity.
Qed.

Lemma quality_analysis_self self :
  _generate_quality_analysis_advanced self = _generate_quality_analysis_advanced untrained.
Proof. reflexivity. Qed.

Lemma interview_priority_self self :
  _determine_interview_priority_advanced self
  = _determine_interview_priority_advanced untrained.
Proof. reflexivity. Qed.

Lemma comprehensive_recommendation_self self :
  _generate_comprehensive_recommendation_advanced self
  = _generate_comprehensive_recommendation_advanced untrained.
Proof. reflexivity. Qed.

Lemma report_self self :
  generate_comprehensive_report self = generate_comprehensive_report untrained.
Proof.
  unfold generate_comprehensive_report.
  rewrite (candidate_fit_self self), (quality_analysis_self self),
    (interview_priority_self self), (comprehensive_recommendation_self self).
  reflexivity.
Qed.

(** *** Empty text and faults *)

(** [parse_resume] is its [try] block and handler run on the calls that
    return. *)
Lemma parse_resume_is_its_calls lib h rt clock file_path file_type :
  parse_resume lib h rt clock file_path file_type
  = parse_resume_calls (methods_of lib h rt clock) (at_stamp clock) file_path file_type.
Proof.
  unfold parse_resume, parse_resume_calls, parse_resume_try, methods_of.
  cbn [call_extract_text_from_file call_extract_phone_number
       call_generate_confidential_code call_extract_qualifications_advanced
       call_extract_skills_comprehensive call_extract_experience_advanced
       call_extract_awards_certifications_advanced call_generate_comprehensive_summary bind].
  reflexivity.
Qed.

(** C4: whatever its calls do, return or raise, [parse_resume] returns a
    value and never raises: the parsed resume or the dictionary with an
    error message.  When the text extracted is empty the value is the error
    "Could not extract text from file"; when a call raises inside the [try]
    block, the extraction of the text included, the handler turns the
    exception into the error "Error parsing resume: " followed by its
    message (so for the search of the phone number in a text that is not
    empty).  The [parse_resume] of the engine is the case in which every
    call returns, for every behaviour of the document libraries, and it
    gives the error value on an empty text. *)
Theorem parse_resume_returns (lib : DocLib) (h : Hashlib) (rt : PyRuntime) (clock : Clock)
    (file_path file_type : string) :
  (forall (m : Methods) (stamp : datetime),
     exists result : ParseResult,
       parse_resume_calls m stamp file_path file_type = Return result
       /\ (call_extract_text_from_file m file_path file_type = Return ""
           -> result = ParseError "Could not extract text from file")
       /\ (forall e, parse_resume_try m stamp file_path file_type = Raise e
                     -> result = ParseError ("Error parsing resume: " ++ e))
       /\ (forall e, call_extract_text_from_file m file_path file_type = Raise e
                     -> result = ParseError ("Error parsing resume: " ++ e))
       /\ (forall raw_text e,
             call_extract_text_from_file m file_path file_type = Return raw_text ->
             raw_text <> "" ->
             call_extract_phone_number m raw_text = Raise e ->
             result = ParseError ("Error parsing resume: " ++ e)))
  /\ parse_resume lib h rt clock file_path file_type
     = parse_resume_calls (methods_of lib h rt clock) (at_stamp clock) file_path file_type
  /\ exists result : ParseResult,
       parse_resume lib h rt clock file_path file_type = Return result
       /\ (extract_text_from_file lib file_path file_type = ""
           -> result = ParseError "Could not extract text from file").
Proof.
  split; [| split; [apply parse_resume_is_its_calls |]].
  - intros m stamp. unfold parse_resume_calls.
    destruct (parse_resume_try m stamp file_path file_type) as [result | e] eqn:Etry;
      cbn [try_except]; eexists; (split; [reflexivity |]).
    + split; [| split; [| split]].
      * intros Htext. unfold parse_resume_try in Etry. rewrite Htext in Etry.
        cbn in Etry. injection Etry as <-. reflexivity.
      * intros e H. discriminate H.
      * intros e Htext. unfold parse_resume_try in Etry. rewrite Htext in Etry.
        discriminate Etry.
      * intros raw_text e Htext Hraw Hphone. unfold parse_resume_try in Etry.
        rewrite Htext in Etry. cbn [bind] in Etry.
        destruct raw_text as [| c raw_text]; [contradiction |].
        cbn [truthy negb String.eqb] in Etry. rewrite Hphone in Etry. discriminate Etry.
    + split; [| split; [| split]].
      * intros Htext. unfold parse_resume_try in Etry. rewrite Htext in Etry.
        discriminate Etry.
      * intros e' H. injection H as <-. reflexivity.
      * intros e' Htext. unfold parse_resume_try in Etry. rewrite Htext in Etry.
        cbn [bind] in Etry. injection Etry as <-. reflexivity.
      * intros raw_text e' Htext Hraw Hphone. unfold parse_resume_try in Etry.
        rewrite Htext in Etry. cbn [bind] in Etry.
        destruct raw_text as [| c raw_text]; [contradiction |].
        cbn [truthy negb String.eqb] in Etry. rewrite Hphone in Etry.
        cbn [bind] in Etry. injection Etry as <-. reflexivity.
  - unfold parse_resume.
    destruct (extract_text_from_file lib file_path file_type) as [| c text] eqn:E.
    + eexists. split; [reflexivity | intros _; reflexivity].
    + eexists. split; [reflexivity | intros H; discriminate H].
Qed.

(** A call that raises after the text was read: the handler answers. *)
Example parse_resume_handles_a_failing_call :
  parse_resume_calls failing_phone_methods sample_now "resume.pdf" "pdf"
  = Return (ParseError "Error parsing resume: maximum recursion depth exceeded").
Proof. reflexivity. Qed.

(** A file that cannot be opened gives the error value. *)
Example parse_resume_unreadable_file :
  parse_resume {| PdfReader := fun _ => Raise "EOF marker not found";
                  Document := fun _ => Raise "Package not found" |}
               sample_hashlib insertion_order sample_clock "resume.pdf" "pdf"
  = Return (ParseError "Could not extract text from file").
Proof. reflexivity. Qed.

(** *** Interview questions *)

(** The dictionary built by [parse_resume] has no ['skill_analysis'] entry. *)
Lemma parsed_resume_has_no_skill_analysis lib h rt clock file_path file_type resume_data :
  parse_resume lib h rt clock file_path file_type = Return (Parsed resume_data) ->
  skill_analysis resume_data = None.
Proof.
  unfold parse_resume.
  destruct (extract_text_from_file lib file_path file_type);
    cbv beta iota delta [truthy negb String.eqb try_except]; intros H.
  - discriminate H.
  - exact (eq_sym (f_equal (fun o => match o with
                                     | Return (Parsed rd) => skill_analysis rd
                                     | _ => None
                                     end) H)).
Qed.

(** The questions are the optional ones in the source's order, then the
    three behavioral ones, cut to six. *)
Lemma targeted_questions_order self resume_data job_description :
  let e := experience resume_data in
  _generate_targeted_questions self resume_data job_description
  = firstn 6
      ((match resume_skill_gaps resume_data with
        | [] => []
        | gaps => [skill_gap_question gaps]
        end
        ++ (if (total_experience_years e <? 3)%Z then [ramp_up_question] else [])
        ++ (if 0 <? length (career_progression e) then [progression_question] else [])
        ++ (match key_achievements e with [] => [] | _ => [achievement_question] end)
        ++ (match industry_sectors e with
            | [] => []
            | industry :: _ => [industry_question industry]
            end)
        ++ behavioral_questions)%list).
Proof.
  cbv zeta. unfold _generate_targeted_questions, append.
  destruct (resume_skill_gaps resume_data);
    destruct (total_experience_years (experience resume_data) <? 3)%Z;
    destruct (0 <? length (career_progression (experience resume_data)));
    destruct (key_achievements (experience resume_data));
    destruct (industry_sectors (experience resume_data));
    reflexivity.
Qed.

Lemma targeted_questions_at_most_6 self resume_data job_description :
  length (_generate_targeted_questions self resume_data job_description) <= 6.
Proof. unfold _generate_targeted_questions. apply firstn_le_length. Qed.

(** C6: for the parsed resume naming the skill python and the job text
    "python sql", the skill analysis reports the gap sql, and the question
    list opens with the ramp-up question: no question names the gap. *)
Theorem skill_gap_question_missing :
  exists resume_data,
    parse_sample cv_python = Return (Parsed resume_data)
    /\ critical_skill_gaps
         (fit_skill_analysis
            (analyze_candidate_fit untrained insertion_order resume_data "python sql"))
       = ["sql"]
    /\ interview_questions
         (analyze_candidate_fit untrained insertion_order resume_data "python sql")
       = ramp_up_question :: behavioral_questions.
Proof.
  eexists. split; [vm_compute; reflexivity |].
  split; vm_compute; reflexivity.
Qed.

(** *** Overall score *)

(** The sub-scores that the source caps stay at or below 100. *)
Lemma Qmin_le_r (a b : Q) : (PyNum.Qmin a b <= b)%Q.
Proof.
  unfold PyNum.Qmin. destruct (Qle_bool a b) eqn:E.
  - apply Qle_bool_iff. exact E.
  - apply Qle_refl.
Qed.

Lemma Qmin_le_l (a b : Q) : (PyNum.Qmin a b <= a)%Q.
Proof.
  unfold PyNum.Qmin. destruct (Qle_bool a b) eqn:E.
  - apply Qle_refl.
  - apply Qlt_le_weak. apply Qnot_le_lt. intros H.
    apply Qle_bool_iff in H. rewrite H in E. discriminate E.
Qed.

Lemma adaptability_at_most_100 self resume_data :
  (_calculate_adaptability_score_advanced self resume_data <= 100)%Q.
Proof. unfold _calculate_adaptability_score_advanced. apply Qmin_le_r. Qed.

Lemma achievement_score_at_most_100 self awards_data :
  achievement_score (_analyze_achievements_impact self awards_data) <= 100.
Proof. unfold _analyze_achievements_impact. cbn [achievement_score]. apply Nat.le_min_l. Qed.

Lemma experience_sufficiency_at_most_100 self experience_data requirements :
  (_calculate_experience_sufficiency_score self experience_data requirements <= 100)%Q.
Proof.
  unfold _calculate_experience_sufficiency_score.
  destruct (min_years requirements <=? total_experience_years experience_data)%Z;
    [apply Qle_refl |].
  destruct (0 <? min_years requirements)%Z; [apply Qmin_le_l | discriminate].
Qed.

(** C1: for the parsed resume naming python and four skills related to it
    and the job text "python", the comprehensive skill match is 380 and the
    overall score 159.3; for the resume naming python and the job text with
    the fifteen culture keywords, the culture alignment is 150 and the
    cultural composite 101. *)
Theorem overall_score_exceeds_100 :
  (exists resume_data,
     parse_sample cv_stack = Return (Parsed resume_data)
     /\ let fit := analyze_candidate_fit untrained insertion_order resume_data "python" in
        (comprehensive_match_percentage (fit_skill_analysis fit) == 380)%Q
        /\ (overall_score fit == 1593 # 10)%Q
        /\ (100 < overall_score fit)%Q)
  /\ (exists resume_data,
        parse_sample cv_python = Return (Parsed resume_data)
        /\ let fit :=
             _analyze_cultural_fit_advanced untrained insertion_order resume_data
               culture_job in
           culture_alignment fit = 150
           /\ ((PyNum.of_nat (culture_alignment fit) + adaptability_score fit) / 2 == 101)%Q).
Proof.
  split.
  - eexists. split; [vm_compute; reflexivity |].
    cbv zeta. repeat split; vm_compute; reflexivity.
  - eexists. split; [vm_compute; reflexivity |].
    cbv zeta. split; vm_compute; reflexivity.
Qed.

(** *** Skill match *)

(** No job text yields a required skill outside the engine's table. *)
Lemma job_skills_in_table self rt text skill :
  In skill (_extract_skills_with_context_advanced self rt text) ->
  In skill (flat_map snd skill_categories).
Proof.
  unfold _extract_skills_with_context_advanced. intros H.
  apply set_iter_In in H. apply in_flat_map in H. destruct H as (entry & Hentry & H).
  apply filter_In in H. destruct H as [H _].
  apply in_flat_map. exists entry. split; assumption.
Qed.

(** C2, counterexample: "excel" is not a keyword of the scoring engine, so
    no job text yields it as a required skill; the job text
    "Python, SQL, Excel" yields the required skills python and sql, and for
    the candidate with python alone the match is 50 and the gaps are sql
    alone. *)
Lemma excel_is_not_derived :
  _extract_skills_with_context_advanced untrained insertion_order "Python, SQL, Excel"
  = ["python"; "sql"]
  /\ (exists resume_data,
        parse_sample cv_python = Return (Parsed resume_data)
        /\ let fit :=
             _analyze_skill_fit_advanced untrained insertion_order (skills resume_data)
               "Python, SQL, Excel" in
           (match_percentage fit == 50)%Q
           /\ exact_matches fit = ["python"]
           /\ critical_skill_gaps fit = ["sql"])
  /\ ~ (exists self rt text,
          In "excel" (_extract_skills_with_context_advanced self rt text)).
Proof.
  split; [vm_compute; reflexivity |].
  split.
  - eexists. split; [vm_compute; reflexivity |].
    cbv zeta. repeat split; vm_compute; reflexivity.
  - intros (self & rt & text & H). apply job_skills_in_table in H.
    revert H. apply not_mem_In. vm_compute. reflexivity.
Qed.

(** *** Skill confidence *)

Lemma Qmin_cases (a b : Q) :
  (PyNum.Qmin a b = a /\ (a <= b)%Q) \/ (PyNum.Qmin a b = b /\ (b < a)%Q).
Proof.
  unfold PyNum.Qmin. destruct (Qle_bool a b) eqn:E.
  - left. split; [reflexivity | apply Qle_bool_iff; exact E].
  - right. split; [reflexivity |].
    apply Qnot_le_lt. intros H. apply Qle_bool_iff in H. rewrite H in E. discriminate E.
Qed.

Lemma Qlt_bool_true (a b : Q) : (a < b)%Q -> PyNum.Qlt_bool a b = true.
Proof.
  intros H. unfold PyNum.Qlt_bool. destruct (Qle_bool b a) eqn:E; [| reflexivity].
  apply Qle_bool_iff in E. exfalso. apply (Qlt_not_le _ _ H). exact E.
Qed.

Lemma of_nat_nonneg (n : nat) : (0 <= PyNum.of_nat n)%Q.
Proof.
  unfold PyNum.of_nat. change 0%Q with (inject_Z 0).
  rewrite <- Zle_Qle. apply Nat2Z.is_nonneg.
Qed.

(** The confidence of a skill is 0.5 plus bonuses that are not negative,
    capped at 1. *)
Lemma skill_confidence_bounds (skill text : string) (frequency : nat) :
  (1 # 2 <= _calculate_skill_confidence_advanced skill text frequency)%Q
  /\ (_calculate_skill_confidence_advanced skill text frequency <= 1)%Q.
Proof.
  unfold _calculate_skill_confidence_advanced.
  generalize (found ignorecase_dotall text
                (seq [Cap 1 (alt [lit "skills"; lit "technical skills"; lit "competencies"]);
                      lazy_star Dot; lit skill])).
  generalize (found no_flags text (seq [one_of "-*"; star s; star Dot; lit skill])).
  intros in_list in_section.
  pose proof (of_nat_nonneg frequency) as Hfreq.
  set (bonus := PyNum.Qmin (1 # 10) (PyNum.of_nat frequency * (5 # 100))).
  assert (Hbonus : (0 <= bonus)%Q).
  { unfold bonus.
    destruct (Qmin_cases (1 # 10) (PyNum.of_nat frequency * (5 # 100))) as [[-> _] | [-> _]];
      lra. }
  destruct in_section, in_list, (1 <? frequency);
    match goal with
    | |- context [PyNum.Qmin ?a 1] =>
        destruct (Qmin_cases a 1) as [[-> H] | [-> H]]
    end; split; lra.
Qed.

Lemma category_entries_confidence category skills text_lower :
  Forall (fun e => (1 # 2 <= s_confidence e)%Q /\ (s_confidence e <= 1)%Q)
         (category_entries category skills text_lower).
Proof.
  induction skills as [| skill rest IH]; cbn [category_entries]; [constructor |].
  destruct (findall no_flags (whole_word skill) text_lower); [exact IH |].
  constructor; [apply skill_confidence_bounds | exact IH].
Qed.

Lemma found_skills_confidence table text_lower :
  Forall (fun e => (1 # 2 <= s_confidence e)%Q /\ (s_confidence e <= 1)%Q)
         (flat_map snd (found_skills table text_lower)).
Proof.
  induction table as [| [category skills] rest IH]; cbn [found_skills]; [constructor |].
  pose proof (category_entries_confidence category skills text_lower) as H.
  destruct (category_entries category skills text_lower); [exact IH |].
  cbn [flat_map snd]. apply Forall_app. split; assumption.
Qed.

(** Flattening keeps every entry whose confidence is above 0.3. *)
Lemma flatten_keeps_confident self (skills_data : Skills) :
  Forall (fun e => (3 # 10 < s_confidence e)%Q)
         (flat_map snd (skills_by_category skills_data)) ->
  _flatten_skills_advanced self skills_data
  = map s_skill (flat_map snd (skills_by_category skills_data)).
Proof.
  unfold _flatten_skills_advanced.
  induction (skills_by_category skills_data) as [| [category entries] rest IH];
    cbn [flat_map snd]; intros H; [reflexivity |].
  apply Forall_app in H. destruct H as [Hentries Hrest].
  rewrite map_app, (IH Hrest). f_equal.
  clear - Hentries. induction Hentries as [| e entries He _ IHe]; [reflexivity |].
  cbn [flat_map map]. rewrite (Qlt_bool_true _ _ He), IHe. reflexivity.
Qed.

(** C10: every skill entry produced by skill extraction has its confidence
    in [0.5, 1], and flattening the extracted skills with the filter
    confidence > 0.3 returns every skill of every category, in order. *)
Theorem extracted_skills_pass_the_confidence_filter (self : AdvancedScoringModel)
    (text : string) :
  let skills_data := extract_skills_comprehensive text in
  Forall (fun e => (1 # 2 <= s_confidence e)%Q /\ (s_confidence e <= 1)%Q)
         (flat_map snd (skills_by_category skills_data))
  /\ _flatten_skills_advanced self skills_data
     = map s_skill (flat_map snd (skills_by_category skills_data)).
Proof.
  cbv zeta.
  assert (H : Forall (fun e => (1 # 2 <= s_confidence e)%Q /\ (s_confidence e <= 1)%Q)
                (flat_map snd (skills_by_category (extract_skills_comprehensive text)))).
  { unfold extract_skills_comprehensive. cbn [skills_by_category].
    apply found_skills_confidence. }
  split; [exact H |].
  apply flatten_keeps_confident.
  eapply Forall_impl; [| exact H].
  intros e [Hlow _]. cbv beta. lra.
Qed.

(** *** Section scans *)

Lemma qual_scan_cons line rest education_section quals :
  qual_scan (line :: rest) education_section quals
  = if education_start line then qual_scan rest true quals
    else if education_section then
      if education_end line then quals
      else match _extract_qualification_details (strip line) with
           | Some qual_info => qual_scan rest true (append quals qual_info)
           | None => qual_scan rest true quals
           end
    else qual_scan rest false quals.
Proof. reflexivity. Qed.

(** Once the education section is open, the first closing heading ends the
    scan: the lines after it play no part. *)
Lemma qual_scan_stops (pre : list string) (closing : string) (post : list string) :
  education_start closing = false ->
  education_end closing = true ->
  forall education_section quals,
    education_section = true \/ (exists line, In line pre /\ education_start line = true) ->
    qual_scan (pre ++ closing :: post) education_section quals
    = qual_scan (pre ++ [closing]) education_section quals.
Proof.
  intros Hstart Hend.
  induction pre as [| line pre IH]; intros education_section quals Hopen.
  - destruct Hopen as [-> | (line & [] & _)].
    cbn [app]. rewrite !qual_scan_cons, Hstart, Hend. reflexivity.
  - cbn [app]. rewrite !qual_scan_cons.
    destruct (education_start line) eqn:Eline.
    + apply IH. left. reflexivity.
    + destruct education_section.
      * destruct (education_end line); [reflexivity |].
        destruct (_extract_qualification_details (strip line));
          apply IH; left; reflexivity.
      * apply IH. right.
        destruct Hopen as [Hsec | (l & [<- | Hin] & Hl)].
        -- discriminate Hsec.
        -- rewrite Hl in Eline. discriminate Eline.
        -- exists l. split; assumption.
Qed.

Lemma all_qualifications_scan (text : string) :
  all_qualifications (extract_qualifications_advanced text)
  = qual_scan (split_lines text) false [].
Proof.
  unfold extract_qualifications_advanced.
  destruct (qual_scan (split_lines text) false []); reflexivity.
Qed.

(** C8, counterexample: the resume with the lines Education, BSc Computer
    Science, Experience, Education, MSc Physics yields the single
    qualification of the BSc line and the level bachelors, although the MSc
    line read alone is a masters qualification. *)
Lemma second_education_heading_is_not_read :
  map q_text (all_qualifications (extract_qualifications_advanced cv_two_education_headings))
  = ["BSc Computer Science"]
  /\ qualification_level (extract_qualifications_advanced cv_two_education_headings)
     = "bachelors"
  /\ option_map q_level (_extract_qualification_details "MSc Physics") = Some "masters".
Proof. repeat split; vm_compute; reflexivity. Qed.

Lemma exp_scan_cons now line rest st :
  exp_scan now (line :: rest) st
  = if experience_start line then exp_scan now rest (open_section st)
    else if es_section st then
      if experience_end line then st
      else exp_scan now rest (exp_scan_line now (strip line) st)
    else exp_scan now rest st.
Proof. reflexivity. Qed.

Lemma exp_scan_line_section now line st :
  es_section (exp_scan_line now line st) = es_section st.
Proof.
  unfold exp_scan_line.
  destruct (_extract_position_info now line); reflexivity.
Qed.

Lemma exp_scan_stops now (pre : list string) (closing : string) (post : list string) :
  experience_start closing = false ->
  experience_end closing = true ->
  forall st,
    es_section st = true \/ (exists line, In line pre /\ experience_start line = true) ->
    exp_scan now (pre ++ closing :: post) st = exp_scan now (pre ++ [closing]) st.
Proof.
  intros Hstart Hend.
  induction pre as [| line pre IH]; intros st Hopen.
  - destruct Hopen as [Hsec | (line & [] & _)].
    cbn [app]. rewrite !exp_scan_cons, Hstart, Hsec, Hend. reflexivity.
  - cbn [app]. rewrite !exp_scan_cons.
    destruct (experience_start line) eqn:Eline.
    + apply IH. left. reflexivity.
    + destruct (es_section st) eqn:Esec.
      * destruct (experience_end line); [reflexivity |].
        apply IH. left. rewrite exp_scan_line_section. exact Esec.
      * apply IH. right.
        destruct Hopen as [Hsec | (l & [<- | Hin] & Hl)].
        -- discriminate Hsec.
        -- rewrite Hl in Eline. discriminate Eline.
        -- exists l. split; assumption.
Qed.

(** C8, amended: a closed section is not re-opened.  Let the lines of the
    resume be [pre], then [closing], then [post].  In the qualification
    scan, when a line of [pre] holds an education start keyword and
    [closing] is short (fewer than 50 characters once stripped), holds one
    of the closing keywords of the scan and holds no education start
    keyword, the scan ends at [closing]: the qualifications are exactly
    those the scan finds in [pre] and [closing], and no line of [post] is
    read, a later education heading and the entries after it included.  The
    experience scan ends in the same way at a short line with one of its
    closing keywords and no experience start keyword: its positions,
    achievements and sectors are those found in [pre] and [closing]. *)
Theorem closed_section_is_not_reopened (now : datetime) (text : string)
    (pre : list string) (closing : string) (post : list string) :
  split_lines text = (pre ++ closing :: post)%list ->
  ((exists line, In line pre /\ education_start line = true) ->
   education_start closing = false ->
   education_end closing = true ->
   all_qualifications (extract_qualifications_advanced text)
   = qual_scan (pre ++ [closing]) false [])
  /\ ((exists line, In line pre /\ experience_start line = true) ->
      experience_start closing = false ->
      experience_end closing = true ->
      exp_scan now (split_lines text) exp_scan_init
      = exp_scan now (pre ++ [closing]) exp_scan_init).
Proof.
  intros Hlines. split; intros Hopen Hstart Hend.
  - rewrite all_qualifications_scan, Hlines.
    apply qual_scan_stops; [assumption | assumption |].
    right. exact Hopen.
  - rewrite Hlines.
    apply exp_scan_stops; [assumption | assumption |].
    right. exact Hopen.
Qed.

Lemma closed_section_is_not_reopened_witness :
  all_qualifications (extract_qualifications_advanced cv_two_education_headings)
  = qual_scan ["Education"; "BSc Computer Science"; "Experience"] false []
  /\ exp_scan sample_now (split_lines cv_two_experience_headings) exp_scan_init
     = exp_scan sample_now
         ["Experience"; "Developer at Acme 2015 - 2019"; "Education"] exp_scan_init.
Proof.
  split.
  - apply (closed_section_is_not_reopened sample_now cv_two_education_headings
             ["Education"; "BSc Computer Science"] "Experience" ["Education"; "MSc Physics"]).
    + vm_compute. reflexivity.
    + exists "Education". split; [left; reflexivity | vm_compute; reflexivity].
    + vm_compute. reflexivity.
    + vm_compute. reflexivity.
  - apply (closed_section_is_not_reopened sample_now cv_two_experience_headings
             ["Experience"; "Developer at Acme 2015 - 2019"] "Education"
             ["Experience"; "Tester at Beta 2019 - 2021"]).
    + vm_compute. reflexivity.
    + exists "Experience". split; [left; reflexivity | vm_compute; reflexivity].
    + vm_compute. reflexivity.
    + vm_compute. reflexivity.
Defined.

(** *** Year tokens *)

(** The matcher on the year pattern, in closed form. *)
Lemma run_year_token (st : mstate) :
  run no_flags year_token st Some
  = match m_rest st with
    | String c1 (String c2 (String c3 (String c4 t))) =>
        if year_prefix c1 c2 && is_digit c3 && is_digit c4
        then Some {| m_prev := Some c4; m_rest := t; m_pos := 4 + m_pos st;
                     m_caps := m_caps st |}
        else None
    | _ => None
    end.
Proof.
  destruct st as [prev rest pos caps].
  unfold year_prefix.
  cbv [year_token alt seq lit times d run step_char chr_ok cls_ok no_flags IGNORECASE
       or_else advance m_rest m_pos m_prev m_caps].
  destruct rest as [| c1 [| c2 [| c3 [| c4 t]]]].
  - reflexivity.
  - destruct (Ascii.eqb "2" c1), (Ascii.eqb "1" c1); reflexivity.
  - destruct (Ascii.eqb "2" c1), (Ascii.eqb "1" c1), (Ascii.eqb "0" c2),
      (Ascii.eqb "9" c2); reflexivity.
  - destruct (Ascii.eqb "2" c1), (Ascii.eqb "1" c1), (Ascii.eqb "0" c2),
      (Ascii.eqb "9" c2), (is_digit c3); reflexivity.
  - destruct (Ascii.eqb "2" c1), (Ascii.eqb "1" c1), (Ascii.eqb "0" c2),
      (Ascii.eqb "9" c2), (is_digit c3), (is_digit c4); reflexivity.
Qed.

Lemma drop_succ (n : nat) : forall (text : string) (c : ascii) (t : string),
  drop n text = String c t -> drop (S n) text = t.
Proof.
  induction n as [| n IH]; intros text c t H.
  - destruct text; cbn in H; [discriminate H |]. injection H as _ ->. reflexivity.
  - destruct text as [| c0 text]; cbn in H; [discriminate H |].
    cbn [drop]. exact (IH text c t H).
Qed.

Lemma search_at_step fl r text prev rest pos :
  search_at fl r text prev rest pos
  = match run fl r {| m_prev := prev; m_rest := rest; m_pos := pos; m_caps := [] |} Some with
    | Some st' => Some {| mo_text := text; mo_start := pos; mo_end := st' |}
    | None =>
        match rest with
        | EmptyString => None
        | String c t => search_at fl r text (Some c) t (S pos)
        end
    end.
Proof. destruct rest; reflexivity. Qed.

Lemma search_at_year (text : string) : forall rest prev pos m,
  rest = drop pos text ->
  search_at no_flags year_token text prev rest pos = Some m ->
  year_match text m.
Proof.
  induction rest as [| c rest IH]; intros prev pos m Hrest Hm;
    rewrite search_at_step, run_year_token in Hm; cbn [m_rest] in Hm.
  - discriminate Hm.
  - destruct rest as [| c2 [| c3 [| c4 t]]].
    1-3: (eapply IH; [| exact Hm]; symmetry; eapply drop_succ; symmetry; exact Hrest).
    destruct (year_prefix c c2 && is_digit c3 && is_digit c4) eqn:E.
    + injection Hm as <-. cbn [m_pos m_caps].
      apply andb_prop in E. destruct E as [E E4].
      apply andb_prop in E. destruct E as [E12 E3].
      split; [reflexivity |].
      exists c, c2, c3, c4, t. cbn [mo_start mo_end m_pos m_rest].
      rewrite <- Hrest. repeat split; assumption.
    + eapply IH; [| exact Hm]. symmetry. eapply drop_succ. symmetry. exact Hrest.
Qed.

Lemma matches_from_year (text : string) : forall fuel rest prev pos,
  rest = drop pos text ->
  Forall (year_match text) (matches_from fuel no_flags year_token text prev rest pos).
Proof.
  induction fuel as [| fuel IH]; intros rest prev pos Hrest; cbn [matches_from];
    [constructor |].
  destruct (search_at no_flags year_token text prev rest pos) as [m |] eqn:Em;
    [| constructor].
  pose proof (search_at_year text rest prev pos m Hrest Em) as Hm.
  destruct Hm as (Htext & c1 & c2 & c3 & c4 & t & Hdrop & H12 & H3 & H4 & Hpos & Ht).
  assert (Hyear : year_match text m).
  { split; [exact Htext |]. exists c1, c2, c3, c4, t. repeat split; assumption. }
  assert (Hne : (m_pos (mo_end m) =? mo_start m) = false).
  { apply Nat.eqb_neq. rewrite Hpos. lia. }
  rewrite Hne. constructor; [exact Hyear |].
  apply IH. rewrite Ht, Hpos. symmetry.
  do 4 (eapply drop_succ). exact Hdrop.
Qed.

Lemma year_prefix_digits (c1 c2 : ascii) :
  year_prefix c1 c2 = true -> is_digit c1 = true /\ is_digit c2 = true.
Proof.
  unfold year_prefix. intros H.
  apply orb_prop in H. destruct H as [H | H]; apply andb_prop in H; destruct H as [H1 H2];
    apply Ascii.eqb_eq in H1, H2; subst c1 c2; split; reflexivity.
Qed.

Lemma year_match_isdigit (text : string) (m : match_obj) :
  year_match text m -> isdigit (group0 m) = true.
Proof.
  intros (Htext & c1 & c2 & c3 & c4 & t & Hdrop & H12 & H3 & H4 & Hpos & _).
  apply year_prefix_digits in H12. destruct H12 as [H1 H2].
  unfold group0, slice. rewrite Htext, Hpos, Hdrop.
  replace (4 + mo_start m - mo_start m) with 4 by lia.
  cbn [take isdigit all_digits]. rewrite H1, H2, H3, H4. reflexivity.
Qed.

(** Every year token is a string of digits. *)
Lemma year_tokens_are_digits (dates : string) :
  Forall (fun token => isdigit token = true) (findall no_flags year_token dates).
Proof.
  unfold findall, finditer. apply Forall_map.
  eapply Forall_impl; [| apply matches_from_year; reflexivity].
  intros m. apply year_match_isdigit.
Qed.

(** The duration is the second year token minus the first, and 0 with
    fewer than two tokens: the current year plays no part. *)
Lemma position_duration_from_tokens (now : datetime) (dates : string) :
  _calculate_position_duration now dates
  = match findall no_flags year_token dates with
    | first :: second :: _ => (int second - int first)%Z
    | _ => 0%Z
    end.
Proof.
  unfold _calculate_position_duration.
  pose proof (year_tokens_are_digits dates) as H.
  destruct (findall no_flags year_token dates) as [| first [| second rest]];
    [reflexivity | reflexivity |].
  inversion H as [| ? ? _ H2]. inversion H2 as [| ? ? Hsecond _].
  rewrite Hsecond. reflexivity.
Qed.

Lemma position_duration_ignores_the_clock (now now' : datetime) (dates : string) :
  _calculate_position_duration now dates = _calculate_position_duration now' dates.
Proof. rewrite !position_duration_from_tokens. reflexivity. Qed.

(** *** Positions of the experience profile *)

Lemma position_info_duration now text p :
  _extract_position_info now text = Some p -> duration_from_dates now p.
Proof.
  unfold _extract_position_info.
  destruct (String.eqb (_extract_dates text) ""); intros H; [discriminate H |].
  injection H as <-. reflexivity.
Qed.

Lemma exp_scan_line_durations now line st :
  scan_durations now st -> scan_durations now (exp_scan_line now line st).
Proof.
  intros [Hpos Hcur]. unfold exp_scan_line, scan_durations.
  destruct (_extract_position_info now line) as [p |] eqn:Ep; cbn [es_positions es_current].
  - split.
    + destruct (es_current st) as [cur |]; [| exact Hpos].
      unfold append. apply Forall_app. split; [exact Hpos |].
      constructor; [apply Hcur; reflexivity | constructor].
    + intros cur E. injection E as <-. exact (position_info_duration now line p Ep).
  - split; assumption.
Qed.

Lemma exp_scan_durations now lines : forall st,
  scan_durations now st -> scan_durations now (exp_scan now lines st).
Proof.
  induction lines as [| line rest IH]; intros st Hst; [exact Hst |].
  rewrite exp_scan_cons.
  destruct (experience_start line).
  - apply IH. exact Hst.
  - destruct (es_section st); [| apply IH; exact Hst].
    destruct (experience_end line); [exact Hst |].
    apply IH. apply exp_scan_line_durations. exact Hst.
Qed.

Lemma career_progression_durations rt now text p :
  In p (career_progression (extract_experience_advanced rt now text)) ->
  duration_from_dates now p.
Proof.
  unfold extract_experience_advanced. cbn [career_progression].
  assert (H : scan_durations now (exp_scan now (split_lines text) exp_scan_init)).
  { apply exp_scan_durations. split; [constructor | intros cur E; discriminate E]. }
  destruct H as [Hpos Hcur]. intros Hin.
  destruct (es_current (exp_scan now (split_lines text) exp_scan_init)) as [cur |].
  - unfold append in Hin. apply in_app_or in Hin. destruct Hin as [Hin | [<- | []]].
    + rewrite Forall_forall in Hpos. exact (Hpos p Hin).
    + apply Hcur. reflexivity.
  - rewrite Forall_forall in Hpos. exact (Hpos p Hin).
Qed.

(** C7, counterexample: the experience section with the single line
    "Engineer, Acme 2020-2018" yields one position, whose duration is -2. *)
Lemma descending_years_give_a_negative_duration :
  map p_dates (career_progression
                 (extract_experience_advanced insertion_order sample_now cv_descending_years))
  = ["2020-2018"]
  /\ map p_duration_years
       (career_progression
          (extract_experience_advanced insertion_order sample_now cv_descending_years))
     = [(-2)%Z].
Proof. split; vm_compute; reflexivity. Qed.

(** C7, amended: for every position produced by experience extraction the
    duration is the second year token of its date range minus the first,
    so it is at least 0 exactly when the first is not greater than the
    second (and negative for a descending range); with fewer than two year
    tokens it is 0. *)
Theorem position_duration_sign (rt : PyRuntime) (now : datetime) (text : string)
    (p : Position) :
  In p (career_progression (extract_experience_advanced rt now text)) ->
  match findall no_flags year_token (p_dates p) with
  | first :: second :: _ =>
      p_duration_years p = (int second - int first)%Z
      /\ ((0 <= p_duration_years p)%Z <-> (int first <= int second)%Z)
  | _ => p_duration_years p = 0%Z
  end.
Proof.
  intros Hin. apply career_progression_durations in Hin.
  unfold duration_from_dates in Hin. rewrite position_duration_from_tokens in Hin.
  destruct (findall no_flags year_token (p_dates p)) as [| first [| second rest]];
    try exact Hin.
  split; [exact Hin |]. rewrite Hin. lia.
Qed.

Lemma position_duration_sign_witness :
  let p := {| p_position := "Developer - Econet";
              p_company := "Econet";
              p_dates := "2015 - 2019";
              p_duration_years := 4;
              p_description := "Developer - Econet 2015 - 2019" |} in
  p_duration_years p = (PyStr.int "2019" - PyStr.int "2015")%Z
  /\ ((0 <= p_duration_years p)%Z <-> (PyStr.int "2015" <= PyStr.int "2019")%Z).
Proof.
  cbv zeta.
  refine (position_duration_sign insertion_order sample_now
            ("Experience" ++ nl ++ "Developer - Econet 2015 - 2019")
            {| p_position := "Developer - Econet";
               p_company := "Econet";
               p_dates := "2015 - 2019";
               p_duration_years := 4;
               p_description := "Developer - Econet 2015 - 2019" |} _).
  vm_compute. left. reflexivity.
Defined.

(** *** One skill out of three *)

(** C2, amended: when the required skills derived from the job text are
    python and two others, and the candidate's flattened skills are python
    alone, the skill match is 33.33, the exact matches are the list
    ["python"], and the two other skills are among the skill gaps. *)
Theorem skill_match_one_of_three (self : AdvancedScoringModel) (rt : PyRuntime)
    (skills_data : Skills) (job_description second third : string) :
  Permutation (_extract_skills_with_context_advanced self rt job_description)
              ["python"; second; third] ->
  (forall x, In x (_flatten_skills_advanced self skills_data) <-> x = "python") ->
  let fit := _analyze_skill_fit_advanced self rt skills_data job_description in
  (match_percentage fit == 3333 # 100)%Q
  /\ exact_matches fit = ["python"]
  /\ In second (critical_skill_gaps fit)
  /\ In third (critical_skill_gaps fit).
Proof.
  intros Hjob Hflat. cbv zeta.
  unfold _analyze_skill_fit_advanced.
  cbn [match_percentage exact_matches critical_skill_gaps].
  set (job_skills := _extract_skills_with_context_advanced self rt job_description) in *.
  set (flat := _flatten_skills_advanced self skills_data) in *.
  assert (Hnodup : NoDup ["python"; second; third]).
  { apply (Permutation_NoDup Hjob). apply set_iter_NoDup. }
  assert (Hsecond : second <> "python").
  { intros ->. inversion Hnodup as [| ? ? Hnin _]. apply Hnin. left. reflexivity. }
  assert (Hthird : third <> "python").
  { intros ->. inversion Hnodup as [| ? ? Hnin _]. apply Hnin. right. left. reflexivity. }
  assert (Hpython : In "python" job_skills).
  { apply (Permutation_in _ (Permutation_sym Hjob)). left. reflexivity. }
  assert (Hexact : set_inter flat job_skills = flat).
  { apply filter_all. intros x Hx. apply Hflat in Hx. subst x.
    apply mem_In. exact Hpython. }
  assert (Hset : nodup string_dec flat = ["python"]).
  { apply nodup_constant.
    - intros E. assert (H : In "python" flat) by (apply Hflat; reflexivity).
      rewrite E in H. destruct H.
    - intros x Hx. apply Hflat. exact Hx. }
  assert (Hgap : forall x, In x job_skills -> x <> "python" ->
                           In x (set_iter rt (set_diff job_skills flat))).
  { intros x Hx Hne. apply set_iter_In. apply filter_In. split; [exact Hx |].
    destruct (mem x flat) eqn:E; [| reflexivity].
    apply mem_In in E. apply Hflat in E. contradiction. }
  rewrite Hexact.
  pose proof (Permutation_length Hjob) as Hlen. cbn [length] in Hlen.
  split; [| split; [| split]].
  - destruct job_skills as [| j js]; [discriminate Hlen |].
    unfold set_len. rewrite Hset, Hlen. vm_compute. reflexivity.
  - apply Permutation_length_1_inv. rewrite <- Hset.
    apply Permutation_sym. apply set_iter_perm.
  - apply Hgap; [| exact Hsecond].
    apply (Permutation_in _ (Permutation_sym Hjob)). right. left. reflexivity.
  - apply Hgap; [| exact Hthird].
    apply (Permutation_in _ (Permutation_sym Hjob)). right. right. left. reflexivity.
Qed.

Lemma skill_match_one_of_three_witness :
  let fit :=
    _analyze_skill_fit_advanced untrained insertion_order
      (extract_skills_comprehensive cv_python) "Python, SQL and Java" in
  (match_percentage fit == 3333 # 100)%Q
  /\ exact_matches fit = ["python"]
  /\ In "java" (critical_skill_gaps fit)
  /\ In "sql" (critical_skill_gaps fit).
Proof.
  apply (skill_match_one_of_three untrained insertion_order
           (extract_skills_comprehensive cv_python) "Python, SQL and Java" "java" "sql").
  - vm_compute. apply Permutation_refl.
  - intros x. vm_compute. split; [intros [H | []]; symmetry; exact H | intros ->; left; reflexivity].
Defined.

(** ** Further properties of the engine *)

Import Invariants.

(** *** Rounding *)

Lemma Qle_inject_Z_r (x : Q) (n : Z) :
  (x <= inject_Z n)%Q <-> (Qnum x <= n * Zpos (Qden x))%Z.
Proof. unfold Qle. cbn [Qnum Qden inject_Z]. rewrite Z.mul_1_r. reflexivity. Qed.

Lemma Qle_inject_Z_l (x : Q) (n : Z) :
  (inject_Z n <= x)%Q <-> (n * Zpos (Qden x) <= Qnum x)%Z.
Proof. unfold Qle. cbn [Qnum Qden inject_Z]. rewrite Z.mul_1_r. reflexivity. Qed.

(** Rounding to the nearest integer does not cross an integer bound. *)
Lemma round_half_even_le (x : Q) (n : Z) :
  (x <= inject_Z n)%Q -> (PyNum.round_half_even x <= n)%Z.
Proof.
  intros H. apply Qle_inject_Z_r in H. unfold PyNum.round_half_even.
  pose proof (Z.div_mod (Qnum x) (Zpos (Qden x)) ltac:(lia)) as Hdm.
  pose proof (Z.mod_pos_bound (Qnum x) (Zpos (Qden x)) ltac:(lia)) as Hr.
  set (q := (Qnum x / Zpos (Qden x))%Z) in *.
  set (r := (Qnum x mod Zpos (Qden x))%Z) in *.
  destruct (2 * r <? Zpos (Qden x))%Z eqn:E1; [nia |].
  apply Z.ltb_ge in E1.
  assert (q + 1 <= n)%Z by nia.
  destruct (Zpos (Qden x) <? 2 * r)%Z; [assumption |].
  destruct (Z.even q); lia.
Qed.

Lemma round_half_even_ge (x : Q) (n : Z) :
  (inject_Z n <= x)%Q -> (n <= PyNum.round_half_even x)%Z.
Proof.
  intros H. apply Qle_inject_Z_l in H. unfold PyNum.round_half_even.
  pose proof (Z.div_mod (Qnum x) (Zpos (Qden x)) ltac:(lia)) as Hdm.
  pose proof (Z.mod_pos_bound (Qnum x) (Zpos (Qden x)) ltac:(lia)) as Hr.
  set (q := (Qnum x / Zpos (Qden x))%Z) in *.
  set (r := (Qnum x mod Zpos (Qden x))%Z) in *.
  assert (n <= q)%Z by nia.
  destruct (2 * r <? Zpos (Qden x))%Z; [assumption |].
  destruct (Zpos (Qden x) <? 2 * r)%Z; [lia |].
  destruct (Z.even q); lia.
Qed.

(** [round(x, 2)] keeps a value within bounds that are whole numbers. *)
Lemma round2_le (x : Q) (n : Z) : (x <= inject_Z n)%Q -> (PyNum.round2 x <= inject_Z n)%Q.
Proof.
  intros H. unfold PyNum.round2.
  assert (H100 : (x * 100 <= inject_Z (n * 100))%Q).
  { rewrite inject_Z_mult. change (inject_Z 100) with 100%Q. nra. }
  apply round_half_even_le in H100.
  unfold Qle. cbn [Qnum Qden inject_Z]. lia.
Qed.

Lemma round2_ge (x : Q) (n : Z) : (inject_Z n <= x)%Q -> (inject_Z n <= PyNum.round2 x)%Q.
Proof.
  intros H. unfold PyNum.round2.
  assert (H100 : (inject_Z (n * 100) <= x * 100)%Q).
  { rewrite inject_Z_mult. change (inject_Z 100) with 100%Q. nra. }
  apply round_half_even_ge in H100.
  unfold Qle. cbn [Qnum Qden inject_Z]. lia.
Qed.

Lemma round2_bounds (x : Q) : (0 <= x)%Q -> (x <= 100)%Q ->
  (0 <= PyNum.round2 x)%Q /\ (PyNum.round2 x <= 100)%Q.
Proof.
  intros H0 H100. split.
  - apply (round2_ge x 0). exact H0.
  - apply (round2_le x 100). exact H100.
Qed.

Lemma round_half_even_mono (x y : Q) :
  (x <= y)%Q -> (PyNum.round_half_even x <= PyNum.round_half_even y)%Z.
Proof.
  unfold Qle, PyNum.round_half_even. intros H.
  pose proof (Z.div_mod (Qnum x) (Zpos (Qden x)) ltac:(lia)) as Hx.
  pose proof (Z.mod_pos_bound (Qnum x) (Zpos (Qden x)) ltac:(lia)) as Hrx.
  pose proof (Z.div_mod (Qnum y) (Zpos (Qden y)) ltac:(lia)) as Hy.
  pose proof (Z.mod_pos_bound (Qnum y) (Zpos (Qden y)) ltac:(lia)) as Hry.
  set (dx := Zpos (Qden x)) in *. set (dy := Zpos (Qden y)) in *.
  set (qx := (Qnum x / dx)%Z) in *. set (rx := (Qnum x mod dx)%Z) in *.
  set (qy := (Qnum y / dy)%Z) in *. set (ry := (Qnum y mod dy)%Z) in *.
  assert (Hdx : (0 < dx)%Z) by (unfold dx; lia).
  assert (Hdy : (0 < dy)%Z) by (unfold dy; lia).
  clearbody dx dy qx rx qy ry.
  rewrite Hx, Hy in H.
  assert (Hprod : (0 < dx * dy)%Z) by nia.
  assert (Hrxy : (ry * dx < dx * dy)%Z) by nia.
  assert (Hq : (qx <= qy)%Z).
  { destruct (Z_lt_le_dec qy qx) as [Hgt |]; [| assumption]. exfalso.
    assert ((dx * dy) * (qy + 1) <= (dx * dy) * qx)%Z
      by (apply Z.mul_le_mono_nonneg_l; lia).
    assert (0 <= rx * dy)%Z by nia.
    lia. }
  assert (Hcase : (qx < qy)%Z \/ (qx = qy /\ rx * dy <= ry * dx)%Z).
  { destruct (Z.eq_dec qx qy) as [-> |]; [right; split; [reflexivity | lia] | left; lia]. }
  destruct (2 * rx <? dx)%Z eqn:X1; [ | apply Z.ltb_ge in X1 ].
  - destruct (2 * ry <? dy)%Z; [lia |].
    destruct (dy <? 2 * ry)%Z; [lia |]. destruct (Z.even qy); lia.
  - destruct Hcase as [Hlt | [-> Hr]].
    + assert (qx + 1 <= qy)%Z by lia.
      destruct (2 * ry <? dy)%Z; [| destruct (dy <? 2 * ry)%Z; [| destruct (Z.even qy)]];
        destruct (dx <? 2 * rx)%Z; try destruct (Z.even qx); lia.
    + destruct (2 * ry <? dy)%Z eqn:Y1; [apply Z.ltb_lt in Y1; nia | apply Z.ltb_ge in Y1].
      destruct (dy <? 2 * ry)%Z eqn:Y2.
      * destruct (dx <? 2 * rx)%Z; [lia | destruct (Z.even qy); lia].
      * apply Z.ltb_ge in Y2.
        assert (dx = 2 * rx)%Z by nia.
        assert (E : (dx <? 2 * rx)%Z = false) by (apply Z.ltb_ge; lia).
        rewrite E. destruct (Z.even qy); lia.
Qed.

Lemma round2_mono (x y : Q) : (x <= y)%Q -> (PyNum.round2 x <= PyNum.round2 y)%Q.
Proof.
  intros H. unfold PyNum.round2.
  assert (H100 : (x * 100 <= y * 100)%Q) by nra.
  apply round_half_even_mono in H100.
  unfold Qle. cbn [Qnum Qden]. lia.
Qed.

(** *** Skill fit *)

Lemma set_iter_nil (rt : PyRuntime) : set_iter rt [] = [].
Proof. apply Permutation_nil. apply Permutation_sym. apply (set_iter_perm rt []). Qed.

Lemma set_iter_length (rt : PyRuntime) (l : list string) :
  length (set_iter rt l) = set_len l.
Proof. unfold set_len. apply Permutation_length. apply set_iter_perm. Qed.

(** A set drawn from a duplicate-free list has at most its length. *)
Lemma set_len_incl (a b : list string) :
  NoDup b -> (forall x, In x a -> In x b) -> set_len a <= length b.
Proof.
  intros Hb Hincl. unfold set_len. apply NoDup_incl_length.
  - apply NoDup_nodup.
  - intros x Hx. apply Hincl. apply (nodup_In string_dec). exact Hx.
Qed.

Lemma set_inter_In (a b : list string) (x : string) :
  In x (set_inter a b) <-> In x a /\ In x b.
Proof. unfold set_inter. rewrite filter_In, mem_In. reflexivity. Qed.

Lemma set_diff_In (a b : list string) (x : string) :
  In x (set_diff a b) <-> In x a /\ ~ In x b.
Proof.
  unfold set_diff. rewrite filter_In. split; intros [Ha Hb]; split; try exact Ha.
  - intros Hin. apply mem_In in Hin. rewrite Hin in Hb. discriminate Hb.
  - destruct (mem x b) eqn:E; [| reflexivity]. apply mem_In in E. contradiction.
Qed.

Lemma of_nat_le (m n : nat) : m <= n -> (PyNum.of_nat m <= PyNum.of_nat n)%Q.
Proof. intros H. unfold PyNum.of_nat. rewrite <- Zle_Qle. lia. Qed.

Lemma of_nat_pos (n : nat) : 0 < n -> (0 < PyNum.of_nat n)%Q.
Proof.
  intros H. unfold PyNum.of_nat. change 0%Q with (inject_Z 0). rewrite <- Zlt_Qlt. lia.
Qed.

(** A share of a positive total, in percent. *)
Lemma percent_of_bounds (count total : nat) :
  0 < total -> count <= total ->
  (0 <= percent_of count total)%Q /\ (percent_of count total <= 100)%Q.
Proof.
  intros Hpos Hle. unfold percent_of.
  pose proof (of_nat_nonneg count) as Hc.
  pose proof (of_nat_pos total Hpos) as Ht.
  pose proof (of_nat_le count total Hle) as Hct.
  assert (H0 : (0 <= PyNum.of_nat count / PyNum.of_nat total)%Q).
  { apply Qle_shift_div_l; [exact Ht | lra]. }
  assert (H1 : (PyNum.of_nat count / PyNum.of_nat total <= 1)%Q).
  { apply Qle_shift_div_r; [exact Ht | lra]. }
  split; lra.
Qed.

Lemma Qdiv_le_compat (a b c : Q) : (0 < c)%Q -> (a <= b)%Q -> (a / c <= b / c)%Q.
Proof.
  intros Hc Hab. apply Qle_shift_div_l; [exact Hc |].
  setoid_replace (a / c * c)%Q with a by (field; lra). exact Hab.
Qed.

Lemma job_skills_NoDup self rt job_description :
  NoDup (_extract_skills_with_context_advanced self rt job_description).
Proof. apply set_iter_NoDup. Qed.

(** X1: the exact-match percentage of the skill analysis lies between 0 and
    100, for every resume and job text. *)
Theorem match_percentage_bounds (self : AdvancedScoringModel) (rt : PyRuntime)
    (skills_data : Skills) (job_description : string) :
  let fit := _analyze_skill_fit_advanced self rt skills_data job_description in
  (0 <= match_percentage fit)%Q /\ (match_percentage fit <= 100)%Q.
Proof.
  cbv zeta. unfold _analyze_skill_fit_advanced. cbn [match_percentage].
  pose proof (job_skills_NoDup self rt job_description) as Hnd.
  set (job_skills := _extract_skills_with_context_advanced self rt job_description) in *.
  set (flat := _flatten_skills_advanced self skills_data).
  assert (Hle : set_len (set_inter flat job_skills) <= length job_skills).
  { apply set_len_incl; [exact Hnd |]. intros x Hx. apply set_inter_In in Hx. tauto. }
  destruct job_skills as [| j js] eqn:E.
  - apply round2_bounds; lra.
  - apply round2_bounds; apply percent_of_bounds; cbn [length] in *; lia.
Qed.

(** X2: the exact matches are the skills the job asks for that the
    candidate has, the critical gaps are those the candidate does not have;
    both lists are free of duplicates, so together they split the skills of
    the job. *)
Theorem exact_matches_and_gaps_split_job_skills (self : AdvancedScoringModel)
    (rt : PyRuntime) (skills_data : Skills) (job_description : string) :
  let fit := _analyze_skill_fit_advanced self rt skills_data job_description in
  let job_skills := _extract_skills_with_context_advanced self rt job_description in
  let candidate_skills := _flatten_skills_advanced self skills_data in
  (forall skill, In skill (exact_matches fit)
                 <-> In skill job_skills /\ In skill candidate_skills)
  /\ (forall skill, In skill (critical_skill_gaps fit)
                    <-> In skill job_skills /\ ~ In skill candidate_skills)
  /\ NoDup (exact_matches fit) /\ NoDup (critical_skill_gaps fit).
Proof.
  cbv zeta. unfold _analyze_skill_fit_advanced. cbn [exact_matches critical_skill_gaps].
  split; [| split; [| split; apply set_iter_NoDup]].
  - intros skill. rewrite set_iter_In, set_inter_In. tauto.
  - intros skill. rewrite set_iter_In, set_diff_In. tauto.
Qed.

(** X3: the comprehensive match percentage, which also counts related
    skills, is never below the exact-match percentage. *)
Theorem comprehensive_match_at_least_exact_match (self : AdvancedScoringModel)
    (rt : PyRuntime) (skills_data : Skills) (job_description : string) :
  let fit := _analyze_skill_fit_advanced self rt skills_data job_description in
  (match_percentage fit <= comprehensive_match_percentage fit)%Q.
Proof.
  cbv zeta. unfold _analyze_skill_fit_advanced.
  cbn [match_percentage comprehensive_match_percentage].
  set (job_skills := _extract_skills_with_context_advanced self rt job_description).
  set (flat := _flatten_skills_advanced self skills_data).
  destruct job_skills as [| j js]; [apply Qle_refl |].
  apply round2_mono. unfold percent_of.
  set (n := length (j :: js)).
  assert (Hn : (0 < PyNum.of_nat n)%Q) by (apply of_nat_pos; cbn; lia).
  pose proof (of_nat_nonneg (set_len (_find_related_skills_advanced self flat (j :: js)))) as Hr.
  assert (H : (PyNum.of_nat (set_len (set_inter flat (j :: js))) / PyNum.of_nat n
               <= (PyNum.of_nat (set_len (set_inter flat (j :: js)))
                   + PyNum.of_nat (set_len (_find_related_skills_advanced self flat (j :: js)))
                     * (7 # 10)) / PyNum.of_nat n)%Q).
  { apply Qdiv_le_compat; [exact Hn | lra]. }
  lra.
Qed.

(** X4: when the job text holds no skill of the table, both match
    percentages are 0 and there are no exact matches, related skills or
    gaps, whatever the candidate's skills. *)
Theorem no_required_skills_no_match (self : AdvancedScoringModel) (rt : PyRuntime)
    (skills_data : Skills) (job_description : string) :
  _extract_skills_with_context_advanced self rt job_description = [] ->
  let fit := _analyze_skill_fit_advanced self rt skills_data job_description in
  (match_percentage fit == 0)%Q /\ (comprehensive_match_percentage fit == 0)%Q
  /\ exact_matches fit = [] /\ related_skills fit = [] /\ critical_skill_gaps fit = [].
Proof.
  intros H. cbv zeta. unfold _analyze_skill_fit_advanced.
  cbn [match_percentage comprehensive_match_percentage exact_matches related_skills
       critical_skill_gaps].
  rewrite H. cbn [_find_related_skills_advanced flat_map set_diff filter].
  assert (E : set_inter (_flatten_skills_advanced self skills_data) [] = []).
  { unfold set_inter. induction (_flatten_skills_advanced self skills_data) as [| a l IH];
      [reflexivity | exact IH]. }
  rewrite E, !set_iter_nil. repeat split; reflexivity.
Qed.

Lemma no_required_skills_no_match_witness :
  let fit :=
    _analyze_skill_fit_advanced untrained insertion_order
      (extract_skills_comprehensive cv_python) "A kind and calm colleague" in
  (match_percentage fit == 0)%Q /\ (comprehensive_match_percentage fit == 0)%Q
  /\ exact_matches fit = [] /\ related_skills fit = [] /\ critical_skill_gaps fit = [].
Proof.
  apply (no_required_skills_no_match untrained insertion_order
           (extract_skills_comprehensive cv_python) "A kind and calm colleague").
  vm_compute. reflexivity.
Defined.

(** *** Experience fit *)

Lemma int_acc_nonneg (s : string) : forall acc, (0 <= acc)%Z -> (0 <= int_acc acc s)%Z.
Proof.
  induction s as [| c s IH]; intros acc H; cbn [int_acc]; [exact H |].
  apply IH. lia.
Qed.

Lemma int_nonneg (s : string) : (0 <= PyStr.int s)%Z.
Proof. apply int_acc_nonneg. lia. Qed.

Lemma level_mapping_nonneg (lvl : string) :
  (0 <= match lookup lvl level_mapping with Some y => y | None => 2 end)%Z.
Proof.
  unfold level_mapping. cbn [lookup].
  repeat match goal with
         | |- context [String.eqb ?a ?b] => destruct (String.eqb a b); [lia |]
         end.
  lia.
Qed.

Lemma min_years_nonneg self job_description :
  (0 <= min_years (_extract_experience_requirements_advanced self job_description))%Z.
Proof.
  unfold _extract_experience_requirements_advanced. cbn [min_years].
  set (text := lower job_description).
  assert (H : (0 <= match search no_flags min_years_pattern text with
                    | Some m => PyStr.int (group1 m)
                    | None => 0
                    end)%Z).
  { destruct (search no_flags min_years_pattern text); [apply int_nonneg | lia]. }
  destruct (_ =? 0)%Z; [apply level_mapping_nonneg | exact H].
Qed.

Lemma Qmin_ge (a b c : Q) : (c <= a)%Q -> (c <= b)%Q -> (c <= PyNum.Qmin a b)%Q.
Proof. intros Ha Hb. destruct (Qmin_cases a b) as [[-> _] | [-> _]]; assumption. Qed.

Lemma inject_Z_nonneg (z : Z) : (0 <= z)%Z -> (0 <= inject_Z z)%Q.
Proof. intros H. change 0%Q with (inject_Z 0). rewrite <- Zle_Qle. exact H. Qed.

(** X5: with a total experience that is not negative, the experience
    sufficiency score lies in [0, 100], and it is 100 exactly when the
    experience is reported as sufficient; the required years are never
    negative. *)
Theorem experience_sufficiency_score_spec (self : AdvancedScoringModel)
    (experience_data : Experience) (job_description : string) :
  (0 <= total_experience_years experience_data)%Z ->
  let fit := _analyze_experience_fit_advanced self experience_data job_description in
  (0 <= required_experience fit)%Z
  /\ (0 <= experience_sufficiency_score fit)%Q
  /\ (experience_sufficiency_score fit <= 100)%Q
  /\ (experience_sufficiency fit = true <-> (experience_sufficiency_score fit == 100)%Q).
Proof.
  intros Hactual. cbv zeta. unfold _analyze_experience_fit_advanced.
  cbn [required_experience experience_sufficiency_score experience_sufficiency].
  pose proof (min_years_nonneg self job_description) as Hreq.
  set (req := _extract_experience_requirements_advanced self job_description) in *.
  unfold _calculate_experience_sufficiency_score.
  set (actual := total_experience_years experience_data) in *.
  split; [exact Hreq |].
  destruct (min_years req <=? actual)%Z eqn:E.
  - repeat split; try lra; intros _; reflexivity.
  - apply Z.leb_gt in E.
    assert (Hpos : (0 <? min_years req)%Z = true) by (apply Z.ltb_lt; lia).
    rewrite Hpos.
    assert (Hq : (0 < inject_Z (min_years req))%Q).
    { change 0%Q with (inject_Z 0). rewrite <- Zlt_Qlt. lia. }
    assert (Hlt : (inject_Z actual < inject_Z (min_years req))%Q)
      by (rewrite <- Zlt_Qlt; exact E).
    pose proof (inject_Z_nonneg actual Hactual) as Ha.
    assert (H0 : (0 <= inject_Z actual / inject_Z (min_years req))%Q).
    { apply Qle_shift_div_l; [exact Hq | lra]. }
    assert (H1 : (inject_Z actual / inject_Z (min_years req) < 1)%Q).
    { apply Qlt_shift_div_r; [exact Hq | lra]. }
    destruct (Qmin_cases 100 (inject_Z actual / inject_Z (min_years req) * 100))
      as [[-> Hle] | [-> Hle]].
    + exfalso. lra.
    + repeat split; try lra; try (intros H; discriminate H).
Qed.

Lemma experience_sufficiency_score_spec_witness :
  let fit :=
    _analyze_experience_fit_advanced untrained
      (extract_experience_advanced insertion_order sample_now
         ("Experience" ++ nl ++ "Developer - Econet 2015 - 2019"))
      "Senior developer, 5+ years experience" in
  (0 <= required_experience fit)%Z
  /\ (0 <= experience_sufficiency_score fit)%Q
  /\ (experience_sufficiency_score fit <= 100)%Q
  /\ (experience_sufficiency fit = true <-> (experience_sufficiency_score fit == 100)%Q).
Proof.
  apply (experience_sufficiency_score_spec untrained
           (extract_experience_advanced insertion_order sample_now
              ("Experience" ++ nl ++ "Developer - Econet 2015 - 2019"))
           "Senior developer, 5+ years experience").
  vm_compute. discriminate.
Defined.

(** *** Qualification fit *)

Lemma level_scores_bounds (key : string) (default : Z) :
  (30 <= default <= 100)%Z ->
  (30 <= match lookup key level_scores with Some v => v | None => default end <= 100)%Z.
Proof.
  intros H. unfold level_scores. cbn [lookup].
  repeat match goal with
         | |- context [String.eqb ?a ?b] => destruct (String.eqb a b); [lia |]
         end.
  exact H.
Qed.

Lemma field_relevance_bounds self quals job_description :
  (0 <= _analyze_field_relevance_advanced self quals job_description)%Q
  /\ (_analyze_field_relevance_advanced self quals job_description <= 100)%Q.
Proof.
  unfold _analyze_field_relevance_advanced.
  set (job_fields := _extract_field_requirements_advanced self job_description).
  destruct job_fields as [| f fs]; [split; lra |].
  destruct (fields_of_study quals) as [| c cs]; [split; lra |].
  set (candidate_fields := c :: cs).
  assert (Hbase : (0 <= percent_of (set_len (set_inter (f :: fs) candidate_fields))
                                   (length (f :: fs)))%Q).
  { unfold percent_of.
    pose proof (of_nat_nonneg (set_len (set_inter (f :: fs) candidate_fields))) as Hc.
    assert (Ht : (0 < PyNum.of_nat (length (f :: fs)))%Q) by (apply of_nat_pos; cbn; lia).
    assert (0 <= PyNum.of_nat (set_len (set_inter (f :: fs) candidate_fields))
                 / PyNum.of_nat (length (f :: fs)))%Q
      by (apply Qle_shift_div_l; [exact Ht | lra]).
    lra. }
  pose proof (of_nat_nonneg (Nat.min 20 ((length candidate_fields - 1) * 5))) as Hbonus.
  apply round2_bounds.
  - apply Qmin_ge; [| lra]. destruct (1 <? length candidate_fields); lra.
  - apply Qmin_le_r.
Qed.

(** X6: the qualification score lies in [30, 100], the gap in [0, 70], the
    qualification is sufficient exactly when the gap is 0, and the field
    relevance lies in [0, 100]. *)
Theorem qualification_fit_spec (self : AdvancedScoringModel) (quals : Qualifications)
    (job_description : string) :
  let fit := _analyze_qualification_fit_advanced self quals job_description in
  (30 <= qualification_score fit <= 100)%Z
  /\ (30 <= required_level_score fit <= 100)%Z
  /\ (0 <= qualification_gap fit <= 70)%Z
  /\ (qualification_sufficiency fit = true <-> qualification_gap fit = 0%Z)
  /\ (0 <= field_relevance fit)%Q /\ (field_relevance fit <= 100)%Q.
Proof.
  cbv zeta. unfold _analyze_qualification_fit_advanced.
  cbn [qualification_score required_level_score qualification_gap
       qualification_sufficiency field_relevance].
  pose proof (level_scores_bounds (qualification_level quals) 30 ltac:(lia)) as Hc.
  pose proof (level_scores_bounds
                (_extract_required_qualification_level_advanced self job_description)
                50 ltac:(lia)) as Hr.
  pose proof (field_relevance_bounds self quals job_description) as [Hf0 Hf1].
  repeat split; try lia; try assumption.
Qed.

(** *** Cultural fit *)

(** X7: the adaptability score lies between 50 and 100, for every
    resume. *)
Theorem adaptability_score_bounds (self : AdvancedScoringModel) (resume_data : ResumeData) :
  (50 <= _calculate_adaptability_score_advanced self resume_data)%Q
  /\ (_calculate_adaptability_score_advanced self resume_data <= 100)%Q.
Proof.
  split; [| apply adaptability_at_most_100].
  unfold _calculate_adaptability_score_advanced.
  pose proof (of_nat_nonneg
                (Nat.min 20 (length (industry_sectors (experience resume_data)) * 5))) as H1.
  pose proof (of_nat_nonneg (Nat.min 20 (skill_diversity (skills resume_data) * 2))) as H2.
  pose proof (of_nat_nonneg
                (Nat.min 10 (length (companies_worked (experience resume_data)) * 2))) as H3.
  apply Qmin_ge; [| lra].
  destruct (career_progression (experience resume_data)); lra.
Qed.

(** *** Overall score *)

Lemma comprehensive_match_nonneg self rt skills_data job_description :
  (0 <= comprehensive_match_percentage
          (_analyze_skill_fit_advanced self rt skills_data job_description))%Q.
Proof.
  unfold _analyze_skill_fit_advanced. cbn [comprehensive_match_percentage].
  set (job_skills := _extract_skills_with_context_advanced self rt job_description).
  set (flat := _flatten_skills_advanced self skills_data).
  apply (round2_ge _ 0).
  destruct job_skills as [| j js]; [apply Qle_refl |].
  pose proof (of_nat_nonneg (set_len (set_inter flat (j :: js)))) as He.
  pose proof (of_nat_nonneg (set_len (_find_related_skills_advanced self flat (j :: js)))) as Hr.
  assert (Hn : (0 < PyNum.of_nat (length (j :: js)))%Q) by (apply of_nat_pos; cbn; lia).
  assert (0 <= (PyNum.of_nat (set_len (set_inter flat (j :: js)))
                + PyNum.of_nat (set_len (_find_related_skills_advanced self flat (j :: js)))
                  * (7 # 10)) / PyNum.of_nat (length (j :: js)))%Q
    by (apply Qle_shift_div_l; [exact Hn | lra]).
  change (inject_Z 0) with 0%Q. lra.
Qed.

Lemma experience_sufficiency_nonneg self experience_data requirements :
  (0 <= total_experience_years experience_data)%Z ->
  (0 <= _calculate_experience_sufficiency_score self experience_data requirements)%Q.
Proof.
  intros Hactual. unfold _calculate_experience_sufficiency_score.
  destruct (min_years requirements <=? total_experience_years experience_data)%Z; [lra |].
  destruct (0 <? min_years requirements)%Z eqn:E; [| lra].
  apply Z.ltb_lt in E. apply Qmin_ge; [lra |].
  assert (Hq : (0 < inject_Z (min_years requirements))%Q).
  { change 0%Q with (inject_Z 0). rewrite <- Zlt_Qlt. exact E. }
  pose proof (inject_Z_nonneg _ Hactual) as Ha.
  assert (0 <= inject_Z (total_experience_years experience_data)
               / inject_Z (min_years requirements))%Q
    by (apply Qle_shift_div_l; [exact Hq | lra]).
  lra.
Qed.

(** X8: when the total experience is not negative, the comprehensive skill
    match is at most 100 and the job text holds at most ten culture
    keywords, the overall score lies in [0, 100]. *)
Theorem overall_score_bounds_when_capped (self : AdvancedScoringModel) (rt : PyRuntime)
    (resume_data : ResumeData) (job_description : string) :
  (0 <= total_experience_years (experience resume_data))%Z ->
  (comprehensive_match_percentage
     (_analyze_skill_fit_advanced self rt (skills resume_data) job_description) <= 100)%Q ->
  length (_extract_culture_indicators_advanced self job_description) <= 10 ->
  let fit := analyze_candidate_fit self rt resume_data job_description in
  (0 <= overall_score fit)%Q /\ (overall_score fit <= 100)%Q.
Proof.
  intros Hexp Hskill Hculture. cbv zeta.
  unfold analyze_candidate_fit. cbn [overall_score].
  unfold _calculate_comprehensive_score.
  pose proof (comprehensive_match_nonneg self rt (skills resume_data) job_description)
    as Hskill0.
  set (skill_score := comprehensive_match_percentage
                        (_analyze_skill_fit_advanced self rt (skills resume_data)
                           job_description)) in *.
  unfold _analyze_experience_fit_advanced. cbn [experience_sufficiency_score].
  pose proof (experience_sufficiency_nonneg self (experience resume_data)
                (_extract_experience_requirements_advanced self job_description) Hexp)
    as He0.
  pose proof (experience_sufficiency_at_most_100 self (experience resume_data)
                (_extract_experience_requirements_advanced self job_description)) as He1.
  set (experience_score := _calculate_experience_sufficiency_score self
                             (experience resume_data)
                             (_extract_experience_requirements_advanced self
                                job_description)) in *.
  unfold _analyze_qualification_fit_advanced. cbn [qualification_score].
  pose proof (level_scores_bounds (qualification_level (qualifications resume_data)) 30
                ltac:(lia)) as Hq.
  set (qscore := match lookup (qualification_level (qualifications resume_data)) level_scores
                 with Some v => v | None => 30%Z end) in *.
  assert (Hq0 : (0 <= inject_Z qscore)%Q) by (apply inject_Z_nonneg; lia).
  assert (Hq1 : (inject_Z qscore <= 100)%Q).
  { change 100%Q with (inject_Z 100). rewrite <- Zle_Qle. lia. }
  unfold _analyze_cultural_fit_advanced. cbn [culture_alignment adaptability_score].
  pose proof (adaptability_at_most_100 self resume_data) as Ha1.
  assert (Ha0 : (0 <= _calculate_adaptability_score_advanced self resume_data)%Q).
  { unfold _calculate_adaptability_score_advanced.
    pose proof (of_nat_nonneg
                  (Nat.min 20 (length (industry_sectors (experience resume_data)) * 5))).
    pose proof (of_nat_nonneg (Nat.min 20 (skill_diversity (skills resume_data) * 2))).
    pose proof (of_nat_nonneg
                  (Nat.min 10 (length (companies_worked (experience resume_data)) * 2))).
    apply Qmin_ge; [| lra].
    destruct (career_progression (experience resume_data)); lra. }
  set (adaptability := _calculate_adaptability_score_advanced self resume_data) in *.
  pose proof (of_nat_nonneg
                (length (_extract_culture_indicators_advanced self job_description) * 10))
    as Hc0.
  assert (Hc1 : (PyNum.of_nat
                   (length (_extract_culture_indicators_advanced self job_description) * 10)
                 <= 100)%Q).
  { change 100%Q with (PyNum.of_nat 100). apply of_nat_le. lia. }
  set (alignment := PyNum.of_nat
                      (length (_extract_culture_indicators_advanced self job_description)
                       * 10)) in *.
  pose proof (of_nat_nonneg
                (achievement_score
                   (_analyze_achievements_impact self (awards_certifications resume_data))))
    as Hach0.
  assert (Hach1 : (PyNum.of_nat
                     (achievement_score
                        (_analyze_achievements_impact self
                           (awards_certifications resume_data))) <= 100)%Q).
  { change 100%Q with (PyNum.of_nat 100). apply of_nat_le.
    apply achievement_score_at_most_100. }
  set (achievements := PyNum.of_nat
                         (achievement_score
                            (_analyze_achievements_impact self
                               (awards_certifications resume_data)))) in *.
  unfold weight_skill_match, weight_experience, weight_qualifications,
    weight_cultural_fit, weight_achievements.
  assert (Hcomp0 : (0 <= (alignment + adaptability) / 2)%Q)
    by (apply Qle_shift_div_l; lra).
  assert (Hcomp1 : ((alignment + adaptability) / 2 <= 100)%Q)
    by (apply Qle_shift_div_r; lra).
  set (cultural := ((alignment + adaptability) / 2)%Q) in *.
  apply round2_bounds; lra.
Qed.

Lemma overall_score_bounds_when_capped_witness :
  let fit :=
    analyze_candidate_fit untrained insertion_order (sample_resume cv_python) "python sql" in
  (0 <= overall_score fit)%Q /\ (overall_score fit <= 100)%Q.
Proof.
  apply (overall_score_bounds_when_capped untrained insertion_order
           (sample_resume cv_python) "python sql").
  - vm_compute. discriminate.
  - vm_compute. discriminate.
  - vm_compute. lia.
Defined.

(** *** Recommendation and priority *)

(** X9: the interview priority and the hiring recommendation agree at
    the ends of the scale: a score given the high priority gets one of the
    two best recommendations, and a score that is not recommended gets the
    lowest priority. *)
Theorem priority_agrees_with_recommendation (self : AdvancedScoringModel) (score : Q)
    (skill_fit : SkillFit) (experience_fit : ExperienceFit) :
  let priority := _determine_interview_priority_advanced self score in
  let advice := _generate_detailed_recommendation self score skill_fit experience_fit in
  (priority = "HIGH PRIORITY - Schedule immediately" ->
   advice = "🏆 TOP CANDIDATE - Exceptional match with outstanding skills and experience. Immediate interview recommended."
   \/ advice = "✅ STRONG RECOMMEND - Excellent skills alignment with sufficient experience. High potential candidate.")
  /\ (advice = "🔴 NOT RECOMMENDED - Significant mismatches with role requirements." ->
      priority = "NOT RECOMMENDED - Significant gaps identified").
Proof.
  cbv zeta. unfold _determine_interview_priority_advanced, _generate_detailed_recommendation.
  destruct (Qle_bool 85 score) eqn:E85; destruct (Qle_bool 90 score) eqn:E90;
    destruct (Qle_bool 80 score) eqn:E80; destruct (Qle_bool 70 score) eqn:E70;
    destruct (Qle_bool 60 score) eqn:E60; destruct (Qle_bool 50 score) eqn:E50;
    destruct (Qle_bool 55 score) eqn:E55;
    destruct (Qle_bool 70 (comprehensive_match_percentage skill_fit));
    repeat match goal with
           | H : Qle_bool _ _ = true |- _ => apply Qle_bool_iff in H
           | H : Qle_bool ?a ?b = false |- _ =>
               assert (~ (a <= b)%Q)
                 by (let X := fresh in intros X; apply Qle_bool_iff in X;
                     rewrite X in H; discriminate H);
               clear H
           end;
    try (exfalso; lra);
    (split; [intros Hyp; try discriminate Hyp; auto | intros Hyp; try discriminate Hyp; auto]).
Qed.

Lemma In_firstn_In {A : Type} (n : nat) : forall (l : list A) (x : A),
  In x (firstn n l) -> In x l.
Proof.
  induction n as [| n IH]; intros l x H; [destruct H |].
  destruct l as [| a l]; [destruct H |].
  destruct H as [<- | H]; [left; reflexivity | right; exact (IH l x H)].
Qed.

(** *** Interview questions *)

(** X10: between three and six questions are asked, and the first behavioral
    question is always among them. *)
Theorem targeted_questions_count (self : AdvancedScoringModel) (resume_data : ResumeData)
    (job_description : string) :
  let questions := _generate_targeted_questions self resume_data job_description in
  3 <= length questions <= 6
  /\ In "Describe a challenging project you worked on and how you overcame obstacles."
        questions.
Proof.
  cbv zeta. unfold _generate_targeted_questions, append, behavioral_questions.
  destruct (resume_skill_gaps resume_data);
    destruct (total_experience_years (experience resume_data) <? 3)%Z;
    destruct (0 <? length (career_progression (experience resume_data)));
    destruct (key_achievements (experience resume_data));
    destruct (industry_sectors (experience resume_data));
    cbn [app firstn length In]; (split; [lia | tauto]).
Qed.

(** *** Strengths and weaknesses *)

(** X11: skills and experience each count once, as a strength or as a
    weakness; there are at most two weaknesses and three development
    areas, and every development area is a required skill that the
    candidate lacks. *)
Theorem strengths_weaknesses_spec (self : AdvancedScoringModel) (rt : PyRuntime)
    (resume_data : ResumeData) (job_description : string) :
  let sw := _identify_strengths_weaknesses self rt resume_data job_description in
  2 <= length (strengths sw) + length (weaknesses sw)
  /\ length (strengths sw) <= 4
  /\ length (weaknesses sw) <= 2
  /\ length (development_areas sw) <= 3
  /\ (forall skill, In skill (development_areas sw) ->
        In skill (_extract_skills_with_context_advanced self rt job_description)
        /\ ~ In skill (_flatten_skills_advanced self (skills resume_data))).
Proof.
  cbv zeta. unfold _identify_strengths_weaknesses.
  cbn [strengths weaknesses development_areas].
  set (analysis := _analyze_skill_fit_advanced self rt (skills resume_data) job_description).
  split; [| split; [| split; [| split]]].
  - destruct (Qle_bool 70 (comprehensive_match_percentage analysis));
      destruct (3 <=? total_experience_years (experience resume_data))%Z;
      destruct (mem (qualification_level (qualifications resume_data)) ["masters"; "phd"]);
      destruct (String.eqb (promotion_trajectory (experience resume_data))
                  "Stable Progression");
      unfold append; cbn [app firstn length]; lia.
  - apply firstn_le_length.
  - destruct (Qle_bool 70 (comprehensive_match_percentage analysis));
      destruct (3 <=? total_experience_years (experience resume_data))%Z;
      unfold append; cbn [app firstn length]; lia.
  - apply firstn_le_length.
  - intros skill H. apply In_firstn_In in H.
    unfold analysis, _analyze_skill_fit_advanced in H. cbn [critical_skill_gaps] in H.
    apply set_iter_In, set_diff_In in H. exact H.
Qed.

(** *** Resume quality *)

(** X12: the quality score of a resume lies between 65 and 100, no
    section score exceeds 100, and the education score is 50 or 100. *)
Theorem quality_analysis_bounds (self : AdvancedScoringModel) (resume_data : ResumeData) :
  let quality := _generate_quality_analysis_advanced self resume_data in
  65 <= quality_overall_score quality <= 100
  /\ (Experience_score (section_scores quality) <= 100)%Z
  /\ Skills_score (section_scores quality) <= 100
  /\ (Education_score (section_scores quality) = 50
      \/ Education_score (section_scores quality) = 100)
  /\ Achievements_score (section_scores quality) <= 100.
Proof.
  cbv zeta. unfold _generate_quality_analysis_advanced.
  cbn [quality_overall_score section_scores Experience_score Skills_score Education_score
       Achievements_score].
  destruct (2 <? total_experience_years (experience resume_data))%Z;
    destruct (5 <? total_experience_years (experience resume_data))%Z;
    destruct (10 <? total_skills (skills resume_data));
    destruct (20 <? total_skills (skills resume_data));
    destruct (truthy (highest_qualification (qualifications resume_data)));
    destruct (0 <? _);
    repeat split; try lia; auto.
Qed.

(** *** Detailed signals of the experience analysis *)

Lemma filter_length_le {A : Type} (f : A -> bool) (l : list A) :
  length (filter f l) <= length l.
Proof.
  induction l as [| a l IH]; [apply Nat.le_refl |].
  cbn [filter]. destruct (f a); cbn [length]; lia.
Qed.

Lemma industry_relevance_bounds self experience_data job_description :
  (0 <= _analyze_industry_relevance_advanced self experience_data job_description)%Q
  /\ (_analyze_industry_relevance_advanced self experience_data job_description <= 100)%Q.
Proof.
  unfold _analyze_industry_relevance_advanced.
  set (job_industries := _extract_industries_from_job_advanced self job_description).
  destruct job_industries as [| j js]; [split; lra |].
  destruct (industry_sectors experience_data) as [| c cs]; [split; lra |].
  set (candidate := c :: cs).
  assert (Hbase : (0 <= percent_of (set_len (set_inter (j :: js) candidate))
                                   (length (j :: js)))%Q).
  { unfold percent_of.
    pose proof (of_nat_nonneg (set_len (set_inter (j :: js) candidate))) as Hc.
    assert (Ht : (0 < PyNum.of_nat (length (j :: js)))%Q) by (apply of_nat_pos; cbn; lia).
    assert (0 <= PyNum.of_nat (set_len (set_inter (j :: js) candidate))
                 / PyNum.of_nat (length (j :: js)))%Q
      by (apply Qle_shift_div_l; [exact Ht | lra]).
    lra. }
  pose proof (of_nat_nonneg (Nat.min 20 (length candidate * 5))) as Hbonus.
  apply round2_bounds; [apply Qmin_ge; lra | apply Qmin_le_r].
Qed.

Lemma leadership_bounds self experience_data :
  (0 <= _assess_leadership_experience self experience_data)%Q
  /\ (_assess_leadership_experience self experience_data <= 100)%Q.
Proof.
  unfold _assess_leadership_experience. split; [| apply Qmin_le_l].
  apply Qmin_ge; [lra | apply of_nat_nonneg].
Qed.

Lemma career_stability_bounds self experience_data :
  (0 <= _assess_career_stability self experience_data)%Q
  /\ (_assess_career_stability self experience_data <= 100)%Q.
Proof.
  unfold _assess_career_stability.
  destruct (career_progression experience_data) as [| p ps]; [split; lra |].
  set (positions := p :: ps).
  set (short := filter (fun pos => PyNum.Qlt_bool (inject_Z (p_duration_years pos)) 1)
                       positions).
  pose proof (filter_length_le
                (fun pos => PyNum.Qlt_bool (inject_Z (p_duration_years pos)) 1) positions)
    as Hshort.
  fold short in Hshort.
  pose proof (of_nat_le _ _ Hshort) as Hle.
  pose proof (of_nat_nonneg (length short)) as H0.
  assert (Ht : (0 < PyNum.of_nat (length positions))%Q) by (apply of_nat_pos; cbn; lia).
  assert (Hr0 : (0 <= (PyNum.of_nat (length positions) - PyNum.of_nat (length short))
                      / PyNum.of_nat (length positions))%Q)
    by (apply Qle_shift_div_l; [exact Ht | lra]).
  assert (Hr1 : ((PyNum.of_nat (length positions) - PyNum.of_nat (length short))
                 / PyNum.of_nat (length positions) <= 1)%Q)
    by (apply Qle_shift_div_r; [exact Ht | lra]).
  apply round2_bounds; lra.
Qed.

Lemma career_trajectory_bounds self experience_data :
  (0 <= total_experience_years experience_data)%Z ->
  (0 <= _analyze_career_trajectory_advanced self experience_data)%Q
  /\ (_analyze_career_trajectory_advanced self experience_data <= 100)%Q.
Proof.
  intros Htotal. unfold _analyze_career_trajectory_advanced.
  destruct (career_progression experience_data) as [| p ps]; [split; lra |].
  set (count := PyNum.of_nat (length (p :: ps))).
  assert (Hc : (0 < count)%Q) by (apply of_nat_pos; cbn; lia).
  pose proof (inject_Z_nonneg _ Htotal) as Ht.
  assert (Havg : (0 <= inject_Z (total_experience_years experience_data) / count)%Q)
    by (apply Qle_shift_div_l; [exact Hc | lra]).
  set (avg := (inject_Z (total_experience_years experience_data) / count)%Q) in *.
  assert (Hs0 : (0 <= PyNum.Qmin 1 (avg / (25 # 10)))%Q).
  { apply Qmin_ge; [lra |]. apply Qle_shift_div_l; lra. }
  pose proof (Qmin_le_l 1 (avg / (25 # 10))) as Hs1.
  assert (Hp0 : (0 <= PyNum.Qmin 1 (count / 8))%Q).
  { apply Qmin_ge; [lra |]. apply Qle_shift_div_l; lra. }
  pose proof (Qmin_le_l 1 (count / 8)) as Hp1.
  destruct (String.eqb (promotion_trajectory experience_data) "Stable Progression");
    apply round2_bounds; lra.
Qed.

(** X13: the detailed signals of the experience analysis (industry relevance,
    leadership, career stability) lie in [0, 100] for every input, and so
    does the career progression score when the total experience is not
    negative; the achievement density is then not negative either. *)
Theorem experience_signals_bounds (self : AdvancedScoringModel)
    (experience_data : Experience) (job_description : string) :
  (0 <= total_experience_years experience_data)%Z ->
  let fit := _analyze_experience_fit_advanced self experience_data job_description in
  ((0 <= industry_relevance fit)%Q /\ (industry_relevance fit <= 100)%Q)
  /\ ((0 <= leadership_experience fit)%Q /\ (leadership_experience fit <= 100)%Q)
  /\ ((0 <= career_stability fit)%Q /\ (career_stability fit <= 100)%Q)
  /\ ((0 <= career_progression_score fit)%Q /\ (career_progression_score fit <= 100)%Q)
  /\ (0 <= achievement_density fit)%Q.
Proof.
  intros Htotal. cbv zeta. unfold _analyze_experience_fit_advanced.
  cbn [industry_relevance leadership_experience career_stability career_progression_score
       achievement_density].
  split; [apply industry_relevance_bounds |].
  split; [apply leadership_bounds |].
  split; [apply career_stability_bounds |].
  split; [apply career_trajectory_bounds; exact Htotal |].
  pose proof (of_nat_nonneg (length (key_achievements experience_data))) as Hk.
  apply Qle_shift_div_l; [| lra].
  change 0%Q with (inject_Z 0). rewrite <- Zlt_Qlt. lia.
Qed.

Lemma experience_signals_bounds_witness :
  let fit :=
    _analyze_experience_fit_advanced untrained
      (extract_experience_advanced insertion_order sample_now cv_descending_years)
      "Software developer for a bank" in
  ((0 <= industry_relevance fit)%Q /\ (industry_relevance fit <= 100)%Q)
  /\ ((0 <= leadership_experience fit)%Q /\ (leadership_experience fit <= 100)%Q)
  /\ ((0 <= career_stability fit)%Q /\ (career_stability fit <= 100)%Q)
  /\ ((0 <= career_progression_score fit)%Q /\ (career_progression_score fit <= 100)%Q)
  /\ (0 <= achievement_density fit)%Q.
Proof.
  apply (experience_signals_bounds untrained
           (extract_experience_advanced insertion_order sample_now cv_descending_years)
           "Software developer for a bank").
  vm_compute. discriminate.
Defined.

(** *** The experience scan *)

Lemma first_group1_length (pats : list re) (lo hi : nat) (text : string) :
  first_group1 pats lo hi text = ""
  \/ (lo < len (first_group1 pats lo hi text) /\ len (first_group1 pats lo hi text) < hi).
Proof.
  induction pats as [| p rest IH]; [left; reflexivity |].
  cbn [first_group1].
  destruct (search ignorecase p text) as [m |]; [| exact IH].
  cbv zeta.
  destruct ((lo <? len (strip match group 1 m with Some g => g | None => "" end))
            && (len (strip match group 1 m with Some g => g | None => "" end) <? hi)) eqn:E;
    [| exact IH].
  right. apply andb_prop in E. destruct E as [E1 E2].
  apply Nat.ltb_lt in E1. apply Nat.ltb_lt in E2. split; assumption.
Qed.

Lemma position_info_fields now text p :
  _extract_position_info now text = Some p ->
  p_dates p <> "" /\ p_description p = text
  /\ p_position p = _extract_position_title text
  /\ p_company p = _extract_company_name text.
Proof.
  unfold _extract_position_info.
  destruct (String.eqb (_extract_dates text) "") eqn:E; [discriminate |].
  intros H. injection H as <-. cbn.
  apply String.eqb_neq in E. repeat split. exact E.
Qed.

Lemma clean_achievement_length text :
  _clean_achievement text = "" \/ 10 < len (_clean_achievement text).
Proof.
  unfold _clean_achievement. cbv zeta.
  match goal with |- context [10 <? ?n] => destruct (10 <? n) eqn:E end.
  - right. apply Nat.ltb_lt. exact E.
  - left. reflexivity.
Qed.

Lemma scan_from_lines_open now lines st :
  scan_from_lines now lines st -> scan_from_lines now lines (open_section st).
Proof. intros H. exact H. Qed.

Lemma exp_scan_line_positions now line st :
  es_positions (exp_scan_line now line st)
  = match _extract_position_info now line, es_current st with
    | Some _, Some cur => append (es_positions st) cur
    | _, _ => es_positions st
    end.
Proof.
  unfold exp_scan_line.
  destruct (_extract_position_info now line); destruct (es_current st); reflexivity.
Qed.

Lemma exp_scan_line_current now line st :
  es_current (exp_scan_line now line st)
  = match _extract_position_info now line with
    | Some position_info => Some position_info
    | None => es_current st
    end.
Proof. unfold exp_scan_line. destruct (_extract_position_info now line); reflexivity. Qed.

Lemma exp_scan_line_achievements now line st :
  es_achievements (exp_scan_line now line st)
  = if _is_achievement_advanced line && negb (String.eqb (_clean_achievement line) "")
    then append (es_achievements st) (_clean_achievement line)
    else es_achievements st.
Proof.
  unfold exp_scan_line.
  destruct (_extract_position_info now line); cbn [es_achievements];
    destruct (_is_achievement_advanced line); cbn [andb]; try reflexivity;
    destruct (String.eqb (_clean_achievement line) ""); reflexivity.
Qed.

Lemma exp_scan_line_sectors now line st :
  es_sectors (exp_scan_line now line st)
  = if negb (String.eqb (_detect_industry_sector_advanced line) "")
       && negb (mem (_detect_industry_sector_advanced line) (es_sectors st))
    then append (es_sectors st) (_detect_industry_sector_advanced line)
    else es_sectors st.
Proof. unfold exp_scan_line. destruct (_extract_position_info now line); reflexivity. Qed.

Lemma NoDup_append (l : list string) (x : string) :
  NoDup l -> ~ In x l -> NoDup (append l x).
Proof.
  intros Hl Hx. unfold append. induction Hl as [| a l Ha Hl IH]; cbn.
  - constructor; [intros [] | constructor].
  - constructor.
    + intros Hin. apply in_app_or in Hin. destruct Hin as [Hin | [-> | []]].
      * contradiction.
      * apply Hx. left. reflexivity.
    + apply IH. intros Hin. apply Hx. right. exact Hin.
Qed.

Lemma Forall_append {A : Type} (P : A -> Prop) (l : list A) (x : A) :
  Forall P l -> P x -> Forall P (append l x).
Proof.
  intros Hl Hx. unfold append. apply Forall_app. split; [exact Hl |].
  constructor; [exact Hx | constructor].
Qed.

Lemma exp_scan_line_from_lines now lines line st :
  In line lines ->
  scan_from_lines now lines st ->
  scan_from_lines now lines (exp_scan_line now (strip line) st).
Proof.
  intros Hin (Hpos & Hcur & Hach & Hsec & Hnd). unfold scan_from_lines.
  rewrite exp_scan_line_positions, exp_scan_line_current,
    exp_scan_line_achievements, exp_scan_line_sectors.
  split; [| split; [| split; [| split]]].
  - destruct (_extract_position_info now (strip line)); [| exact Hpos].
    destruct (es_current st) as [cur |]; [| exact Hpos].
    apply Forall_append; [exact Hpos | apply Hcur; reflexivity].
  - destruct (_extract_position_info now (strip line)) as [p |] eqn:Ep; [| exact Hcur].
    intros cur E. injection E as <-. exists line. split; [exact Hin | exact Ep].
  - destruct (_is_achievement_advanced (strip line)) eqn:Ea; [| exact Hach].
    destruct (String.eqb (_clean_achievement (strip line)) "") eqn:Ec; [exact Hach |].
    cbn [andb negb]. apply Forall_append; [exact Hach |]. split.
    + exists line. repeat split; [exact Hin | exact Ea].
    + apply String.eqb_neq in Ec.
      destruct (clean_achievement_length (strip line)) as [E0 | E0];
        [contradiction | exact E0].
  - destruct (negb (String.eqb (_detect_industry_sector_advanced (strip line)) "")
              && negb (mem (_detect_industry_sector_advanced (strip line)) (es_sectors st)))
      eqn:Es; [| exact Hsec].
    apply andb_prop in Es. destruct Es as [Es1 _].
    apply negb_true_iff in Es1. apply String.eqb_neq in Es1.
    apply Forall_append; [exact Hsec |]. split; [| exact Es1].
    exists line. split; [exact Hin | reflexivity].
  - destruct (negb (String.eqb (_detect_industry_sector_advanced (strip line)) "")
              && negb (mem (_detect_industry_sector_advanced (strip line)) (es_sectors st)))
      eqn:Es; [| exact Hnd].
    apply andb_prop in Es. destruct Es as [_ Es2].
    apply negb_true_iff in Es2.
    apply NoDup_append; [exact Hnd |]. apply not_mem_In. exact Es2.
Qed.

Lemma exp_scan_from_lines now lines : forall suffix st,
  incl suffix lines ->
  scan_from_lines now lines st ->
  scan_from_lines now lines (exp_scan now suffix st).
Proof.
  induction suffix as [| line rest IH]; intros st Hincl Hst; [exact Hst |].
  assert (Hrest : incl rest lines) by (intros x Hx; apply Hincl; right; exact Hx).
  rewrite exp_scan_cons.
  destruct (experience_start line); [apply IH; [exact Hrest | exact Hst] |].
  destruct (es_section st); [| apply IH; [exact Hrest | exact Hst]].
  destruct (experience_end line); [exact Hst |].
  apply IH; [exact Hrest |].
  apply exp_scan_line_from_lines; [apply Hincl; left; reflexivity | exact Hst].
Qed.

Lemma scan_from_lines_init now lines : scan_from_lines now lines exp_scan_init.
Proof.
  unfold scan_from_lines, exp_scan_init. cbn.
  repeat split; try constructor. intros cur E. discriminate E.
Qed.

Lemma career_progression_from_lines rt now text :
  Forall (position_of_line now (split_lines text))
         (career_progression (extract_experience_advanced rt now text)).
Proof.
  unfold extract_experience_advanced. cbn [career_progression].
  destruct (exp_scan_from_lines now (split_lines text) (split_lines text) exp_scan_init
              (incl_refl _) (scan_from_lines_init now _)) as (Hpos & Hcur & _).
  destruct (es_current (exp_scan now (split_lines text) exp_scan_init)) as [cur |];
    [| exact Hpos].
  apply Forall_append; [exact Hpos | apply Hcur; reflexivity].
Qed.

(** X14: every entry of the career progression is read off a line of the
    resume in which a date range was found: its description is that line
    without the surrounding blanks, its dates are not empty, and its title
    and company are those extracted from that line. *)
Theorem career_progression_entries_are_dated_lines (rt : PyRuntime) (now : datetime)
    (text : string) :
  Forall (fun p =>
            In (p_description p) (map strip (split_lines text))
            /\ p_dates p = _extract_dates (p_description p)
            /\ p_dates p <> ""
            /\ p_position p = _extract_position_title (p_description p)
            /\ p_company p = _extract_company_name (p_description p)
            /\ p_duration_years p = _calculate_position_duration now (p_dates p))
         (career_progression (extract_experience_advanced rt now text)).
Proof.
  eapply Forall_impl; [| apply career_progression_from_lines].
  intros p (line & Hin & Hp).
  destruct (position_info_fields now (strip line) p Hp) as (Hd & Hdesc & Ht & Hc).
  rewrite Hdesc. split; [apply in_map; exact Hin |].
  unfold _extract_position_info in Hp.
  destruct (String.eqb (_extract_dates (strip line)) ""); [discriminate Hp |].
  injection Hp as <-. cbn. cbn in Hd. repeat split. exact Hd.
Qed.

Lemma set_len_le (l : list string) : set_len l <= length l.
Proof.
  unfold set_len. apply NoDup_incl_length; [apply NoDup_nodup |].
  intros x Hx. exact (proj1 (nodup_In string_dec l x) Hx).
Qed.

Lemma nonempty_In (x : string) (xs : list string) :
  In x (nonempty xs) <-> In x xs /\ x <> "".
Proof.
  unfold nonempty. rewrite filter_In, negb_true_iff, String.eqb_neq. reflexivity.
Qed.

Lemma nonempty_map_length {A : Type} (f : A -> string) (l : list A) :
  length (nonempty (map f l)) <= length l.
Proof.
  unfold nonempty.
  pose proof (filter_length_le (fun x => negb (String.eqb x "")) (map f l)) as H.
  rewrite length_map in H. exact H.
Qed.

(** X15: the companies worked for are pairwise different and not empty,
    each is the company of an entry of the career progression and has
    between 3 and 99 characters, and there are at most as many as entries;
    the same holds of the positions held, with between 4 and 99 characters. *)
Theorem companies_and_positions_spec (rt : PyRuntime) (now : datetime) (text : string) :
  let e := extract_experience_advanced rt now text in
  (NoDup (companies_worked e)
   /\ Forall (fun c => (exists p, In p (career_progression e) /\ p_company p = c)
                       /\ 2 < len c /\ len c < 100) (companies_worked e)
   /\ length (companies_worked e) <= length (career_progression e))
  /\ (NoDup (positions_held e)
      /\ Forall (fun t => (exists p, In p (career_progression e) /\ p_position p = t)
                          /\ 3 < len t /\ len t < 100) (positions_held e)
      /\ length (positions_held e) <= length (career_progression e)).
Proof.
  cbv zeta.
  pose proof (career_progression_from_lines rt now text) as Hfrom.
  rewrite Forall_forall in Hfrom.
  unfold extract_experience_advanced in *.
  cbn [companies_worked positions_held career_progression] in *.
  set (positions := match es_current (exp_scan now (split_lines text) exp_scan_init) with
                    | Some cur => append (es_positions _) cur
                    | None => es_positions _
                    end) in *.
  split; (split; [apply set_iter_NoDup | split]).
  - apply Forall_forall. intros c Hc.
    apply set_iter_In in Hc. apply nonempty_In in Hc. destruct Hc as [Hc Hne].
    apply in_map_iff in Hc. destruct Hc as (p & Hpc & Hp).
    split; [exists p; split; assumption |].
    destruct (Hfrom p Hp) as (line & _ & Hinfo).
    destruct (position_info_fields now _ p Hinfo) as (_ & _ & _ & Hcompany).
    rewrite <- Hpc, Hcompany. unfold _extract_company_name.
    destruct (first_group1_length company_patterns 2 100 (strip line)) as [E | E];
      [| exact E].
    exfalso. apply Hne. rewrite <- Hpc, Hcompany. exact E.
  - rewrite set_iter_length.
    eapply Nat.le_trans; [apply set_len_le | apply nonempty_map_length].
  - apply Forall_forall. intros t Ht.
    apply set_iter_In in Ht. apply nonempty_In in Ht. destruct Ht as [Ht Hne].
    apply in_map_iff in Ht. destruct Ht as (p & Hpt & Hp).
    split; [exists p; split; assumption |].
    destruct (Hfrom p Hp) as (line & _ & Hinfo).
    destruct (position_info_fields now _ p Hinfo) as (_ & _ & Htitle & _).
    rewrite <- Hpt, Htitle. unfold _extract_position_title.
    destruct (first_group1_length position_patterns 3 100 (strip line)) as [E | E];
      [| exact E].
    exfalso. apply Hne. rewrite <- Hpt, Htitle. exact E.
  - rewrite set_iter_length.
    eapply Nat.le_trans; [apply set_len_le | apply nonempty_map_length].
Qed.

Lemma first_key_in_table (table : list (string * list string)) (text_lower : string) :
  first_key_in table text_lower = ""
  \/ In (first_key_in table text_lower) (map fst table).
Proof.
  induction table as [| [key keywords] rest IH]; [left; reflexivity |].
  cbn [first_key_in map fst].
  destruct (any_in keywords text_lower).
  - right. left. reflexivity.
  - destruct IH as [IH | IH]; [left; exact IH | right; right; exact IH].
Qed.

(** X16: the key achievements are lines of the resume that hold an
    achievement word, with leading bullets and blanks removed, and each has
    more than 10 characters; the industry sectors are pairwise different
    sectors of the table, each detected on a line of the resume, so there
    are at most 10 of them. *)
Theorem achievements_and_sectors_spec (rt : PyRuntime) (now : datetime) (text : string) :
  let e := extract_experience_advanced rt now text in
  Forall (fun a => achievement_of_line (split_lines text) a /\ 10 < len a)
         (key_achievements e)
  /\ Forall (fun s => sector_of_line (split_lines text) s
                      /\ In s (map fst industry_sectors_table))
            (industry_sectors e)
  /\ NoDup (industry_sectors e)
  /\ length (industry_sectors e) <= 10.
Proof.
  cbv zeta. unfold extract_experience_advanced.
  cbn [key_achievements industry_sectors].
  destruct (exp_scan_from_lines now (split_lines text) (split_lines text) exp_scan_init
              (incl_refl _) (scan_from_lines_init now _)) as (_ & _ & Hach & Hsec & Hnd).
  assert (Htable : Forall (fun s => sector_of_line (split_lines text) s
                                    /\ In s (map fst industry_sectors_table))
                     (es_sectors (exp_scan now (split_lines text) exp_scan_init))).
  { eapply Forall_impl; [| exact Hsec].
    intros s [(line & Hin & Hs) Hne]. split; [exists line; split; assumption |].
    rewrite Hs in *. unfold _detect_industry_sector_advanced in *.
    destruct (first_key_in_table industry_sectors_table (lower (strip line))) as [E | E];
      [contradiction | exact E]. }
  split; [exact Hach |]. split; [exact Htable |]. split; [exact Hnd |].
  change 10 with (length (map fst industry_sectors_table)).
  apply NoDup_incl_length; [exact Hnd |].
  intros s Hs. rewrite Forall_forall in Htable. exact (proj2 (Htable s Hs)).
Qed.

(** *** Total experience *)

Lemma counted_years_fold (positions : list Position) : forall acc,
  fold_left (fun total position =>
               let duration := p_duration_years position in
               if (0 <? duration)%Z then (total + duration)%Z else total)
            positions acc
  = (acc + fold_right Z.add 0%Z (map counted_years positions))%Z.
Proof.
  induction positions as [| p rest IH]; intros acc; cbn [fold_left map fold_right].
  - lia.
  - rewrite IH. cbv zeta. unfold counted_years at 2.
    destruct (0 <? p_duration_years p)%Z eqn:E.
    + apply Z.ltb_lt in E. lia.
    + apply Z.ltb_ge in E. lia.
Qed.

Lemma counted_years_sum_nonneg (positions : list Position) :
  (0 <= fold_right Z.add 0%Z (map counted_years positions))%Z.
Proof.
  induction positions as [| p rest IH]; cbn [map fold_right]; [lia |].
  unfold counted_years at 1. lia.
Qed.

Lemma total_experience_closed_form (positions : list Position) :
  _calculate_total_experience_advanced positions
  = Z.min 50 (fold_right Z.add 0%Z (map counted_years positions)).
Proof.
  unfold _calculate_total_experience_advanced.
  destruct positions as [| p rest]; [reflexivity |].
  cbv zeta. rewrite counted_years_fold. lia.
Qed.

(** X17: the total experience of a resume is the sum of the durations of the
    positions that have a positive duration, capped at 50: it lies between 0
    and 50, and a position whose duration is zero or negative adds nothing.
    The number of career gaps is at most the number of positions. *)
Theorem total_experience_spec (rt : PyRuntime) (now : datetime) (text : string) :
  let e := extract_experience_advanced rt now text in
  total_experience_years e
  = Z.min 50 (fold_right Z.add 0%Z (map counted_years (career_progression e)))
  /\ (0 <= total_experience_years e)%Z
  /\ (total_experience_years e <= 50)%Z
  /\ career_gaps e <= length (career_progression e).
Proof.
  cbv zeta. unfold extract_experience_advanced.
  cbn [total_experience_years career_progression career_gaps].
  set (positions := match es_current (exp_scan now (split_lines text) exp_scan_init) with
                    | Some cur => append (es_positions _) cur
                    | None => es_positions _
                    end).
  rewrite total_experience_closed_form.
  pose proof (counted_years_sum_nonneg positions) as Hsum.
  split; [reflexivity |]. split; [lia |]. split; [lia |].
  unfold _detect_career_gaps.
  destruct (length positions <? 2); [lia | apply filter_length_le].
Qed.

(** *** A resume without an experience heading *)

Lemma exp_scan_closed now (lines : list string) : forall st,
  es_section st = false ->
  existsb experience_start lines = false ->
  exp_scan now lines st = st.
Proof.
  induction lines as [| line rest IH]; intros st Hst Hnone; [reflexivity |].
  cbn [existsb] in Hnone. apply orb_false_elim in Hnone. destruct Hnone as [Hline Hrest].
  rewrite exp_scan_cons, Hline, Hst. apply IH; assumption.
Qed.

(** X18: when no line of the resume holds an experience heading word,
    nothing is read as experience: no position, achievement or sector, zero
    years, the entry level and the trajectory of an early career. *)
Theorem no_experience_heading_no_experience (rt : PyRuntime) (now : datetime)
    (text : string) :
  existsb experience_start (split_lines text) = false ->
  extract_experience_advanced rt now text
  = {| total_experience_years := 0;
       experience_level := "Entry Level (0-1 years)";
       industry_sectors := [];
       key_achievements := [];
       career_progression := [];
       companies_worked := [];
       positions_held := [];
       career_gaps := 0;
       promotion_trajectory := "Early Career" |}.
Proof.
  intros Hnone. unfold extract_experience_advanced.
  rewrite (exp_scan_closed now (split_lines text) exp_scan_init eq_refl Hnone).
  cbn. rewrite set_iter_nil. reflexivity.
Qed.

Lemma no_experience_heading_no_experience_witness :
  extract_experience_advanced insertion_order sample_now
    ("Jane Doe" ++ nl ++ "Developer at Acme 2015 - 2020" ++ nl ++ "Led a team of five people")
  = {| total_experience_years := 0;
       experience_level := "Entry Level (0-1 years)";
       industry_sectors := [];
       key_achievements := [];
       career_progression := [];
       companies_worked := [];
       positions_held := [];
       career_gaps := 0;
       promotion_trajectory := "Early Career" |}.
Proof.
  apply (no_experience_heading_no_experience insertion_order sample_now
           ("Jane Doe" ++ nl ++ "Developer at Acme 2015 - 2020" ++ nl
            ++ "Led a team of five people")).
  vm_compute. reflexivity.
Defined.

(** *** Qualifications *)

Lemma first_level_table (levels : list (string * list re)) (text_lower : string) :
  first_level levels text_lower = ""
  \/ In (first_level levels text_lower) (map fst levels).
Proof.
  induction levels as [| [level patterns] rest IH]; [left; reflexivity |].
  cbn [first_level map fst].
  destruct (existsb (found no_flags text_lower) patterns).
  - right. left. reflexivity.
  - destruct IH as [IH | IH]; [left; exact IH | right; right; exact IH].
Qed.

Lemma qualification_confidence_bounds (text level : string) :
  (6 # 10 <= _calculate_qualification_confidence text level)%Q
  /\ (_calculate_qualification_confidence text level <= 1)%Q.
Proof.
  unfold _calculate_qualification_confidence. cbv zeta.
  split; [| apply Qmin_le_r].
  apply Qmin_ge; [| lra].
  destruct (truthy (_extract_institution_advanced text));
    destruct (truthy (_extract_field_of_study_advanced text));
    destruct (truthy (_extract_dates text)); lra.
Qed.

Lemma qual_scan_from_lines (lines : list string) : forall suffix education_section quals,
  incl suffix lines ->
  Forall (qualification_of_line lines) quals ->
  Forall (qualification_of_line lines) (qual_scan suffix education_section quals).
Proof.
  induction suffix as [| line rest IH]; intros education_section quals Hincl Hq; [exact Hq |].
  assert (Hrest : incl rest lines) by (intros x Hx; apply Hincl; right; exact Hx).
  rewrite qual_scan_cons.
  destruct (education_start line); [apply IH; assumption |].
  destruct education_section; [| apply IH; assumption].
  destruct (education_end line); [exact Hq |].
  destruct (_extract_qualification_details (strip line)) as [q |] eqn:Eq;
    [| apply IH; assumption].
  apply IH; [exact Hrest |]. apply Forall_append; [exact Hq |].
  exists line. split; [apply Hincl; left; reflexivity | exact Eq].
Qed.

Lemma qualification_details_spec (text : string) (q : QualInfo) :
  _extract_qualification_details text = Some q ->
  q_text q = text
  /\ q_level q = _detect_qualification_level_advanced text
  /\ In (q_level q)
        ["phd"; "masters"; "bachelors"; "diploma"; "certificate"; "high_school"]
  /\ q_institution q = _extract_institution_advanced text
  /\ q_field q = _extract_field_of_study_advanced text
  /\ q_dates q = _extract_dates text
  /\ (6 # 10 <= q_confidence q)%Q /\ (q_confidence q <= 1)%Q.
Proof.
  unfold _extract_qualification_details. cbv zeta.
  destruct (String.eqb (_detect_qualification_level_advanced text) "") eqn:E;
    [discriminate |].
  intros Hq. injection Hq as <-.
  cbn [q_text q_level q_institution q_field q_dates q_confidence].
  apply String.eqb_neq in E.
  split; [reflexivity |]. split; [reflexivity |].
  split.
  { unfold _detect_qualification_level_advanced in *.
    destruct (first_level_table qualification_levels (lower text)) as [E0 | E0];
      [contradiction | exact E0]. }
  split; [reflexivity |]. split; [reflexivity |]. split; [reflexivity |].
  apply qualification_confidence_bounds.
Qed.

Lemma all_qualifications_from_lines (text : string) :
  Forall (qualification_of_line (split_lines text))
         (all_qualifications (extract_qualifications_advanced text)).
Proof.
  rewrite all_qualifications_scan.
  apply (qual_scan_from_lines (split_lines text) (split_lines text) false []);
    [apply incl_refl | constructor].
Qed.

(** X19: every entry of the qualifications is read off a line of the
    resume on which a qualification level was detected: its text is that
    line without the surrounding blanks, its level is one of the six levels
    of the table, its institution, field and dates are those found on that
    line, and its confidence lies between 0.6 and 1. *)
Theorem qualification_entries_spec (text : string) :
  Forall (fun q =>
            In (q_text q) (map strip (split_lines text))
            /\ q_level q = _detect_qualification_level_advanced (q_text q)
            /\ In (q_level q)
                  ["phd"; "masters"; "bachelors"; "diploma"; "certificate"; "high_school"]
            /\ q_institution q = _extract_institution_advanced (q_text q)
            /\ q_field q = _extract_field_of_study_advanced (q_text q)
            /\ q_dates q = _extract_dates (q_text q)
            /\ (6 # 10 <= q_confidence q)%Q /\ (q_confidence q <= 1)%Q)
         (all_qualifications (extract_qualifications_advanced text)).
Proof.
  eapply Forall_impl; [| apply all_qualifications_from_lines].
  intros q (line & Hin & Hq).
  destruct (qualification_details_spec (strip line) q Hq)
    as (Htext & Hlevel & Hsix & Hinst & Hfield & Hdates & Hconf).
  rewrite Htext. split; [apply in_map; exact Hin |].
  repeat (split; [assumption |]). exact Hconf.
Qed.

Lemma max_by_priority_spec (quals : list QualInfo) : forall best,
  In (max_by_priority best quals) (best :: quals)
  /\ Forall (fun q => level_priority (q_level q)
                      <= level_priority (q_level (max_by_priority best quals)))
            (best :: quals).
Proof.
  induction quals as [| q rest IH]; intros best; cbn [max_by_priority].
  - split; [left; reflexivity |]. constructor; [apply Nat.le_refl | constructor].
  - destruct (level_priority (q_level best) <? level_priority (q_level q)) eqn:E.
    + apply Nat.ltb_lt in E. destruct (IH q) as [Hin Hall]. split.
      * right. exact Hin.
      * pose proof (Forall_inv Hall) as Hq. cbv beta in Hq.
        constructor; [lia | exact Hall].
    + apply Nat.ltb_ge in E. destruct (IH best) as [Hin Hall]. split.
      * destruct Hin as [Hin | Hin]; [left; exact Hin | right; right; exact Hin].
      * pose proof (Forall_inv Hall) as Hb. pose proof (Forall_inv_tail Hall) as Ht.
        cbv beta in Hb.
        constructor; [exact Hb |]. constructor; [lia | exact Ht].
Qed.

(** X20: a resume without qualification entries has an empty highest
    qualification and level; otherwise the highest qualification is one of
    the entries, the level is that entry's, and no entry has a level of
    greater priority. *)
Theorem highest_qualification_spec (text : string) :
  let quals := extract_qualifications_advanced text in
  (all_qualifications quals = []
   /\ highest_qualification quals = "" /\ qualification_level quals = "")
  \/ (exists q,
        In q (all_qualifications quals)
        /\ highest_qualification quals = q_text q
        /\ qualification_level quals = q_level q
        /\ qualification_level quals <> ""
        /\ Forall (fun q' => level_priority (q_level q') <= level_priority (q_level q))
                  (all_qualifications quals)).
Proof.
  cbv zeta.
  pose proof (all_qualifications_from_lines text) as Hentries.
  unfold extract_qualifications_advanced in *.
  destruct (qual_scan (split_lines text) false []) as [| q rest];
    [left; repeat split |].
  right. cbn [all_qualifications highest_qualification qualification_level] in *.
  destruct (max_by_priority_spec rest q) as [Hin Hmax].
  exists (max_by_priority q rest).
  split; [exact Hin |]. split; [reflexivity |]. split; [reflexivity |].
  split; [| exact Hmax].
  rewrite Forall_forall in Hentries.
  destruct (Hentries _ Hin) as (line & _ & Hq).
  destruct (qualification_details_spec (strip line) _ Hq) as (_ & _ & Hlevel & _).
  intros E. rewrite E in Hlevel. cbn in Hlevel.
  repeat (destruct Hlevel as [Hlevel | Hlevel]; [discriminate Hlevel |]). exact Hlevel.
Qed.

Lemma qual_scan_closed (lines : list string) : forall quals,
  existsb education_start lines = false ->
  qual_scan lines false quals = quals.
Proof.
  induction lines as [| line rest IH]; intros quals Hnone; [reflexivity |].
  cbn [existsb] in Hnone. apply orb_false_elim in Hnone. destruct Hnone as [Hline Hrest].
  rewrite qual_scan_cons, Hline. apply IH. exact Hrest.
Qed.

(** X21: when no line of the resume holds an education heading word, no
    qualification is read, whatever degrees the lines mention. *)
Theorem no_education_heading_no_qualification (text : string) :
  existsb education_start (split_lines text) = false ->
  extract_qualifications_advanced text
  = {| highest_qualification := ""; qualification_level := "";
       all_qualifications := []; institutions := []; fields_of_study := [];
       qualification_details := [] |}.
Proof.
  intros Hnone. unfold extract_qualifications_advanced.
  rewrite (qual_scan_closed (split_lines text) [] Hnone). reflexivity.
Qed.

Lemma no_education_heading_no_qualification_witness :
  extract_qualifications_advanced
    ("Jane Doe" ++ nl ++ "BSc Computer Science, University of Zimbabwe 2012 - 2015")
  = {| highest_qualification := ""; qualification_level := "";
       all_qualifications := []; institutions := []; fields_of_study := [];
       qualification_details := [] |}.
Proof.
  apply (no_education_heading_no_qualification
           ("Jane Doe" ++ nl ++ "BSc Computer Science, University of Zimbabwe 2012 - 2015")).
  vm_compute. reflexivity.
Defined.

(** *** Skills *)

Lemma category_entries_spec category skills text_lower :
  Forall (fun info =>
            s_category info = category
            /\ In (s_skill info) skills
            /\ s_frequency info
               = length (findall no_flags (whole_word (s_skill info)) text_lower)
            /\ 1 <= s_frequency info)
         (category_entries category skills text_lower).
Proof.
  induction skills as [| skill rest IH]; cbn [category_entries]; [constructor |].
  assert (Hrest : Forall (fun info =>
                            s_category info = category
                            /\ In (s_skill info) (skill :: rest)
                            /\ s_frequency info
                               = length (findall no_flags (whole_word (s_skill info))
                                           text_lower)
                            /\ 1 <= s_frequency info)
                         (category_entries category rest text_lower)).
  { eapply Forall_impl; [| exact IH]. intros info (H1 & H2 & H3 & H4).
    repeat split; try assumption. right. exact H2. }
  cbv zeta.
  destruct (findall no_flags (whole_word skill) text_lower) as [| m ms] eqn:E;
    [exact Hrest |].
  constructor; [| exact Hrest].
  cbn [s_category s_skill s_frequency]. rewrite E.
  repeat split; [left; reflexivity | cbn; lia].
Qed.

Lemma found_skills_spec table text_lower :
  Forall (fun entry =>
            snd entry <> []
            /\ exists skills,
                 In (fst entry, skills) table
                 /\ snd entry = category_entries (fst entry) skills text_lower)
         (found_skills table text_lower).
Proof.
  induction table as [| [category skills] rest IH]; cbn [found_skills]; [constructor |].
  assert (Hrest : Forall (fun entry =>
                            snd entry <> []
                            /\ exists skills0,
                                 In (fst entry, skills0) ((category, skills) :: rest)
                                 /\ snd entry
                                    = category_entries (fst entry) skills0 text_lower)
                         (found_skills rest text_lower)).
  { eapply Forall_impl; [| exact IH]. intros entry (H1 & skills0 & H2 & H3).
    split; [exact H1 |]. exists skills0. split; [right; exact H2 | exact H3]. }
  destruct (category_entries category skills text_lower) as [| info infos] eqn:E;
    [exact Hrest |].
  constructor; [| exact Hrest]. cbn [fst snd]. split; [discriminate |].
  exists skills. split; [left; reflexivity | symmetry; exact E].
Qed.

Lemma found_skills_categories table text_lower :
  NoDup (map fst table) -> NoDup (map fst (found_skills table text_lower)).
Proof.
  induction table as [| [category skills] rest IH]; cbn [found_skills map fst];
    [intros _; constructor |].
  intros Hnd. apply NoDup_cons_iff in Hnd. destruct Hnd as [Hnotin Hnd].
  destruct (category_entries category skills text_lower); [apply IH; exact Hnd |].
  cbn [map fst]. constructor; [| apply IH; exact Hnd].
  intros Hin. apply Hnotin.
  apply in_map_iff in Hin. destruct Hin as ([c infos] & Hc & Hin). cbn in Hc. subst c.
  pose proof (found_skills_spec rest text_lower) as Hspec.
  rewrite Forall_forall in Hspec.
  destruct (Hspec _ Hin) as (_ & skills0 & Hin0 & _). cbn [fst] in Hin0.
  apply in_map_iff. exists (category, skills0). split; [reflexivity | exact Hin0].
Qed.

(** X22: every category of the skills found is a category of the keyword
    table, listed once and with at least one entry; every entry carries its
    category, is a keyword of that category, and its frequency is the
    number of whole-word occurrences of the keyword in the lower-cased
    text, at least 1. *)
Theorem skills_by_category_spec (text : string) :
  let s := extract_skills_comprehensive text in
  NoDup (map fst (skills_by_category s))
  /\ skill_categories_present s = map fst (skills_by_category s)
  /\ Forall (fun entry =>
               snd entry <> []
               /\ exists keywords,
                    In (fst entry, keywords) skill_keywords
                    /\ Forall (fun info =>
                                 s_category info = fst entry
                                 /\ In (s_skill info) keywords
                                 /\ s_frequency info
                                    = length (findall no_flags (whole_word (s_skill info))
                                                (lower text))
                                 /\ 1 <= s_frequency info)
                              (snd entry))
            (skills_by_category s).
Proof.
  cbv zeta. unfold extract_skills_comprehensive.
  cbn [skills_by_category skill_categories_present].
  split; [| split; [reflexivity |]].
  - apply found_skills_categories. vm_compute.
    repeat (constructor; [intros H; cbn in H; intuition discriminate |]). constructor.
  - eapply Forall_impl; [| apply found_skills_spec].
    intros entry (Hne & skills & Hin & Hentries). split; [exact Hne |].
    exists skills. split; [exact Hin |]. rewrite Hentries. apply category_entries_spec.
Qed.

Lemma list_sum_lengths {A B : Type} (entries : list (A * list B)) :
  list_sum (map (fun entry => length (snd entry)) entries) = length (flat_map snd entries).
Proof.
  induction entries as [| entry rest IH]; [reflexivity |].
  cbn [map flat_map]. rewrite length_app, <- IH. reflexivity.
Qed.

Lemma list_sum_ge_length {A : Type} (f : A -> nat) (l : list A) :
  Forall (fun x => 1 <= f x) l -> length l <= list_sum (map f l).
Proof.
  induction 1 as [| x l Hx Hl IH]; [apply Nat.le_refl |].
  cbn [map length]. change (list_sum (f x :: map f l)) with (f x + list_sum (map f l)). lia.
Qed.

Lemma list_sum_frequencies (entries : list (string * list SkillInfo)) :
  list_sum (map (fun entry => list_sum (map s_frequency (snd entry))) entries)
  = list_sum (map s_frequency (flat_map snd entries)).
Proof.
  induction entries as [| entry rest IH]; [reflexivity |].
  cbn [map flat_map]. rewrite map_app, list_sum_app, <- IH. reflexivity.
Qed.

Lemma found_skills_length table text_lower :
  length (found_skills table text_lower) <= length table.
Proof.
  induction table as [| [category skills] rest IH]; cbn [found_skills]; [apply Nat.le_refl |].
  destruct (category_entries category skills text_lower); cbn [length]; lia.
Qed.

Lemma skill_keywords_length : length skill_keywords = 25.
Proof. vm_compute. reflexivity. Qed.

Lemma found_skills_counts table text_lower :
  length (found_skills table text_lower)
  <= list_sum (map (fun entry => length (snd entry)) (found_skills table text_lower))
  /\ list_sum (map (fun entry => length (snd entry)) (found_skills table text_lower))
     <= list_sum (map (fun entry => list_sum (map s_frequency (snd entry)))
                      (found_skills table text_lower)).
Proof.
  pose proof (found_skills_spec table text_lower) as Hspec.
  split.
  - apply (list_sum_ge_length (fun entry => length (snd entry))).
    eapply Forall_impl; [| exact Hspec].
    intros entry (Hne & _). destruct (snd entry); [contradiction | cbn; lia].
  - rewrite list_sum_frequencies, list_sum_lengths. apply list_sum_ge_length.
    apply Forall_flat_map. eapply Forall_impl; [| exact Hspec].
    intros entry (_ & keywords & _ & Hinfos). rewrite Hinfos.
    eapply Forall_impl; [| apply category_entries_spec].
    intros info (_ & _ & _ & H). exact H.
Qed.

(** X23: the counts of the skills found agree with the entries: the
    number of skills is the number of entries of all categories, the number
    of occurrences is the sum of their frequencies, the diversity is the
    number of categories present, at most 25; and diversity, number of
    skills and number of occurrences are in increasing order. *)
Theorem skill_counts_spec (text : string) :
  let s := extract_skills_comprehensive text in
  total_skills s = length (flat_map snd (skills_by_category s))
  /\ total_skill_occurrences s
     = list_sum (map s_frequency (flat_map snd (skills_by_category s)))
  /\ skill_diversity s = length (skill_categories_present s)
  /\ skill_diversity s <= 25
  /\ skill_diversity s <= total_skills s
  /\ total_skills s <= total_skill_occurrences s.
Proof.
  cbv zeta. unfold extract_skills_comprehensive.
  cbn [total_skills total_skill_occurrences skill_diversity skill_categories_present
       skills_by_category].
  generalize skill_keywords_length. generalize skill_keywords. intros table Htable.
  destruct (found_skills_counts table (lower text)) as [H1 H2].
  split; [apply list_sum_lengths |]. split; [apply list_sum_frequencies |].
  split; [rewrite length_map; reflexivity |].
  split; [rewrite <- Htable; apply found_skills_length |].
  split; assumption.
Qed.

(** *** Top skills *)

Lemma all_skills_entries (by_category : list (string * list SkillInfo)) :
  flat_map (fun entry =>
              map (fun skill_data =>
                     {| t_skill := s_skill skill_data;
                        t_category := s_category skill_data;
                        t_score := (s_confidence skill_data
                                    * PyNum.of_nat (s_frequency skill_data))%Q;
                        t_frequency := s_frequency skill_data;
                        t_confidence := s_confidence skill_data |})
                  (snd entry)) by_category
  = map skill_entry (flat_map snd by_category).
Proof.
  induction by_category as [| entry rest IH]; [reflexivity |].
  cbn [flat_map]. rewrite map_app, IH. reflexivity.
Qed.

Lemma insert_by_score_perm (x : TopSkill) (sorted : list TopSkill) :
  Permutation (insert_by_score x sorted) (x :: sorted).
Proof.
  induction sorted as [| y rest IH]; cbn [insert_by_score]; [apply Permutation_refl |].
  destruct (PyNum.Qlt_bool (t_score x) (t_score y)); [| apply Permutation_refl].
  eapply Permutation_trans; [apply perm_skip; exact IH | apply perm_swap].
Qed.

Lemma sort_by_score_perm (xs : list TopSkill) : Permutation (sort_by_score xs) xs.
Proof.
  induction xs as [| x rest IH]; [apply Permutation_refl |].
  unfold sort_by_score in *. cbn [fold_right].
  eapply Permutation_trans; [apply insert_by_score_perm | apply perm_skip; exact IH].
Qed.

Lemma Qlt_bool_iff (a b : Q) : PyNum.Qlt_bool a b = true <-> (a < b)%Q.
Proof.
  unfold PyNum.Qlt_bool. rewrite negb_true_iff. split; intros H.
  - apply Qnot_le_lt. intros Hle. apply Qle_bool_iff in Hle. rewrite Hle in H. discriminate H.
  - destruct (Qle_bool b a) eqn:E; [| reflexivity].
    apply Qle_bool_iff in E. exfalso. exact (Qlt_not_le _ _ H E).
Qed.

Lemma Qlt_bool_false (a b : Q) : PyNum.Qlt_bool a b = false -> (b <= a)%Q.
Proof.
  intros H. apply Qnot_lt_le. intros Hlt.
  apply Qlt_bool_iff in Hlt. rewrite Hlt in H. discriminate H.
Qed.

Lemma insert_by_score_sorted (x : TopSkill) (sorted : list TopSkill) :
  StronglySorted (fun a b => (t_score b <= t_score a)%Q) sorted ->
  StronglySorted (fun a b => (t_score b <= t_score a)%Q) (insert_by_score x sorted).
Proof.
  induction 1 as [| y rest Hrest IH Hy]; cbn [insert_by_score].
  - constructor; constructor.
  - destruct (PyNum.Qlt_bool (t_score x) (t_score y)) eqn:E.
    + constructor; [exact IH |].
      eapply Permutation_Forall; [apply Permutation_sym; apply insert_by_score_perm |].
      constructor; [| exact Hy]. apply Qlt_le_weak. apply Qlt_bool_iff. exact E.
    + apply Qlt_bool_false in E. constructor; [constructor; assumption |].
      constructor; [exact E |].
      eapply Forall_impl; [| exact Hy]. intros z Hz. cbv beta in *.
      eapply Qle_trans; [exact Hz | exact E].
Qed.

Lemma sort_by_score_sorted (xs : list TopSkill) :
  StronglySorted (fun a b => (t_score b <= t_score a)%Q) (sort_by_score xs).
Proof.
  induction xs as [| x rest IH]; [constructor |].
  unfold sort_by_score in *. cbn [fold_right]. apply insert_by_score_sorted. exact IH.
Qed.

Lemma StronglySorted_app_inv {A : Type} (R : A -> A -> Prop) (l1 l2 : list A) :
  StronglySorted R (l1 ++ l2) ->
  StronglySorted R l1 /\ Forall (fun a => Forall (R a) l2) l1.
Proof.
  induction l1 as [| a l1 IH]; cbn [app]; intros H.
  - split; constructor.
  - apply StronglySorted_inv in H. destruct H as [Hs Ha].
    destruct (IH Hs) as [H1 H2]. apply Forall_app in Ha. destruct Ha as [Ha1 Ha2].
    split; constructor; assumption.
Qed.

(** X24: the top skills are the 15 entries of greatest score, or all of
    them when there are fewer: together with the entries left out they are a
    rearrangement of the entries of all categories, they are listed by
    decreasing score, and no entry left out has a greater score than a top
    skill.  The score of an entry is its confidence times its frequency. *)
Theorem top_skills_spec (text : string) :
  let s := extract_skills_comprehensive text in
  exists rest,
    Permutation (top_skills s ++ rest)
                (map skill_entry (flat_map snd (skills_by_category s)))
    /\ length (top_skills s) = Nat.min 15 (total_skills s)
    /\ StronglySorted (fun a b => (t_score b <= t_score a)%Q) (top_skills s)
    /\ Forall (fun t => Forall (fun u => (t_score u <= t_score t)%Q) rest) (top_skills s).
Proof.
  cbv zeta. unfold extract_skills_comprehensive.
  cbn [top_skills skills_by_category total_skills].
  generalize (found_skills skill_keywords (lower text)). intros entries.
  rewrite list_sum_lengths.
  unfold _get_top_skills_advanced. cbv zeta. rewrite all_skills_entries.
  set (all_skills := map skill_entry (flat_map snd entries)).
  exists (skipn 15 (sort_by_score all_skills)).
  rewrite firstn_skipn.
  split; [apply sort_by_score_perm |].
  split.
  { rewrite length_firstn, (Permutation_length (sort_by_score_perm all_skills)).
    unfold all_skills. rewrite length_map. reflexivity. }
  pose proof (sort_by_score_sorted all_skills) as Hsorted.
  rewrite <- (firstn_skipn 15 (sort_by_score all_skills)) in Hsorted.
  apply StronglySorted_app_inv in Hsorted. exact Hsorted.
Qed.

(** *** Reading the document *)

Lemma str_app_nil_r (s : string) : s ++ "" = s.
Proof. induction s as [| c s IH]; cbn; [reflexivity | rewrite IH; reflexivity]. Qed.

Lemma str_app_assoc (a b c : string) : (a ++ b) ++ c = a ++ b ++ c.
Proof. induction a as [| x a IH]; cbn; [reflexivity | rewrite IH; reflexivity]. Qed.

Lemma concat_cons (a : string) (l : list string) :
  String.concat "" (a :: l) = a ++ String.concat "" l.
Proof. destruct l; cbn; [rewrite str_app_nil_r |]; reflexivity. Qed.

Lemma read_pages_until_failure (texts : list string) (tail : list (outcome string)) :
  (tail = [] \/ exists e rest, tail = Raise e :: rest) ->
  forall text,
    read_pages (map Return texts ++ tail)%list text
    = text ++ String.concat "" (map (fun page_text => page_text ++ String newline "") texts).
Proof.
  intros Htail. induction texts as [| t texts IH]; intros text; cbn [map app].
  - change (String.concat "" []) with "". rewrite str_app_nil_r.
    destruct Htail as [-> | (e & rest & ->)]; reflexivity.
  - cbn [read_pages]. rewrite IH, concat_cons, !str_app_assoc. reflexivity.
Qed.

(** X25: a file type other than pdf and docx, in any letter case, gives
    no text, whatever the file holds, and the parse of such a file is the
    error "Could not extract text from file". *)
Theorem unsupported_file_type_gives_no_text (lib : DocLib) (h : Hashlib) (rt : PyRuntime)
    (clock : Clock) (file_path file_type : string) :
  String.eqb (lower file_type) "pdf" = false ->
  String.eqb (lower file_type) "docx" = false ->
  extract_text_from_file lib file_path file_type = ""
  /\ parse_resume lib h rt clock file_path file_type
     = Return (ParseError "Could not extract text from file").
Proof.
  intros Hpdf Hdocx.
  assert (E : extract_text_from_file lib file_path file_type = "").
  { unfold extract_text_from_file. cbv zeta. rewrite Hpdf, Hdocx. reflexivity. }
  split; [exact E |]. unfold parse_resume. rewrite E. reflexivity.
Qed.

Lemma unsupported_file_type_gives_no_text_witness :
  extract_text_from_file (pdf_of cv_python) "resume.txt" "TXT" = ""
  /\ parse_resume (pdf_of cv_python) sample_hashlib insertion_order sample_clock
       "resume.txt" "TXT"
     = Return (ParseError "Could not extract text from file").
Proof.
  apply (unsupported_file_type_gives_no_text (pdf_of cv_python) sample_hashlib
           insertion_order sample_clock "resume.txt" "TXT"); reflexivity.
Defined.

(** X26: the text of a PDF is the text of its pages in order, each
    followed by a newline; when a page cannot be read, the pages before it
    are kept and the pages after it are not read. *)
Theorem pdf_text_keeps_the_pages_before_a_failure (lib : DocLib)
    (file_path file_type : string) (texts : list string) (tail : list (outcome string)) :
  lower file_type = "pdf" ->
  PdfReader lib file_path = Return (map Return texts ++ tail)%list ->
  (tail = [] \/ exists e rest, tail = Raise e :: rest) ->
  extract_text_from_file lib file_path file_type
  = String.concat "" (map (fun page_text => page_text ++ String newline "") texts).
Proof.
  intros Htype Hpages Htail. unfold extract_text_from_file. cbv zeta.
  rewrite Htype, Hpages. cbn [String.eqb Ascii.eqb Bool.eqb andb].
  change (String.eqb "pdf" "pdf") with true. cbv iota.
  rewrite (read_pages_until_failure texts tail Htail). reflexivity.
Qed.

Lemma pdf_text_keeps_the_pages_before_a_failure_witness :
  extract_text_from_file
    {| PdfReader := fun _ => Return [Return "Jane Doe"; Return "Skills: python";
                                     Raise "cannot decode the page"; Return "Harare"];
       Document := fun _ => Raise "not a docx file" |}
    "resume.pdf" "PDF"
  = "Jane Doe" ++ nl ++ "Skills: python" ++ nl.
Proof.
  apply (pdf_text_keeps_the_pages_before_a_failure
           {| PdfReader := fun _ => Return [Return "Jane Doe"; Return "Skills: python";
                                            Raise "cannot decode the page";
                                            Return "Harare"];
              Document := fun _ => Raise "not a docx file" |}
           "resume.pdf" "PDF" ["Jane Doe"; "Skills: python"]
           [Raise "cannot decode the page"; Return "Harare"]).
  - reflexivity.
  - reflexivity.
  - right. exists "cannot decode the page", [Return "Harare"]. reflexivity.
Defined.

(** *** Removing the characters of a class *)

Lemma take_drop (n : nat) : forall s : string, take n s ++ drop n s = s.
Proof.
  induction n as [| n IH]; intros s; [destruct s; reflexivity |].
  destruct s as [| c s]; [reflexivity |]. cbn [take drop String.append]. rewrite IH. reflexivity.
Qed.

Lemma drop_drop (n k : nat) : forall s : string, drop k (drop n s) = drop (n + k) s.
Proof.
  induction n as [| n IH]; intros s.
  - destruct s; destruct k; reflexivity.
  - destruct s as [| c s]; [destruct k; reflexivity |]. cbn [drop Nat.add]. apply IH.
Qed.

Lemma take_add (n k : nat) : forall s : string, take (n + k) s = take n s ++ take k (drop n s).
Proof.
  induction n as [| n IH]; intros s.
  - destruct s; destruct k; reflexivity.
  - destruct s as [| c s]; [destruct k; reflexivity |].
    cbn [take drop Nat.add String.append]. rewrite IH. reflexivity.
Qed.

Lemma drop_from_slice (pos0 pos : nat) (text : string) :
  pos0 <= pos -> drop pos0 text = slice pos0 pos text ++ drop pos text.
Proof.
  intros Hle. unfold slice.
  replace pos with (pos0 + (pos - pos0)) at 2 by lia.
  rewrite <- drop_drop. symmetry. apply take_drop.
Qed.

Lemma slice_extend (pos0 pos k : nat) (text : string) :
  pos0 <= pos -> slice pos0 (pos + k) text = slice pos0 pos text ++ take k (drop pos text).
Proof.
  intros Hle. unfold slice.
  replace (pos + k - pos0) with ((pos - pos0) + k) by lia.
  rewrite take_add, drop_drop. replace (pos0 + (pos - pos0)) with pos by lia. reflexivity.
Qed.

Lemma len_drop_lt (k : nat) : forall (s : string) (c : ascii) (t : string),
  drop k s = String c t -> len t < len s.
Proof.
  induction k as [| k IH]; intros s c t H.
  - destruct s; cbn in H; [discriminate H |]. injection H as _ ->. unfold len. cbn [String.length]. lia.
  - destruct s as [| c0 s]; cbn in H; [discriminate H |].
    pose proof (IH s c t H) as Hlt. unfold len in *. cbn [String.length]. lia.
Qed.

Lemma all_chars_app (p : ascii -> bool) (a b : string) :
  all_chars p (a ++ b) = all_chars p a && all_chars p b.
Proof.
  induction a as [| c a IH]; [reflexivity |].
  cbn [String.append all_chars]. rewrite IH. apply andb_assoc.
Qed.

Section RemoveClass.
Variable bad : ascii -> bool.
Variable text : string.

Lemma search_at_class : forall rest prev pos,
  match search_at no_flags (Cls bad) text prev rest pos with
  | None => all_chars (fun c => negb (bad c)) rest = true
  | Some m =>
      exists k c t,
        mo_start m = pos + k
        /\ m_pos (mo_end m) = S (pos + k)
        /\ m_rest (mo_end m) = t
        /\ m_prev (mo_end m) = Some c
        /\ drop k rest = String c t
        /\ all_chars (fun c => negb (bad c)) (take k rest) = true
  end.
Proof.
  induction rest as [| x rest IH]; intros prev pos; rewrite search_at_step.
  - reflexivity.
  - cbn [run step_char m_rest cls_ok no_flags IGNORECASE].
    destruct (bad x) eqn:Ex.
    + exists 0, x, rest. cbn. rewrite Nat.add_0_r. repeat split.
    + specialize (IH (Some x) (S pos)).
      destruct (search_at no_flags (Cls bad) text (Some x) rest (S pos)) as [m |].
      * destruct IH as (k & c & t & H1 & H2 & H3 & H4 & H5 & H6).
        exists (S k), c, t. rewrite Nat.add_succ_r.
        repeat split; try assumption.
        cbn [take all_chars]. rewrite Ex, H6. reflexivity.
      * cbn [all_chars]. rewrite Ex, IH. reflexivity.
Qed.

Lemma sub_class_from : forall fuel rest prev pos pos0,
  len rest < fuel ->
  rest = drop pos text ->
  pos0 <= pos ->
  all_chars (fun c => negb (bad c)) (slice pos0 pos text) = true ->
  all_chars (fun c => negb (bad c))
    (sub_from (matches_from fuel no_flags (Cls bad) text prev rest pos) "" text pos0)
  = true.
Proof.
  induction fuel as [| fuel IH]; intros rest prev pos pos0 Hfuel Hrest Hle Hkept;
    [lia |].
  cbn [matches_from].
  pose proof (search_at_class rest prev pos) as Hsearch.
  destruct (search_at no_flags (Cls bad) text prev rest pos) as [m |].
  - destruct Hsearch as (k & c & t & Hstart & Hend & Ht & Hprev & Hdrop & Htake).
    cbv zeta. rewrite Hend, Hstart.
    replace (S (pos + k) =? pos + k) with false by (symmetry; apply Nat.eqb_neq; lia).
    cbn [sub_from]. rewrite Hstart, Hend.
    rewrite slice_extend by exact Hle.
    rewrite !all_chars_app, Hkept, <- Hrest, Htake. cbn [all_chars andb String.append].
    rewrite Ht. apply IH.
    + pose proof (len_drop_lt k rest c t Hdrop). lia.
    + rewrite Hrest, drop_drop in Hdrop. symmetry. eapply drop_succ. exact Hdrop.
    + apply Nat.le_refl.
    + unfold slice. rewrite Nat.sub_diag. destruct (drop (S (pos + k)) text); reflexivity.
  - cbn [sub_from]. rewrite (drop_from_slice pos0 pos text Hle), all_chars_app.
    rewrite Hkept, <- Hrest, Hsearch. reflexivity.
Qed.

End RemoveClass.

(** [re.sub] of a one-character class by the empty text leaves no character
    of the class. *)
Lemma sub_class_removed (bad : ascii -> bool) (s : string) :
  all_chars (fun c => negb (bad c)) (sub no_flags (Cls bad) "" s) = true.
Proof.
  unfold sub, finditer. apply sub_class_from.
  - lia.
  - destruct s; reflexivity.
  - apply Nat.le_refl.
  - unfold slice. cbn [Nat.sub take]. destruct (drop 0 s); reflexivity.
Qed.

Lemma all_chars_ext (p q : ascii -> bool) (s : string) :
  (forall c, p c = q c) -> all_chars p s = all_chars q s.
Proof.
  intros H. induction s as [| c s IH]; [reflexivity |].
  cbn [all_chars]. rewrite H, IH. reflexivity.
Qed.

(** *** Phone number *)

Lemma first_phone_spec (matches : list string) (phone : string) :
  first_phone matches = Some phone ->
  7 <= len phone /\ len phone <= 15
  /\ all_chars (fun c => is_digit c || Ascii.eqb c "+") phone = true.
Proof.
  induction matches as [| m rest IH]; cbn [first_phone]; [discriminate |].
  cbv zeta.
  match goal with |- context [(7 <=? ?n) && (?n <=? 15)] =>
    destruct ((7 <=? n) && (n <=? 15)) eqn:E end; [| exact IH].
  intros H. injection H as <-.
  apply andb_prop in E. destruct E as [E1 E2].
  apply Nat.leb_le in E1. apply Nat.leb_le in E2.
  split; [exact E1 |]. split; [exact E2 |].
  etransitivity;
    [| apply (sub_class_removed (fun x => negb (is_digit x || Ascii.eqb x "+")) m)].
  apply all_chars_ext. intros c. symmetry. apply negb_involutive.
Qed.

(** X27: the phone number extracted from a text is empty, or has between
    7 and 15 characters, each of them a digit or a plus sign. *)
Theorem extract_phone_number_spec (text : string) :
  extract_phone_number text = ""
  \/ (7 <= len (extract_phone_number text)
      /\ len (extract_phone_number text) <= 15
      /\ all_chars (fun c => is_digit c || Ascii.eqb c "+") (extract_phone_number text)
         = true).
Proof.
  unfold extract_phone_number. generalize phone_patterns. intros patterns.
  induction patterns as [| [grouped pattern] rest IH]; cbn [scan_phone_patterns];
    [left; reflexivity |].
  cbv zeta.
  destruct (first_phone (if grouped then findall_group1 no_flags pattern text
                         else findall no_flags pattern text)) as [phone |] eqn:E;
    [| exact IH].
  right. exact (first_phone_spec _ phone E).
Qed.

(** *** The parts of a parsed resume *)

Lemma len_take (n : nat) : forall s : string, len (take n s) <= n.
Proof.
  induction n as [| n IH]; intros s; [destruct s; cbn; lia |].
  destruct s as [| c s]; [cbn; lia |].
  pose proof (IH s) as H. unfold len in *. cbn [take String.length]. lia.
Qed.

Lemma skills_list_length {A B C : Type} (f : B -> C) (entries : list (A * list B)) :
  length (flat_map (fun entry => map f (snd entry)) entries)
  = list_sum (map (fun entry => length (snd entry)) entries).
Proof.
  induction entries as [| entry rest IH]; [reflexivity |].
  cbn [flat_map map]. rewrite length_app, length_map, IH. reflexivity.
Qed.

Lemma parsed_resume_parts lib h rt clock file_path file_type resume_data :
  parse_resume lib h rt clock file_path file_type = Return (Parsed resume_data) ->
  let raw_text := extract_text_from_file lib file_path file_type in
  raw_text <> ""
  /\ phone_number resume_data = extract_phone_number raw_text
  /\ resume_code resume_data
     = generate_confidential_code h (at_code clock) (extract_phone_number raw_text) raw_text
  /\ qualifications resume_data = extract_qualifications_advanced raw_text
  /\ skills resume_data = extract_skills_comprehensive raw_text
  /\ experience resume_data = extract_experience_advanced rt (at_scan clock) raw_text
  /\ awards_certifications resume_data = extract_awards_certifications_advanced raw_text
  /\ skills_list resume_data
     = flat_map (fun entry =>
                   map (fun skill_info =>
                          (s_skill skill_info, s_category skill_info,
                           s_confidence skill_info)) (snd entry))
                (skills_by_category (extract_skills_comprehensive raw_text))
  /\ processed_text resume_data = take 1500 raw_text
  /\ analysis_metadata resume_data
     = {| skill_categories_found :=
            length (skills_by_category (extract_skills_comprehensive raw_text));
          total_skills_identified := total_skills (extract_skills_comprehensive raw_text);
          experience_years :=
            total_experience_years
              (extract_experience_advanced rt (at_scan clock) raw_text);
          metadata_qualification_level :=
            qualification_level (extract_qualifications_advanced raw_text);
          industries_identified :=
            industry_sectors (extract_experience_advanced rt (at_scan clock) raw_text) |}.
Proof.
  unfold parse_resume. cbv zeta.
  destruct (extract_text_from_file lib file_path file_type) as [| c raw] eqn:E;
    cbv beta iota delta [truthy negb String.eqb try_except]; intros H;
    [discriminate H |].
  pose proof (f_equal (fun o => match o with
                                | Return (Parsed rd) => rd
                                | _ => blank_resume
                                end) H) as Hrd.
  cbv beta iota in Hrd. rewrite <- Hrd.
  split; [discriminate |]. repeat split.
Qed.

(** X28: the parts of a parsed resume agree with each other: the skills
    list has one entry per skill found, the metadata repeats the counts,
    years, level and sectors of the parts, the years lie between 0 and 50,
    and the stored text is the start of the extracted text, between 1 and
    1500 characters. *)
Theorem parsed_resume_is_consistent (lib : DocLib) (h : Hashlib) (rt : PyRuntime)
    (clock : Clock) (file_path file_type : string) (resume_data : ResumeData) :
  parse_resume lib h rt clock file_path file_type = Return (Parsed resume_data) ->
  let metadata := analysis_metadata resume_data in
  length (skills_list resume_data) = total_skills (skills resume_data)
  /\ total_skills_identified metadata = total_skills (skills resume_data)
  /\ skill_categories_found metadata = skill_diversity (skills resume_data)
  /\ experience_years metadata = total_experience_years (experience resume_data)
  /\ (0 <= experience_years metadata)%Z /\ (experience_years metadata <= 50)%Z
  /\ metadata_qualification_level metadata
     = qualification_level (qualifications resume_data)
  /\ industries_identified metadata = industry_sectors (experience resume_data)
  /\ processed_text resume_data
     = take 1500 (extract_text_from_file lib file_path file_type)
  /\ 1 <= len (processed_text resume_data) /\ len (processed_text resume_data) <= 1500.
Proof.
  intros Hparse.
  destruct (parsed_resume_parts lib h rt clock file_path file_type resume_data Hparse)
    as (Hraw & _ & _ & Hquals & Hskills & Hexp & _ & Hlist & Htext & Hmeta).
  cbv zeta in *. rewrite Hmeta, Hlist, Hskills, Hexp, Hquals, Htext.
  cbn [total_skills_identified skill_categories_found experience_years
       metadata_qualification_level industries_identified].
  set (raw_text := extract_text_from_file lib file_path file_type) in *.
  assert (Hyears : (0 <= total_experience_years
                          (extract_experience_advanced rt (at_scan clock) raw_text)
                    <= 50)%Z).
  { unfold extract_experience_advanced. cbn [total_experience_years].
    rewrite total_experience_closed_form.
    match goal with |- context [map counted_years ?l] =>
      pose proof (counted_years_sum_nonneg l) end. lia. }
  assert (Hlen : 1 <= len (take 1500 raw_text)).
  { destruct raw_text; [contradiction |]. unfold len. cbn [take String.length]. lia. }
  pose proof (len_take 1500 raw_text) as Htake.
  revert Hyears Hlen Htake.
  generalize (extract_experience_advanced rt (at_scan clock) raw_text).
  generalize (extract_qualifications_advanced raw_text).
  generalize (take 1500 raw_text).
  unfold extract_skills_comprehensive.
  cbn [total_skills skills_by_category skill_diversity].
  generalize (found_skills skill_keywords (lower raw_text)).
  intros entries stored quals e Hyears Hlen Htake.
  split; [apply skills_list_length |].
  repeat (split; [reflexivity |]).
  split; [apply Hyears |]. split; [apply Hyears |].
  repeat (split; [reflexivity |]).
  split; assumption.
Qed.

Lemma parsed_resume_is_consistent_witness :
  let resume_data := sample_resume cv_stack in
  let metadata := analysis_metadata resume_data in
  length (skills_list resume_data) = total_skills (skills resume_data)
  /\ total_skills_identified metadata = total_skills (skills resume_data)
  /\ skill_categories_found metadata = skill_diversity (skills resume_data)
  /\ experience_years metadata = total_experience_years (experience resume_data)
  /\ (0 <= experience_years metadata)%Z /\ (experience_years metadata <= 50)%Z
  /\ metadata_qualification_level metadata
     = qualification_level (qualifications resume_data)
  /\ industries_identified metadata = industry_sectors (experience resume_data)
  /\ processed_text resume_data
     = take 1500 (extract_text_from_file (pdf_of cv_stack) "resume.pdf" "pdf")
  /\ 1 <= len (processed_text resume_data) /\ len (processed_text resume_data) <= 1500.
Proof.
  apply (parsed_resume_is_consistent (pdf_of cv_stack) sample_hashlib insertion_order
           sample_clock "resume.pdf" "pdf" (sample_resume cv_stack)).
  vm_compute. reflexivity.
Defined.

(** *** Category breakdown *)

Lemma category_match_spec (rt : PyRuntime) (category_skills job_skills : list string) :
  NoDup job_skills ->
  let matches := set_inter category_skills job_skills in
  set_len matches = length (set_iter rt matches)
  /\ set_len matches <= length category_skills
  /\ set_len matches <= length job_skills
  /\ NoDup (set_iter rt matches)
  /\ Forall (fun skill => In skill job_skills /\ In skill category_skills)
            (set_iter rt matches).
Proof.
  intros Hnd. cbv zeta.
  split; [symmetry; apply set_iter_length |].
  split.
  { eapply Nat.le_trans; [apply set_len_le |]. apply filter_length_le. }
  split.
  { apply set_len_incl; [exact Hnd |]. intros x Hx. apply set_inter_In in Hx. apply Hx. }
  split; [apply set_iter_NoDup |].
  apply Forall_forall. intros x Hx. apply set_iter_In in Hx.
  apply set_inter_In in Hx. split; apply Hx.
Qed.

(** X29: the category breakdown has one entry for each category of the
    candidate's skills, in the same order; in each entry the matched skills
    are pairwise different skills of that category that the job asks for,
    their number is the match count, at most the number of skills of the
    category, and the match percentage lies between 0 and 100. *)
Theorem category_breakdown_spec (self : AdvancedScoringModel) (rt : PyRuntime)
    (skills_data : Skills) (job_description : string) :
  let fit := _analyze_skill_fit_advanced self rt skills_data job_description in
  let job_skills := _extract_skills_with_context_advanced self rt job_description in
  map fst (category_breakdown fit) = map fst (skills_by_category skills_data)
  /\ Forall2 (fun entry found =>
                let cm := snd entry in
                fst entry = fst found
                /\ cm_total_skills cm = length (snd found)
                /\ match_count cm = length (matched_skills cm)
                /\ match_count cm <= cm_total_skills cm
                /\ NoDup (matched_skills cm)
                /\ Forall (fun skill => In skill job_skills
                                        /\ In skill (map s_skill (snd found)))
                          (matched_skills cm)
                /\ (0 <= cm_match_percentage cm)%Q
                /\ (cm_match_percentage cm <= 100)%Q)
             (category_breakdown fit) (skills_by_category skills_data).
Proof.
  cbv zeta. unfold _analyze_skill_fit_advanced. cbn [category_breakdown].
  pose proof (job_skills_NoDup self rt job_description) as Hnd.
  generalize dependent (_extract_skills_with_context_advanced self rt job_description).
  intros job_skills Hnd. unfold _analyze_skill_categories.
  split; [rewrite map_map; reflexivity |].
  induction (skills_by_category skills_data) as [| found rest IH]; cbn [map];
    constructor; [| exact IH].
  cbv zeta. cbn [fst snd match_count cm_total_skills cm_match_percentage matched_skills].
  destruct (category_match_spec rt (map s_skill (snd found)) job_skills Hnd)
    as (Hcount & Hle & Hjob & Hnodup & Hin).
  cbv zeta in *.
  split; [reflexivity |]. split; [apply length_map |]. split; [exact Hcount |].
  split; [exact Hle |]. split; [exact Hnodup |]. split; [exact Hin |].
  destruct job_skills as [| j js]; [split; lra |].
  apply percent_of_bounds; [cbn; lia | exact Hjob].
Qed.

(** *** Determinism up to the iteration order of sets *)

Lemma nodup_perm (a b : list string) :
  Permutation a b -> Permutation (nodup string_dec a) (nodup string_dec b).
Proof.
  intros H. apply NoDup_Permutation; try apply NoDup_nodup.
  intros x. rewrite !nodup_In. split; apply Permutation_in; [| apply Permutation_sym]; exact H.
Qed.

Lemma set_iter_perm2 (rt rt' : PyRuntime) (a b : list string) :
  Permutation a b -> Permutation (set_iter rt a) (set_iter rt' b).
Proof.
  intros H.
  eapply Permutation_trans; [apply set_iter_perm |].
  eapply Permutation_trans; [apply nodup_perm; exact H |].
  apply Permutation_sym. apply set_iter_perm.
Qed.

Lemma set_len_perm (a b : list string) : Permutation a b -> set_len a = set_len b.
Proof. intros H. unfold set_len. apply Permutation_length. apply nodup_perm. exact H. Qed.

Lemma mem_perm (x : string) (a b : list string) : Permutation a b -> mem x a = mem x b.
Proof.
  intros H. destruct (mem x a) eqn:Ea; destruct (mem x b) eqn:Eb; try reflexivity.
  - apply mem_In in Ea. apply (Permutation_in _ H) in Ea. apply mem_In in Ea. congruence.
  - apply mem_In in Eb. apply (Permutation_in _ (Permutation_sym H)) in Eb.
    apply mem_In in Eb. congruence.
Qed.

Lemma set_inter_perm_r (a b b' : list string) :
  Permutation b b' -> set_inter a b = set_inter a b'.
Proof.
  intros H. unfold set_inter. apply filter_ext. intros x. apply mem_perm. exact H.
Qed.

Lemma filter_perm {A : Type} (f : A -> bool) (l l' : list A) :
  Permutation l l' -> Permutation (filter f l) (filter f l').
Proof.
  induction 1 as [| x l l' H IH | x y l | l l' l'' H IH H' IH']; cbn [filter].
  - constructor.
  - destruct (f x); [constructor |]; exact IH.
  - destruct (f x), (f y); try apply Permutation_refl. apply perm_swap.
  - eapply Permutation_trans; eassumption.
Qed.

Lemma match_nil_length {A B : Type} (l l' : list A) (x y : B) :
  length l = length l' ->
  match l with [] => x | _ :: _ => y end = match l' with [] => x | _ :: _ => y end.
Proof. destruct l, l'; cbn; intros H; try reflexivity; discriminate H. Qed.

Lemma job_skills_perm self self' rt rt' job_description :
  Permutation (_extract_skills_with_context_advanced self rt job_description)
              (_extract_skills_with_context_advanced self' rt' job_description).
Proof.
  unfold _extract_skills_with_context_advanced. cbv zeta.
  apply set_iter_perm2. apply Permutation_refl.
Qed.

Lemma skill_fit_up_to_order self self' rt rt' skills_data job_description :
  let fit := _analyze_skill_fit_advanced self rt skills_data job_description in
  let fit' := _analyze_skill_fit_advanced self' rt' skills_data job_description in
  match_percentage fit = match_percentage fit'
  /\ comprehensive_match_percentage fit = comprehensive_match_percentage fit'
  /\ Permutation (exact_matches fit) (exact_matches fit')
  /\ Permutation (critical_skill_gaps fit) (critical_skill_gaps fit')
  /\ Forall2 same_up_to_order (category_breakdown fit) (category_breakdown fit').
Proof.
  cbv zeta. unfold _analyze_skill_fit_advanced.
  cbn [match_percentage comprehensive_match_percentage exact_matches critical_skill_gaps
       category_breakdown].
  pose proof (job_skills_perm self self' rt rt' job_description) as Hperm.
  change (_flatten_skills_advanced self' skills_data)
    with (_flatten_skills_advanced self skills_data).
  generalize dependent (_extract_skills_with_context_advanced self' rt' job_description).
  generalize (_extract_skills_with_context_advanced self rt job_description).
  generalize (_flatten_skills_advanced self skills_data).
  intros flat js js' Hperm.
  pose proof (Permutation_length Hperm) as Hlen.
  rewrite (set_inter_perm_r flat js js' Hperm).
  assert (Hrelated : set_len (_find_related_skills_advanced self flat js)
                     = set_len (_find_related_skills_advanced self' flat js')).
  { apply set_len_perm. unfold _find_related_skills_advanced.
    apply Permutation_flat_map. exact Hperm. }
  rewrite Hrelated, Hlen.
  split; [f_equal; apply match_nil_length; exact Hlen |].
  split; [f_equal; apply match_nil_length; exact Hlen |].
  split; [apply set_iter_perm2; apply Permutation_refl |].
  split; [apply set_iter_perm2; unfold set_diff; apply filter_perm; exact Hperm |].
  unfold _analyze_skill_categories.
  induction (skills_by_category skills_data) as [| entry rest IH]; cbn [map];
    constructor; [| exact IH].
  unfold same_up_to_order. cbv zeta.
  cbn [fst snd match_count cm_total_skills cm_match_percentage matched_skills].
  rewrite (set_inter_perm_r _ js js' Hperm), Hlen.
  split; [reflexivity |]. split; [reflexivity |]. split; [reflexivity |].
  split; [apply match_nil_length; exact Hlen |].
  apply set_iter_perm2. apply Permutation_refl.
Qed.

Lemma experience_fit_self2 self self' :
  _analyze_experience_fit_advanced self = _analyze_experience_fit_advanced self'.
Proof. rewrite (experience_fit_self self), (experience_fit_self self'). reflexivity. Qed.

Lemma cultural_fit_up_to_order self self' rt rt' resume_data job_description :
  _analyze_cultural_fit_advanced self rt resume_data job_description
  = _analyze_cultural_fit_advanced self' rt' resume_data job_description.
Proof.
  rewrite (cultural_fit_self self), (cultural_fit_self self').
  unfold _analyze_cultural_fit_advanced, _assess_team_fit.
  destruct (skill_fit_up_to_order untrained untrained rt rt' (skills resume_data)
              job_description) as (_ & Hcomp & _).
  cbv zeta in Hcomp. rewrite Hcomp. reflexivity.
Qed.

Lemma strengths_weaknesses_up_to_order self self' rt rt' resume_data job_description :
  let sw := _identify_strengths_weaknesses self rt resume_data job_description in
  let sw' := _identify_strengths_weaknesses self' rt' resume_data job_description in
  strengths sw = strengths sw'
  /\ development_areas sw
     = firstn 3 (critical_skill_gaps
                   (_analyze_skill_fit_advanced self rt (skills resume_data) job_description))
  /\ exists rest,
       (weaknesses sw = rest /\ weaknesses sw' = rest)
       \/ (weaknesses sw = ("Skill gaps in: " ++ join ", " (development_areas sw)) :: rest
           /\ weaknesses sw'
              = ("Skill gaps in: " ++ join ", " (development_areas sw')) :: rest).
Proof.
  cbv zeta. unfold _identify_strengths_weaknesses. cbv zeta.
  cbn [strengths weaknesses development_areas].
  destruct (skill_fit_up_to_order self self' rt rt' (skills resume_data) job_description)
    as (_ & Hcomp & _).
  cbv zeta in Hcomp. rewrite Hcomp.
  split; [reflexivity |]. split; [reflexivity |].
  destruct (Qle_bool 70 _);
    destruct (3 <=? total_experience_years (experience resume_data))%Z.
  - exists []. left. split; reflexivity.
  - exists ["Limited professional experience"]. left. split; reflexivity.
  - exists []. right. split; reflexivity.
  - exists ["Limited professional experience"]. right. split; reflexivity.
Qed.

(** C9, amended: the report is determined up to the iteration order of
    Python sets.  For a fixed resume and job text, two invocations under the
    same iteration order return equal reports, whatever the attributes of
    the model.  Under two iteration orders [rt] and [rt'] the scores, the
    quality analysis, the priority, the recommendation texts, the questions,
    the resume code and the strengths are equal; the matching skills, the
    missing skills and the matched skills of each category are equal up to
    their order; the development areas of each report are the first three of
    its missing skills; and the weaknesses are equal except for the text
    "Skill gaps in: ...", which lists the development areas of its own
    report. *)
Theorem report_determined_up_to_set_order (self self' : AdvancedScoringModel)
    (rt rt' : PyRuntime) (job_requirements : string) (resume_data : ResumeData) :
  let r := generate_comprehensive_report self rt job_requirements resume_data in
  let r' := generate_comprehensive_report self' rt' job_requirements resume_data in
  let fit := job_fit_analysis r in
  let fit' := job_fit_analysis r' in
  let sw := report_strengths_weaknesses r in
  let sw' := report_strengths_weaknesses r' in
  generate_comprehensive_report self' rt job_requirements resume_data = r
  /\ (compatibility_score fit = compatibility_score fit'
      /\ skill_match fit = skill_match fit'
      /\ experience_match fit = experience_match fit'
      /\ education_match fit = education_match fit'
      /\ fit_analysis fit = fit_analysis fit')
  /\ (quality_analysis r = quality_analysis r'
      /\ interview_priority r = interview_priority r'
      /\ recommendation r = recommendation r'
      /\ report_interview_questions r = report_interview_questions r'
      /\ report_resume_code r = report_resume_code r'
      /\ confidential_lookup r = confidential_lookup r')
  /\ (Permutation (matching_skills fit) (matching_skills fit')
      /\ Permutation (missing_skills fit) (missing_skills fit')
      /\ Forall2 same_up_to_order (skill_match_breakdown fit) (skill_match_breakdown fit'))
  /\ (strengths sw = strengths sw'
      /\ development_areas sw = firstn 3 (missing_skills fit)
      /\ development_areas sw' = firstn 3 (missing_skills fit')
      /\ exists rest,
           (weaknesses sw = rest /\ weaknesses sw' = rest)
           \/ (weaknesses sw = ("Skill gaps in: " ++ join ", " (development_areas sw)) :: rest
               /\ weaknesses sw'
                  = ("Skill gaps in: " ++ join ", " (development_areas sw')) :: rest)).
Proof.
  cbv zeta.
  split; [rewrite (report_self self), (report_self self'); reflexivity |].
  destruct (skill_fit_up_to_order self self' rt rt' (skills resume_data) job_requirements)
    as (Hmatch & Hcomp & Hexact & Hgaps & Hbreakdown).
  cbv zeta in Hmatch, Hcomp, Hexact, Hgaps, Hbreakdown.
  destruct (strengths_weaknesses_up_to_order self self' rt rt' resume_data job_requirements)
    as (Hstrengths & Hareas & Hweak).
  destruct (strengths_weaknesses_up_to_order self' self rt' rt resume_data job_requirements)
    as (_ & Hareas' & _).
  cbv zeta in Hstrengths, Hareas, Hareas', Hweak.
  assert (Hscore : overall_score (analyze_candidate_fit self rt resume_data job_requirements)
                   = overall_score
                       (analyze_candidate_fit self' rt' resume_data job_requirements)).
  { unfold analyze_candidate_fit. cbn [overall_score].
    rewrite (cultural_fit_up_to_order self self' rt rt'), (experience_fit_self2 self self'),
      (qualification_fit_self self), (qualification_fit_self self').
    unfold _calculate_comprehensive_score. rewrite Hcomp. reflexivity. }
  assert (Hadvice : hiring_recommendation
                      (analyze_candidate_fit self rt resume_data job_requirements)
                    = hiring_recommendation
                        (analyze_candidate_fit self' rt' resume_data job_requirements)).
  { pose proof Hscore as Hs. unfold analyze_candidate_fit in Hs |- *.
    cbn [overall_score hiring_recommendation] in Hs |- *.
    unfold _generate_detailed_recommendation. rewrite Hs, Hcomp. reflexivity. }
  unfold generate_comprehensive_report.
  cbn [job_fit_analysis quality_analysis interview_priority recommendation
       report_interview_questions report_strengths_weaknesses report_resume_code
       confidential_lookup compatibility_score skill_match experience_match education_match
       fit_analysis matching_skills missing_skills skill_match_breakdown].
  split.
  { split; [exact Hscore |]. split.
    { unfold analyze_candidate_fit. cbn [fit_skill_analysis]. exact Hmatch. }
    split.
    { unfold analyze_candidate_fit. cbn [experience_analysis].
      rewrite (experience_fit_self2 self self'). reflexivity. }
    split; [| exact Hadvice].
    unfold analyze_candidate_fit. cbn [qualification_analysis].
    rewrite (qualification_fit_self self), (qualification_fit_self self'). reflexivity. }
  split.
  { split; [reflexivity |].
    split; [unfold _determine_interview_priority_advanced; rewrite Hscore; reflexivity |].
    split.
    { unfold _generate_comprehensive_recommendation_advanced. rewrite Hscore. reflexivity. }
    split; [| split; reflexivity].
    unfold analyze_candidate_fit. cbn [interview_questions]. reflexivity. }
  split.
  { unfold analyze_candidate_fit. cbn [fit_skill_analysis].
    split; [exact Hexact |]. split; [exact Hgaps | exact Hbreakdown]. }
  unfold analyze_candidate_fit. cbn [strengths_weaknesses fit_skill_analysis].
  split; [exact Hstrengths |]. split; [exact Hareas |]. split; [exact Hareas' | exact Hweak].
Qed.

(** C9, counterexample: for the resume naming python and the job text
    naming java, php, html and css, two iteration orders of sets give two
    reports that differ: the missing skills come in two orders, so the
    development areas and the skill-gap weakness, cut from the first three,
    are not the same. *)
Lemma set_order_changes_the_development_areas :
  let r := generate_comprehensive_report untrained insertion_order job_four_skills
             (sample_resume cv_python) in
  let r' := generate_comprehensive_report untrained rotated_order job_four_skills
              (sample_resume cv_python) in
  missing_skills (job_fit_analysis r) = ["java"; "php"; "html"; "css"]
  /\ missing_skills (job_fit_analysis r') = ["html"; "css"; "java"; "php"]
  /\ development_areas (report_strengths_weaknesses r) = ["java"; "php"; "html"]
  /\ development_areas (report_strengths_weaknesses r') = ["html"; "css"; "java"]
  /\ weaknesses (report_strengths_weaknesses r)
     = ["Skill gaps in: java, php, html"; "Limited professional experience"]
  /\ weaknesses (report_strengths_weaknesses r')
     = ["Skill gaps in: html, css, java"; "Limited professional experience"]
  /\ r <> r'.
Proof.
  assert (H : let r := generate_comprehensive_report untrained insertion_order
                         job_four_skills (sample_resume cv_python) in
              let r' := generate_comprehensive_report untrained rotated_order
                          job_four_skills (sample_resume cv_python) in
              (missing_skills (job_fit_analysis r),
               development_areas (report_strengths_weaknesses r),
               weaknesses (report_strengths_weaknesses r),
               (missing_skills (job_fit_analysis r'),
                development_areas (report_strengths_weaknesses r'),
                weaknesses (report_strengths_weaknesses r')))
              = (["java"; "php"; "html"; "css"], ["java"; "php"; "html"],
                 ["Skill gaps in: java, php, html"; "Limited professional experience"],
                 (["html"; "css"; "java"; "php"], ["html"; "css"; "java"],
                  ["Skill gaps in: html, css, java"; "Limited professional experience"])))
    by (vm_compute; reflexivity).
  cbv zeta in H |- *.
  remember (generate_comprehensive_report untrained insertion_order job_four_skills
              (sample_resume cv_python)) as r eqn:Er.
  remember (generate_comprehensive_report untrained rotated_order job_four_skills
              (sample_resume cv_python)) as r' eqn:Er'.
  clear Er Er'.
  injection H as Hm Hd Hw Hm' Hd' Hw'.
  repeat (split; [assumption |]).
  intros E. rewrite E in Hd. rewrite Hd in Hd'. discriminate Hd'.
Qed.
